(** * LivingInsider scraper: job store, learning engine and scoring

    A shallow embedding of [server.js] (the in-memory job store, the
    lifecycle of a job and the job snapshot endpoint) and of the scraper
    module (the learning engine, the quality scorer, source selection,
    the scrolling of a list page, the collection of links, the worker's
    per-row step and the final row normalisation), with the properties of
    the specification stated and settled against them, and further
    properties of the code.

    Conventions
    - A JavaScript number is an IEEE-754 binary64 value: Rocq's primitive
      [float], whose [+ - * / sqrt] round exactly as JavaScript's do.
      Millisecond timestamps and container sizes are integers and are kept
      in [Z].
    - A JavaScript string is a [string]: one [ascii] per code unit, so the
      model covers strings whose code units are below 256.
    - [Date.now()], [uuidv4()] and [Math.random()] are inputs of the
      functions that call them. *)

From Stdlib Require Import ZArith QArith Qround List Bool Lia Lqa Permutation Sorted Ascii String.
From Stdlib Require Import DecimalString.
From Stdlib Require Import Floats.PrimFloat Floats.FloatOps Floats.SpecFloat.
From Stdlib Require Numbers.Cyclic.Int63.Uint63.
From Stdlib Require Floats.FloatAxioms.
From stdpp Require Import base option list gmap strings.

Set Warnings "-inexact-float,-clear-no-such-hyp".
Local Open Scope Z_scope.

(* ===================================================================== *)
(** ** Insertion-ordered maps ([Map]) and stable sorting ([Array.sort]) *)
(* ===================================================================== *)

Module JSMap.

(** [Map.prototype.get] *)
Fixpoint get {V} (k : string) (m : list (string * V)) : option V :=
  match m with
  | [] => None
  | (k', v) :: r => if String.eqb k' k then Some v else get k r
  end.

(** [Map.prototype.set]: an existing key keeps its place, a new key goes
    last. *)
Fixpoint set {V} (k : string) (v : V) (m : list (string * V)) : list (string * V) :=
  match m with
  | [] => [(k, v)]
  | (k', v') :: r => if String.eqb k' k then (k, v) :: r else (k', v') :: set k v r
  end.

(** [Map.prototype.delete] *)
Fixpoint delete {V} (k : string) (m : list (string * V)) : list (string * V) :=
  match m with
  | [] => []
  | (k', v') :: r => if String.eqb k' k then r else (k', v') :: delete k r
  end.

End JSMap.

Module JSArray.

(** [Array.prototype.sort(cmp)] for a comparator that is a function of
    its arguments: the sort is stable, so it is the insertion sort that
    moves each element left past the elements that compare greater.
    [gt a b] is [cmp(a, b) > 0]. *)
Fixpoint insert {A} (gt : A -> A -> bool) (x : A) (l : list A) : list A :=
  match l with
  | [] => [x]
  | y :: r => if gt y x then x :: y :: r else y :: insert gt x r
  end.

Definition sort {A} (gt : A -> A -> bool) (l : list A) : list A :=
  fold_left (fun acc x => insert gt x acc) l [].

End JSArray.

(* ===================================================================== *)
(** ** server.js: the in-memory job store                                *)
(* ===================================================================== *)

Module Server.

(** [status]: "running", "done" or "error". *)
Inductive Status := Running | Done | Error.

(** An SSE response object, by identity. *)
Definition Res := nat.

Section Store.

(** The job's options, its [meta] object and a row of [rows] are
    carried around by the store and never inspected by it. *)
Variables Opts Meta Row : Type.

(** [TTL_MS] and [MAX_CACHE_ITEMS], read once from the environment. *)
Variable TTL_MS : Z.
Variable MAX_CACHE_ITEMS : Z.

(** The [meta] literal of [createJob]. *)
Variable meta0 : Meta.

Record Job := mkJob {
  createdAt : Z;
  updatedAt : Z;
  status : Status;
  opts : Opts;
  meta : Meta;
  rows : list Row;
  error : option string;
  clients : list Res;
}.

(** The module state: the [jobs] map, and the responses on which
    [res.end()] has been called, in call order. *)
Record Store := mkStore {
  jobs : list (string * Job);
  ended : list Res;
}.

(** A call either returns or throws (the [TypeError] of destructuring
    [entries[i]] past the end of [entries]). *)
Inductive Completion := Normal (s : Store) | Thrown (s : Store).

Definition expired (now : Z) (j : Job) : bool := now - createdAt j >? TTL_MS.

(** [for (const res of j.clients) { try { res.end(); } catch {} }] *)
Definition endClients (j : Job) (s : Store) : Store :=
  {| jobs := jobs s; ended := ended s ++ clients j |}.

(** [jobs.delete(jobId)] *)
Definition deleteJob (jobId : string) (s : Store) : Store :=
  {| jobs := JSMap.delete jobId (jobs s); ended := ended s |}.

(** The body of the cleanup timer's loop, for one entry. *)
Definition sweepStep (now : Z) (s : Store) (e : string * Job) : Store :=
  if expired now e.2 then deleteJob e.1 (endClients e.2 s) else s.

(** The cleanup timer's callback. Deleting the entry being visited does
    not disturb the iteration, so the loop runs over the entries the
    map had when it started. *)
Definition ttlSweep (now : Z) (s : Store) : Store :=
  fold_left (sweepStep now) (jobs s) s.

(** [(a, b) => a[1].createdAt - b[1].createdAt], as [cmp(a, b) > 0]. *)
Definition olderFirst (a b : string * Job) : bool :=
  createdAt a.2 - createdAt b.2 >? 0.

(** [for (let i = 0; i < removeN; i++) { const [jobId, j] = entries[i]; ... }] *)
Fixpoint evictLoop (removeN : nat) (entries : list (string * Job)) (s : Store)
  : Completion :=
  match removeN with
  | O => Normal s
  | S n =>
      match entries with
      | [] => Thrown s
      | (jobId, j) :: rest => evictLoop n rest (deleteJob jobId (endClients j s))
      end
  end.

Definition evictIfNeeded (s : Store) : Completion :=
  let size := Z.of_nat (length (jobs s)) in
  if size <=? MAX_CACHE_ITEMS then Normal s
  else
    let entries := JSArray.sort olderFirst (jobs s) in
    let removeN := Z.max 1 (size - MAX_CACHE_ITEMS) in
    evictLoop (Z.to_nat removeN) entries s.

Definition newJob (o : Opts) (now : Z) : Job :=
  {| createdAt := now; updatedAt := now; status := Running; opts := o;
     meta := meta0; rows := []; error := None; clients := [] |}.

(** [createJob(opts)]; [jobId] is the value [uuidv4()] returns and
    [now] the value of [Date.now()]. *)
Definition createJob (o : Opts) (jobId : string) (now : Z) (s : Store) : Completion :=
  match evictIfNeeded s with
  | Thrown s' => Thrown s'
  | Normal s' =>
      Normal {| jobs := JSMap.set jobId (newJob o now) (jobs s'); ended := ended s' |}
  end.

(** [getJob(jobId)] *)
Definition getJob (jobId : string) (now : Z) (s : Store) : option Job * Store :=
  match JSMap.get jobId (jobs s) with
  | None => (None, s)
  | Some j =>
      if expired now j then (None, deleteJob jobId s) else (Some j, s)
  end.

(** [j.clients.add(res)] of the progress route, after [getJob] found
    the job. *)
Definition addClient (res : Res) (j : Job) : Job :=
  {| createdAt := createdAt j; updatedAt := updatedAt j; status := status j;
     opts := opts j; meta := meta j; rows := rows j; error := error j;
     clients := if bool_decide (res ∈ clients j) then clients j
                else clients j ++ [res] |}.

Definition subscribe (jobId : string) (res : Res) (now : Z) (s : Store)
  : bool * Store :=
  match getJob jobId now s with
  | (None, s') => (false, s')
  | (Some j, s') =>
      (true, {| jobs := JSMap.set jobId (addClient res j) (jobs s'); ended := ended s' |})
  end.

(** The answer of [GET /api/job/:id]: status 404, or the JSON body. *)
Inductive JobResponse :=
| NotFound
| JobJson (jobId : string) (st : Status) (m : Meta) (err : option string)
          (rs : list Row).

Definition api_job (jobId : string) (now : Z) (s : Store) : JobResponse * Store :=
  match getJob jobId now s with
  | (None, s') => (NotFound, s')
  | (Some j, s') =>
      (JobJson jobId (status j) (meta j) (error j)
               (match status j with Done => rows j | _ => [] end), s')
  end.

End Store.

Arguments createdAt {Opts Meta Row}.
Arguments updatedAt {Opts Meta Row}.
Arguments status {Opts Meta Row}.
Arguments opts {Opts Meta Row}.
Arguments meta {Opts Meta Row}.
Arguments rows {Opts Meta Row}.
Arguments error {Opts Meta Row}.
Arguments clients {Opts Meta Row}.
Arguments mkJob {Opts Meta Row}.
Arguments jobs {Opts Meta Row}.
Arguments ended {Opts Meta Row}.
Arguments mkStore {Opts Meta Row}.
Arguments Normal {Opts Meta Row}.
Arguments Thrown {Opts Meta Row}.
Arguments NotFound {Meta Row}.
Arguments JobJson {Meta Row}.
Arguments expired {Opts Meta Row}.
Arguments endClients {Opts Meta Row}.
Arguments deleteJob {Opts Meta Row}.
Arguments sweepStep {Opts Meta Row}.
Arguments ttlSweep {Opts Meta Row}.
Arguments olderFirst {Opts Meta Row}.
Arguments evictLoop {Opts Meta Row}.
Arguments evictIfNeeded {Opts Meta Row}.
Arguments newJob {Opts Meta Row}.
Arguments createJob {Opts Meta Row}.
Arguments getJob {Opts Meta Row}.
Arguments addClient {Opts Meta Row}.
Arguments subscribe {Opts Meta Row}.
Arguments api_job {Opts Meta Row}.

End Server.


Module ServerSamples.

Import Server.

(** A store of capacity 2 that holds two jobs, the older one with a
    subscriber. *)
Definition jobAt (t : Z) (cs : list Res) : Job unit unit unit :=
  {| createdAt := t; updatedAt := t; status := Running; opts := tt; meta := tt;
     rows := []; error := None; clients := cs |}.

Definition twoJobs : Store unit unit unit :=
  {| jobs := [("a"%string, jobAt 1 [7%nat]); ("b"%string, jobAt 2 [])]; ended := [] |}.

(** A job with a subscriber, asked for 1500 ms after its creation under a
    TTL of 1000 ms. *)
Definition oneJob : Store unit unit unit :=
  {| jobs := [("a"%string, jobAt 0 [7%nat])]; ended := [] |}.

End ServerSamples.

(* ===================================================================== *)
(** ** JavaScript numbers                                                *)
(* ===================================================================== *)

Module JSNum.

Local Open Scope float_scope.

(** [Boolean(x)] for a number: every number but [0], [-0] and [NaN]. *)
Definition truthy (x : float) : bool := negb (is_zero x || is_nan x).

(** [x || y] on numbers. *)
Definition or_else (x y : float) : float := if truthy x then x else y.

(** The integer [z] as a number (exact below [2^53]). *)
Definition of_Z (z : Z) : float :=
  if (z <? 0)%Z then - of_uint63 (Uint63.of_Z (- z)) else of_uint63 (Uint63.of_Z z).

Definition of_nat (n : nat) : float := of_Z (Z.of_nat n).

(** [Math.round]: the integer nearest to [x], a tie going up; [x] itself
    when [x] is an integer, an infinity or [NaN]; [-0] for [-0.5 <= x < 0].
    A finite [x] is [v * 2^e] for integers [v] and [e]. *)
Definition Math_round (x : float) : float :=
  match Prim2SF x with
  | S754_finite s m e =>
      if (0 <=? e)%Z then x
      else
        let v := if s then Z.neg m else Z.pos m in
        let z := ((2 * v + 2 ^ (- e)) / 2 ^ (- e + 1))%Z in
        if (z =? 0)%Z && s then (-0) else of_Z z
  | _ => x
  end.

(** [Math.ceil] *)
Definition Math_ceil (x : float) : float :=
  match Prim2SF x with
  | S754_finite s m e =>
      if (0 <=? e)%Z then x
      else
        let v := if s then Z.neg m else Z.pos m in
        let z := (- ((- v) / 2 ^ (- e)))%Z in
        if (z =? 0)%Z && s then (-0) else of_Z z
  | _ => x
  end.

(** [Math.min(a, b)] and [Math.max(a, b)]: [NaN] if either is, and [-0]
    below [+0]. *)
Definition Math_min (a b : float) : float :=
  if is_nan a || is_nan b then nan
  else if a <? b then a
  else if b <? a then b
  else if get_sign a then a else b.

Definition Math_max (a b : float) : float :=
  if is_nan a || is_nan b then nan
  else if b <? a then a
  else if a <? b then b
  else if get_sign a then b else a.

(** [ToIntegerOrInfinity], as [Array.prototype.slice] applies it to its
    bounds: [NaN] is [0], a fraction is truncated. *)
Inductive IntOrInf := Fin (z : Z) | PlusInf | MinusInf.

Definition ToIntegerOrInfinity (x : float) : IntOrInf :=
  match Prim2SF x with
  | S754_zero _ | S754_nan => Fin 0
  | S754_infinity s => if s then MinusInf else PlusInf
  | S754_finite s m e =>
      let a := if (0 <=? e)%Z then (Z.pos m * 2 ^ e)%Z else (Z.pos m / 2 ^ (- e))%Z in
      Fin (if s then (- a)%Z else a)
  end.

End JSNum.

Module JSArraySlice.

(** [arr.slice(0, end)]: a negative [end] counts from the back. *)
Definition slice0 {A} (end_ : JSNum.IntOrInf) (l : list A) : list A :=
  match end_ with
  | JSNum.Fin z =>
      if (z <? 0)%Z then firstn (Z.to_nat (Z.of_nat (length l) + z)) l
      else firstn (Z.to_nat z) l
  | JSNum.PlusInf => l
  | JSNum.MinusInf => []
  end.

(** [arr.slice(-3)]: the last three elements, or all of a shorter array. *)
Definition lastn {A} (n : nat) (l : list A) : list A :=
  skipn (length l - n) l.

End JSArraySlice.

(* ===================================================================== *)
(** ** JavaScript strings                                                *)
(* ===================================================================== *)

Module JSString.

Local Open Scope nat_scope.

Definition code (c : ascii) : nat := nat_of_ascii c.

(** [\s] of a regular expression, among the code units below 256. *)
Definition isSpace (c : ascii) : bool :=
  let n := code c in
  ((9 <=? n) && (n <=? 13)) || (n =? 32) || (n =? 160).

(** [\d] *)
Definition isDigit (c : ascii) : bool :=
  let n := code c in (48 <=? n) && (n <=? 57).

(** [String.prototype.toLowerCase], among the code units below 256:
    [A-Z] and the Latin-1 capitals (all of 192..222 but the sign 215). *)
Definition lowerChar (c : ascii) : ascii :=
  let n := code c in
  if ((65 <=? n) && (n <=? 90)) || ((192 <=? n) && (n <=? 222) && negb (n =? 215))
  then ascii_of_nat (n + 32) else c.

Fixpoint toLowerCase (s : string) : string :=
  match s with
  | EmptyString => EmptyString
  | String c r => String (lowerChar c) (toLowerCase r)
  end.

(** [s.replace(re, '')] for a global [re] that matches single code units
    (or runs of them): the code units [drop] accepts are removed. *)
Fixpoint removeAll (drop : ascii -> bool) (s : string) : string :=
  match s with
  | EmptyString => EmptyString
  | String c r => if drop c then removeAll drop r else String c (removeAll drop r)
  end.

Fixpoint allChars (p : ascii -> bool) (s : string) : bool :=
  match s with
  | EmptyString => true
  | String c r => p c && allChars p r
  end.

(** [s.includes(c)] for a one-unit string [c]. *)
Fixpoint includesChar (c : ascii) (s : string) : bool :=
  match s with
  | EmptyString => false
  | String d r => Ascii.eqb d c || includesChar c r
  end.

(** [s.split(c)] for a one-unit separator [c]. *)
Fixpoint splitChar (c : ascii) (s : string) : list string :=
  match s with
  | EmptyString => [EmptyString]
  | String d r =>
      if Ascii.eqb d c then EmptyString :: splitChar c r
      else match splitChar c r with
           | [] => [String d EmptyString]
           | p :: ps => String d p :: ps
           end
  end.

(** [Boolean(s)] for a string. *)
Definition truthy (s : string) : bool :=
  match s with EmptyString => false | _ => true end.

(** [Boolean(v)] for a value that is a string or [null]. *)
Definition truthyOpt (v : option string) : bool :=
  match v with Some s => truthy s | None => false end.

(** [arr.join(sep)] on strings. *)
Definition join (sep : string) (l : list string) : string := String.concat sep l.

End JSString.

(* ===================================================================== *)
(** ** The scraper module: schema, learning engine, scorer, pipeline     *)
(* ===================================================================== *)

Module Scraper.

(** *** The output schema *)

Definition SCHEMA_KEYS : list string := [
  "listing_id"; "listing_url"; "category"; "deal_type"; "project_name";
  "listing_title"; "price_text"; "price_value"; "price_psm";
  "old_price_text"; "discount_percent"; "usable_area_sqm"; "floor";
  "bedrooms"; "bathrooms"; "parking"; "furnishing"; "direction";
  "created_at_iso"; "bumped_at_iso"; "location_text"; "province";
  "district"; "nearby_bts_json"; "nearby_hospitals_json";
  "nearby_universities_json"; "nearby_malls_json"; "nearby_all_json";
  "nearest_bts_name"; "nearest_bts_distance_km"; "nearest_hospital_name";
  "nearest_hospital_distance_km"; "nearest_mall_name";
  "nearest_mall_distance_km"; "map_url"; "lat"; "lng"; "agent_name";
  "agent_url"; "agent_verified"; "agent_rating"; "clicks"; "views";
  "favorites"; "contact_phone"; "contact_email"; "contact_line_url";
  "contact_line_id"; "contact_facebook_url"; "contact_buttons";
  "description_text"; "highlights"; "detail_snippet"; "images";
  "cover_image"; "facilities_json"; "facility_count"; "has_pool";
  "has_gym"; "has_parking"; "has_security"; "has_garden"; "has_sauna";
  "has_ev_charger"; "has_sky_pool"; "has_foreigner_quota"; "is_luxury";
  "has_private_lift"; "quality_score"; "price_score"; "data_completeness";
  "anomaly_flags"; "walkability_score"; "location_score"; "facility_score";
  "investment_score"; "value_score"
]%string.

(** A value stored in a row object. A property that is absent reads as
    [undefined]: the lookup in the [gmap] gives [None]. *)
Inductive jsval :=
| VUndefined
| VNull
| VBool (b : bool)
| VNum (x : float)
| VStr (s : string).

(** [r?.[k] ?? null] *)
Definition orNull (v : option jsval) : jsval :=
  match v with
  | None | Some VUndefined | Some VNull => VNull
  | Some w => w
  end.

(** [const o = {}; for (const k of SCHEMA_KEYS) o[k] = r?.[k] ?? null;] *)
Definition normalizeRow (r : gmap string jsval) : gmap string jsval :=
  fold_left (fun o k => <[k := orNull (r !! k)]> o) SCHEMA_KEYS ∅.

(** [rows.map((r) => ...)] at the end of [scrapeListings]. *)
Definition finalRows (rows : list (gmap string jsval)) : list (gmap string jsval) :=
  map normalizeRow rows.

(** *** What [parseDetail] stores for a field it found nothing for

    [Boolean(v)] and [v || d] on values; a property the page gave nothing
    for is missing from [data]. *)
Definition jsTruthy (v : jsval) : bool :=
  match v with
  | VUndefined | VNull => false
  | VBool b => b
  | VNum x => JSNum.truthy x
  | VStr s => JSString.truthy s
  end.

Definition jsOr (v : option jsval) (d : jsval) : jsval :=
  match v with
  | Some w => if jsTruthy w then w else d
  | None => d
  end.

Definition FACILITY_FLAGS : list string :=
  [ "has_pool"; "has_gym"; "has_parking"; "has_security"; "has_garden";
    "has_sauna"; "has_ev_charger"; "has_sky_pool"; "has_foreigner_quota";
    "is_luxury"; "has_private_lift" ]%string.

(** The entries [facility_count: data.facility_count || 0] and
    [has_pool: data.has_pool || false], ..., of the row literal of
    [parseDetail]. *)
Definition facilityEntries (data : gmap string jsval) : list (string * jsval) :=
  ("facility_count"%string, jsOr (data !! "facility_count"%string) (VNum 0))
  :: map (fun k => (k, jsOr (data !! k) (VBool false))) FACILITY_FLAGS.

(** The row literal, as far as these entries go, and the row
    [parseDetail] returns for it. *)
Definition facilityRow (data : gmap string jsval) : gmap string jsval :=
  normalizeRow (list_to_map (facilityEntries data)).

(** *** The row, as the learning engine and the scorer read it

    The fields of the row object that the code below reads or writes, each
    with the type [parseDetail] gives it ([out[k] = row[k] ?? null]: a
    missing value is [null], here [None]). [parseDetail] always stores a
    string in [listing_title] and [location_text]; they are typed
    [string | null] because [generateSignature] provides for a missing
    title. The four scores the worker fills in are [null] until then;
    [value_score] is [0] until then. *)

Record Listing := mkListing {
  listing_id : option string;
  listing_url : string;
  category : string;
  deal_type : string;
  listing_title : option string;
  price_value : option float;
  price_psm : option float;
  old_price_text : option string;
  usable_area_sqm : option float;
  bedrooms : option float;
  bathrooms : option float;
  location_text : option string;
  agent_name : string;
  agent_verified : bool;
  contact_phone : option string;
  contact_email : option string;
  contact_line_url : option string;
  description_text : string;
  images : string;
  quality_score : option float;
  price_score : option float;
  data_completeness : option float;
  anomaly_flags : option string;
  location_score : float;
  value_score : float;
}.

(** [row.quality_score = v] *)
Definition set_quality_score (v : option float) (r : Listing) : Listing :=
  {| listing_id := listing_id r; listing_url := listing_url r; category :=
     category r; deal_type := deal_type r; listing_title := listing_title r;
     price_value := price_value r; price_psm := price_psm r; old_price_text
     := old_price_text r; usable_area_sqm := usable_area_sqm r; bedrooms :=
     bedrooms r; bathrooms := bathrooms r; location_text := location_text r;
     agent_name := agent_name r; agent_verified := agent_verified r;
     contact_phone := contact_phone r; contact_email := contact_email r;
     contact_line_url := contact_line_url r; description_text :=
     description_text r; images := images r; quality_score := v; price_score
     := price_score r; data_completeness := data_completeness r;
     anomaly_flags := anomaly_flags r; location_score := location_score r;
     value_score := value_score r |}.

(** [row.price_score = v] *)
Definition set_price_score (v : option float) (r : Listing) : Listing :=
  {| listing_id := listing_id r; listing_url := listing_url r; category :=
     category r; deal_type := deal_type r; listing_title := listing_title r;
     price_value := price_value r; price_psm := price_psm r; old_price_text
     := old_price_text r; usable_area_sqm := usable_area_sqm r; bedrooms :=
     bedrooms r; bathrooms := bathrooms r; location_text := location_text r;
     agent_name := agent_name r; agent_verified := agent_verified r;
     contact_phone := contact_phone r; contact_email := contact_email r;
     contact_line_url := contact_line_url r; description_text :=
     description_text r; images := images r; quality_score := quality_score
     r; price_score := v; data_completeness := data_completeness r;
     anomaly_flags := anomaly_flags r; location_score := location_score r;
     value_score := value_score r |}.

(** [row.data_completeness = v] *)
Definition set_data_completeness (v : option float) (r : Listing) : Listing :=
  {| listing_id := listing_id r; listing_url := listing_url r; category :=
     category r; deal_type := deal_type r; listing_title := listing_title r;
     price_value := price_value r; price_psm := price_psm r; old_price_text
     := old_price_text r; usable_area_sqm := usable_area_sqm r; bedrooms :=
     bedrooms r; bathrooms := bathrooms r; location_text := location_text r;
     agent_name := agent_name r; agent_verified := agent_verified r;
     contact_phone := contact_phone r; contact_email := contact_email r;
     contact_line_url := contact_line_url r; description_text :=
     description_text r; images := images r; quality_score := quality_score
     r; price_score := price_score r; data_completeness := v; anomaly_flags
     := anomaly_flags r; location_score := location_score r; value_score :=
     value_score r |}.

(** [row.anomaly_flags = v] *)
Definition set_anomaly_flags (v : option string) (r : Listing) : Listing :=
  {| listing_id := listing_id r; listing_url := listing_url r; category :=
     category r; deal_type := deal_type r; listing_title := listing_title r;
     price_value := price_value r; price_psm := price_psm r; old_price_text
     := old_price_text r; usable_area_sqm := usable_area_sqm r; bedrooms :=
     bedrooms r; bathrooms := bathrooms r; location_text := location_text r;
     agent_name := agent_name r; agent_verified := agent_verified r;
     contact_phone := contact_phone r; contact_email := contact_email r;
     contact_line_url := contact_line_url r; description_text :=
     description_text r; images := images r; quality_score := quality_score
     r; price_score := price_score r; data_completeness := data_completeness
     r; anomaly_flags := v; location_score := location_score r; value_score
     := value_score r |}.

(** [row.value_score = v] *)
Definition set_value_score (v : float) (r : Listing) : Listing :=
  {| listing_id := listing_id r; listing_url := listing_url r; category :=
     category r; deal_type := deal_type r; listing_title := listing_title r;
     price_value := price_value r; price_psm := price_psm r; old_price_text
     := old_price_text r; usable_area_sqm := usable_area_sqm r; bedrooms :=
     bedrooms r; bathrooms := bathrooms r; location_text := location_text r;
     agent_name := agent_name r; agent_verified := agent_verified r;
     contact_phone := contact_phone r; contact_email := contact_email r;
     contact_line_url := contact_line_url r; description_text :=
     description_text r; images := images r; quality_score := quality_score
     r; price_score := price_score r; data_completeness := data_completeness
     r; anomaly_flags := anomaly_flags r; location_score := location_score
     r; value_score := v |}.


(** *** AILearningEngine *)

Local Open Scope float_scope.

Record PriceStats := mkPriceStats {
  ps_min : float;
  ps_max : float;
  ps_sum : float;
  ps_count : float;
  ps_values : list float;
}.

Record CatStats := mkCatStats {
  cs_min : float;
  cs_max : float;
  cs_sum : float;
  cs_count : float;
}.

Record SourcePerf := mkSourcePerf {
  attempts : float;
  successes : float;
  avgQuality : float;
  avgLinksFound : float;
  totalLinks : float;
  score : float;
}.

(** One entry of [scrollEffectiveness]: [{ rounds, links }]. *)
Record ScrollSample := mkScrollSample {
  rounds : float;
  links : float;
}.

Record Engine := mkEngine {
  sourcePerformance : list (string * SourcePerf);
  priceStats : PriceStats;
  categoryStats : list (string * CatStats);
  scrollEffectiveness : list ScrollSample;
  duplicateSignatures : gset string;
}.

(** [new AILearningEngine()] *)
Definition newEngine : Engine :=
  {| sourcePerformance := [];
     priceStats := {| ps_min := infinity; ps_max := 0; ps_sum := 0; ps_count := 0;
                      ps_values := [] |};
     categoryStats := [];
     scrollEffectiveness := [];
     duplicateSignatures := ∅ |}.

(** [Boolean(price)] for a value that is a number or [null]. *)
Definition truthyNum (v : option float) : bool :=
  match v with Some x => JSNum.truthy x | None => false end.

(** [ToNumber] of a value that is a number or [null]. *)
Definition toNumber (v : option float) : float :=
  match v with Some x => x | None => 0 end.

(** [metrics] of [recordSourcePerformance]. *)
Record Metrics := mkMetrics {
  success : bool;
  linksFound : float;
  m_avgQuality : float;
}.

Definition recordSourcePerformance (sourceId : string) (metrics : Metrics) (e : Engine)
  : Engine :=
  let perf0 :=
    match JSMap.get sourceId (sourcePerformance e) with
    | Some p => p
    | None => {| attempts := 0; successes := 0; avgQuality := 0; avgLinksFound := 0;
                 totalLinks := 0; score := 0 |}
    end in
  let attempts' := attempts perf0 + 1 in
  let successes' := successes perf0 + (if success metrics then 1 else 0) in
  let totalLinks' := totalLinks perf0 + JSNum.or_else (linksFound metrics) 0 in
  let avgLinksFound' := totalLinks' / attempts' in
  let avgQuality' :=
    ((avgQuality perf0 * (attempts' - 1)) + JSNum.or_else (m_avgQuality metrics) 0)
    / attempts' in
  let score' :=
    (successes' / attempts') * 0.4 +
    JSNum.Math_min (avgLinksFound' / 15) 1 * 0.3 +
    avgQuality' * 0.3 in
  {| sourcePerformance :=
       JSMap.set sourceId
         {| attempts := attempts'; successes := successes'; avgQuality := avgQuality';
            avgLinksFound := avgLinksFound'; totalLinks := totalLinks'; score := score' |}
         (sourcePerformance e);
     priceStats := priceStats e;
     categoryStats := categoryStats e;
     scrollEffectiveness := scrollEffectiveness e;
     duplicateSignatures := duplicateSignatures e |}.

(** [learnPrice(price, category)] *)
Definition learnPrice (price : option float) (category : string) (e : Engine) : Engine :=
  match price with
  | None => e
  | Some p =>
      if negb (JSNum.truthy p) || (p <=? 0) then e
      else
        let g := priceStats e in
        let g' := {| ps_min := JSNum.Math_min (ps_min g) p;
                     ps_max := JSNum.Math_max (ps_max g) p;
                     ps_sum := ps_sum g + p;
                     ps_count := ps_count g + 1;
                     ps_values := ps_values g ++ [p] |} in
        let c :=
          match JSMap.get category (categoryStats e) with
          | Some c => c
          | None => {| cs_min := infinity; cs_max := 0; cs_sum := 0; cs_count := 0 |}
          end in
        let c' := {| cs_min := JSNum.Math_min (cs_min c) p;
                     cs_max := JSNum.Math_max (cs_max c) p;
                     cs_sum := cs_sum c + p;
                     cs_count := cs_count c + 1 |} in
        {| sourcePerformance := sourcePerformance e;
           priceStats := g';
           categoryStats := JSMap.set category c' (categoryStats e);
           scrollEffectiveness := scrollEffectiveness e;
           duplicateSignatures := duplicateSignatures e |}
  end.

(** [calculateStdDev(values, mean)]; [Math.pow(d, 2)] is the product
    [d * d]. *)
Definition calculateStdDev (values : list float) (mean : float) : float :=
  if (length values <? 2)%nat then 0
  else
    let variance :=
      fold_left (fun sum val => sum + (val - mean) * (val - mean)) values 0
      / JSNum.of_nat (length values) in
    sqrt variance.

(** The values [detectPriceAnomaly] returns besides [null]. *)
Inductive Anomaly :=
| outlier_high
| outlier_low
| suspiciously_low
| suspiciously_high.

Definition anomalyName (a : Anomaly) : string :=
  match a with
  | outlier_high => "outlier_high"
  | outlier_low => "outlier_low"
  | suspiciously_low => "suspiciously_low"
  | suspiciously_high => "suspiciously_high"
  end.

(** [globalAvg] and [zScore] of [detectPriceAnomaly]. *)
Definition globalAvg (e : Engine) : float :=
  ps_sum (priceStats e) / ps_count (priceStats e).

Definition zScore (e : Engine) (price : float) : float :=
  let globalStd := calculateStdDev (ps_values (priceStats e)) (globalAvg e) in
  abs ((price - globalAvg e) / JSNum.or_else globalStd 1).

(** [catAnomaly] of [detectPriceAnomaly], after its [if] block. *)
Definition catAnomaly (e : Engine) (price : float) (category : string) : option Anomaly :=
  if JSString.truthy category then
    match JSMap.get category (categoryStats e) with
    | Some catStats =>
        if 3 <=? cs_count catStats then
          let catAvg := cs_sum catStats / cs_count catStats in
          let a1 := if price <? catAvg * 0.3 then Some suspiciously_low else None in
          if catAvg * 3 <? price then Some suspiciously_high else a1
        else None
    | None => None
    end
  else None.

(** [detectPriceAnomaly(price, category)] *)
Definition detectPriceAnomaly (e : Engine) (price : option float) (category : string)
  : option Anomaly :=
  if negb (truthyNum price) || (ps_count (priceStats e) <? 5) then None
  else
    let p := toNumber price in
    let cat := catAnomaly e p category in
    if 3 <? zScore e p then Some outlier_high
    else if p <? globalAvg e * 0.1 then Some outlier_low
    else cat.

(** [recommendScrollRounds(currentRounds, linksFound)]: the new engine
    state and the value returned. *)
Definition recommendScrollRounds (currentRounds linksFound : float) (e : Engine)
  : Engine * float :=
  let hist := scrollEffectiveness e ++ [{| rounds := currentRounds; links := linksFound |}] in
  let e' := {| sourcePerformance := sourcePerformance e;
               priceStats := priceStats e;
               categoryStats := categoryStats e;
               scrollEffectiveness := hist;
               duplicateSignatures := duplicateSignatures e |} in
  if (length hist <? 3)%nat then (e', currentRounds)
  else
    let recent := JSArraySlice.lastn 3 hist in
    let avgLinks :=
      fold_left (fun sum x => sum + links x) recent 0 / JSNum.of_nat (length recent) in
    if avgLinks <? 8 then (e', JSNum.Math_min (currentRounds + 5) 35)
    else if 20 <? avgLinks then (e', JSNum.Math_max (currentRounds - 3) 15)
    else (e', currentRounds).

(** *** Duplicate signatures

    [join] turns a number into a string with [Number::toString], which
    belongs to the language runtime: it is a parameter here. *)

Section Signature.

Variable Number_toString : float -> string.

(** An element of [parts]: a string, a number, or [undefined]/[null]. *)
Inductive Part :=
| PStr (s : string)
| PNum (x : float)
| PNone.

(** [Boolean(part)], the test of [.filter(Boolean)]. *)
Definition partTruthy (p : Part) : bool :=
  match p with
  | PStr s => JSString.truthy s
  | PNum x => JSNum.truthy x
  | PNone => false
  end.

Definition partToString (p : Part) : string :=
  match p with
  | PStr s => s
  | PNum x => Number_toString x
  | PNone => ""
  end.

Definition numPart (v : option float) : Part :=
  match v with Some x => PNum x | None => PNone end.

Definition strPart (v : option string) : Part :=
  match v with Some s => PStr s | None => PNone end.

(** [listing.listing_title?.toLowerCase().replace(/\s+/g, '')] *)
Definition titlePart (v : option string) : Part :=
  match v with
  | Some t => PStr (JSString.removeAll JSString.isSpace (JSString.toLowerCase t))
  | None => PNone
  end.

(** The array literal of [generateSignature], before [.filter(Boolean)]. *)
Definition signatureParts (l : Listing) : list Part :=
  [ titlePart (listing_title l);
    numPart (price_value l);
    numPart (usable_area_sqm l);
    numPart (bedrooms l);
    strPart (location_text l) ].

Definition generateSignature (l : Listing) : string :=
  JSString.join "|" (map partToString (List.filter partTruthy (signatureParts l))).

(** [isDuplicate(listing)]: the value returned and the new engine state. *)
Definition isDuplicate (l : Listing) (e : Engine) : bool * Engine :=
  let sig := generateSignature l in
  if bool_decide (sig ∈ duplicateSignatures e) then (true, e)
  else
    (false,
     {| sourcePerformance := sourcePerformance e;
        priceStats := priceStats e;
        categoryStats := categoryStats e;
        scrollEffectiveness := scrollEffectiveness e;
        duplicateSignatures := duplicateSignatures e ∪ {[ sig ]} |}).

End Signature.


(** *** QualityScorer *)

(** The test of [scoreDataCompleteness]'s filter, for a field that holds a
    string or [null], and for one that holds a number or [null]. *)
Definition filledStr (v : option string) : bool :=
  match v with
  | None => false
  | Some s => negb (String.length s <? 2)%nat
  end.

Definition filledNum (v : option float) : bool :=
  match v with None => false | Some _ => true end.

Definition completenessChecks (l : Listing) : list bool :=
  [ filledStr (listing_title l); filledStr (Some (category l));
    filledStr (Some (deal_type l)); filledNum (price_value l);
    filledStr (location_text l); filledNum (bedrooms l);
    filledNum (bathrooms l); filledNum (usable_area_sqm l);
    filledStr (contact_phone l); filledStr (Some (agent_name l));
    filledStr (Some (images l)); filledStr (Some (description_text l)) ].

Definition scoreDataCompleteness (l : Listing) : float :=
  JSNum.of_nat (length (List.filter id (completenessChecks l)))
  / JSNum.of_nat (length (completenessChecks l)).

(** [/^0\d{8,9}$/.test(s)] *)
Definition isThaiPhone (s : string) : bool :=
  match s with
  | String c r =>
      Ascii.eqb c "0" && JSString.allChars JSString.isDigit r
      && ((String.length r =? 8)%nat || (String.length r =? 9)%nat)
  | EmptyString => false
  end.

(** [/\s|-/] *)
Definition isSpaceOrHyphen (c : ascii) : bool :=
  JSString.isSpace c || Ascii.eqb c "-".

Definition scoreContactQuality (l : Listing) : float :=
  let s0 := 0 in
  let s1 :=
    match contact_phone l with
    | Some ph =>
        if JSString.truthy ph && isThaiPhone (JSString.removeAll isSpaceOrHyphen ph)
        then s0 + 0.4 else s0
    | None => s0
    end in
  let s2 :=
    match contact_email l with
    | Some em => if JSString.truthy em && JSString.includesChar "@" em then s1 + 0.2 else s1
    | None => s1
    end in
  let s3 := if JSString.truthyOpt (contact_line_url l) then s2 + 0.2 else s2 in
  let s4 :=
    if JSString.truthy (agent_name l) && (2 <? String.length (agent_name l))%nat
    then s3 + 0.1 else s3 in
  if agent_verified l then s4 + 0.1 else s4.

Definition scoreImageQuality (l : Listing) : float :=
  if negb (JSString.truthy (images l)) then 0
  else
    let imgCount := length (List.filter JSString.truthy (JSString.splitChar "|" (images l))) in
    if (imgCount =? 0)%nat then 0
    else if (10 <=? imgCount)%nat then 1
    else JSNum.of_nat imgCount / 10.

Definition scorePriceReliability (l : Listing) : float :=
  match price_value l with
  | None => 0
  | Some p =>
      if negb (JSNum.truthy p) || (p <=? 0) then 0
      else
        let s0 := 0.5 in
        let s1 :=
          match price_psm l with
          | Some q => if JSNum.truthy q && (0 <? q) then s0 + 0.2 else s0
          | None => s0
          end in
        let s2 := if (100000 <? p) && (p <? 1000000000) then s1 + 0.2 else s1 in
        let s3 := if JSString.truthyOpt (old_price_text l) then s2 + 0.1 else s2 in
        JSNum.Math_min s3 1
  end.

Definition calculateQualityScore (l : Listing) : float :=
  let completeness := scoreDataCompleteness l in
  let contactQuality := scoreContactQuality l in
  let imageQuality := scoreImageQuality l in
  let priceQuality := scorePriceReliability l in
  let score :=
    completeness * 0.35 + contactQuality * 0.25 + imageQuality * 0.20
    + priceQuality * 0.20 in
  JSNum.Math_round (score * 100).

Definition generateAnomalyFlags (l : Listing) (aiEngine : Engine) : option string :=
  let f1 :=
    match detectPriceAnomaly aiEngine (price_value l) (category l) with
    | Some a => [("price_" ++ anomalyName a)%string]
    | None => []
    end in
  let f2 :=
    if negb (JSString.truthyOpt (contact_phone l)) && negb (JSString.truthyOpt (contact_email l))
    then f1 ++ ["no_contact"%string] else f1 in
  let f3 :=
    if negb (JSString.truthy (images l)) || (String.length (images l) <? 10)%nat
    then f2 ++ ["no_images"%string] else f2 in
  let f4 := if negb (truthyNum (price_value l)) then f3 ++ ["no_price"%string] else f3 in
  let f5 :=
    match listing_title l with
    | Some t => if JSString.truthy t && (String.length t <? 10)%nat
                then f4 ++ ["short_title"%string] else f4
    | None => f4
    end in
  let f6 :=
    if JSString.truthy (description_text l) && (String.length (description_text l) <? 50)%nat
    then f5 ++ ["short_description"%string] else f5 in
  let joined := JSString.join "," f6 in
  if JSString.truthy joined then Some joined else None.

(** *** The dashboard score [parseDetail] stores in [location_score] *)

Definition calculateLocationScore (nearestBts nearestMall nearestHospital : option float)
  : float :=
  let s0 := 0 in
  let s1 :=
    if toNumber nearestBts <=? 0.5 then s0 + 40
    else if toNumber nearestBts <=? 1.0 then s0 + 30
    else if toNumber nearestBts <=? 2.0 then s0 + 15
    else s0 in
  let s2 :=
    if truthyNum nearestMall && (toNumber nearestMall <=? 1.0) then s1 + 30
    else if truthyNum nearestMall && (toNumber nearestMall <=? 2.0) then s1 + 20
    else if truthyNum nearestMall && (toNumber nearestMall <=? 3.0) then s1 + 10
    else s1 in
  let s3 :=
    if truthyNum nearestHospital && (toNumber nearestHospital <=? 1.0) then s2 + 30
    else if truthyNum nearestHospital && (toNumber nearestHospital <=? 2.0) then s2 + 20
    else if truthyNum nearestHospital && (toNumber nearestHospital <=? 3.0) then s2 + 10
    else s2 in
  JSNum.Math_min s3 100.

(** *** The worker's step for one detail page

    Between two [await]s a worker runs alone, and the statements from
    [aiEngine.isDuplicate(row)] to [rows.push(row)] hold no [await]: a run
    is the sequence of these steps, in the order the pages complete. *)

Record Meta := mkMeta {
  duplicates_removed : Z;
  total_parsed : Z;
  errors : list (string * string);
}.

Record Run := mkRun {
  aiEngine : Engine;
  rows : list Listing;
  meta : Meta;
  parsedCount : Z;
}.

Definition newRun : Run :=
  {| aiEngine := newEngine; rows := [];
     meta := {| duplicates_removed := 0; total_parsed := 0; errors := [] |};
     parsedCount := 0 |}.

(** "Calculate AI scores" and "Calculate value_score": the five
    assignments to [row], in program order. *)
Definition scoreRow (e : Engine) (row : Listing) : Listing :=
  let row1 := set_quality_score (Some (calculateQualityScore row)) row in
  let row2 := set_price_score (Some (scorePriceReliability row1 * 100)) row1 in
  let row3 :=
    set_data_completeness (Some (JSNum.Math_round (scoreDataCompleteness row2 * 100))) row2 in
  let row4 := set_anomaly_flags (generateAnomalyFlags row3 e) row3 in
  set_value_score
    (JSNum.Math_round
       ((toNumber (quality_score row4) / 100) * 40 +
        (toNumber (price_score row4) / 100) * 30 +
        (location_score row4 / 100) * 30))
    row4.

Section Worker.

Variable Number_toString : float -> string.

(** The worker's statements after [workWithRetry] returned [row]. *)
Definition processRow (row : Listing) (st : Run) : Run :=
  match isDuplicate Number_toString row (aiEngine st) with
  | (true, e1) =>
      {| aiEngine := e1; rows := rows st;
         meta := {| duplicates_removed := (duplicates_removed (meta st) + 1)%Z;
                    total_parsed := total_parsed (meta st);
                    errors := errors (meta st) |};
         parsedCount := parsedCount st |}
  | (false, e1) =>
      let e2 := learnPrice (price_value row) (category row) e1 in
      let row' := scoreRow e2 row in
      {| aiEngine := e2; rows := rows st ++ [row'];
         meta := {| duplicates_removed := duplicates_removed (meta st);
                    total_parsed := (parsedCount st + 1)%Z;
                    errors := errors (meta st) |};
         parsedCount := (parsedCount st + 1)%Z |}
  end.

(** What [workWithRetry] yields for a link: a row, or the error thrown
    after the last retry. *)
Inductive Detail :=
| Parsed (row : Listing)
| Failed (url message : string).

Definition workerStep (st : Run) (d : Detail) : Run :=
  match d with
  | Parsed row => processRow row st
  | Failed url message =>
      {| aiEngine := aiEngine st; rows := rows st;
         meta := {| duplicates_removed := duplicates_removed (meta st);
                    total_parsed := total_parsed (meta st);
                    errors := errors (meta st) ++ [(url, message)] |};
         parsedCount := parsedCount st |}
  end.

Definition runWorkers (ds : list Detail) (st : Run) : Run := fold_left workerStep ds st.

End Worker.

(** *** Source selection *)

Record Source := mkSource {
  id : string;
  weight : float;
}.

(** [CATEGORIES] and [LOCATIONS_BANGKOK]: the [id] and the [weight] of each
    entry (the selector reads nothing else of a source). *)
Definition CATEGORIES : list (string * float) :=
  [ ("condo"%string, 1.2); ("house"%string, 1.0); ("townhouse"%string, 0.9);
    ("land"%string, 0.8); ("commercial"%string, 0.7) ].

Definition LOCATIONS_BANGKOK : list (string * float) :=
  [ ("bangkok"%string, 1.3); ("nonthaburi"%string, 1.0); ("pathumthani"%string, 0.9);
    ("samutprakan"%string, 0.9); ("samutsakorn"%string, 0.7) ].

Definition generateSearchURLs : list Source :=
  flat_map
    (fun cat =>
       map (fun loc => {| id := (cat.1 ++ "_" ++ loc.1)%string; weight := cat.2 * loc.2 |})
           LOCATIONS_BANGKOK)
    CATEGORIES.

(** A computation that calls [Math.random()]: it is given the number of
    draws made so far and returns it updated. *)
Definition Rand (A : Type) : Type := nat -> A * nat.

Section Selection.

(** The successive values of [Math.random()]. *)
Variable random : nat -> float.

(** [Array.prototype.sort] with a comparator that draws random numbers:
    the comparator is not a function of its arguments, and the order of
    the result is the engine's. *)
Variable engineSort : forall A : Type, (A -> A -> Rand float) -> list A -> Rand (list A).

Definition Math_random : Rand float := fun n => (random n, S n).

(** The comparator of [getBestSources]. *)
Definition jitterCompare (a b : Source * float) : Rand float :=
  fun n =>
    let (r1, n1) := Math_random n in
    let scoreA := a.2 + r1 * 0.2 in
    let (r2, n2) := Math_random n1 in
    let scoreB := b.2 + r2 * 0.2 in
    (scoreB - scoreA, n2).

(** [{ ...src, aiScore: perf.score }] *)
Definition withAiScore (e : Engine) (src : Source) : Source * float :=
  (src, match JSMap.get (id src) (sourcePerformance e) with
        | Some perf => score perf
        | None => 0.5
        end).

Definition getBestSources (e : Engine) (allSources : list Source) (count : float)
  : Rand (list (Source * float)) :=
  fun n =>
    let scored := map (withAiScore e) allSources in
    let (sorted, n') := engineSort _ jitterCompare scored n in
    (JSArraySlice.slice0 (JSNum.ToIntegerOrInfinity count) sorted, n').

(** [allSources.map(s => ({ ...s, randScore: s.weight * Math.random() }))] *)
Fixpoint withRandScore (l : list Source) : Rand (list (Source * float)) :=
  fun n =>
    match l with
    | [] => ([], n)
    | s :: r =>
        let (x, n1) := Math_random n in
        let (r', n2) := withRandScore r n1 in
        ((s, weight s * x) :: r', n2)
    end.

(** [(a, b) => b.randScore - a.randScore], as [cmp(a, b) > 0]. *)
Definition byRandScore (a b : Source * float) : bool := 0 <? b.2 - a.2.

Definition selectSmartSources (targetCount : float) (e : Engine)
  : Rand (list (Source * float)) :=
  fun n =>
    let allSources := generateSearchURLs in
    if (0 <? length (sourcePerformance e))%nat then
      getBestSources e allSources (JSNum.Math_ceil (targetCount / 10)) n
    else
      let (weighted, n') := withRandScore allSources n in
      let sorted := JSArray.sort byRandScore weighted in
      let needed := JSNum.Math_max (JSNum.Math_ceil (targetCount / 10)) 3 in
      (JSArraySlice.slice0 (JSNum.ToIntegerOrInfinity needed) sorted, n').

End Selection.

End Scraper.

(* ===================================================================== *)
(** ** The specification's own notions                                   *)
(* ===================================================================== *)

Module Spec.

Import Scraper.

Local Open Scope float_scope.

(** The specification's global anomaly: at least 5 global samples (not
    fewer than 5), and [|z-score| > 3] or a price below 10% of the global
    mean. *)
Definition globalAnomalous (e : Engine) (price : float) : bool :=
  negb (ps_count (priceStats e) <? 5)
  && ((3 <? zScore e price) || (price <? globalAvg e * 0.1)).

(** The specification's category anomaly: the category has at least 3
    samples, and the price is below 30% or above 300% of its mean. *)
Definition categoryAnomalous (e : Engine) (price : float) (category : string) : bool :=
  match JSMap.get category (categoryStats e) with
  | Some c =>
      (3 <=? cs_count c)
      && ((price <? (cs_sum c / cs_count c) * 0.3) || ((cs_sum c / cs_count c) * 3 <? price))
  | None => false
  end.

(** The rational number a finite number stands for ([0] for an infinity
    or [NaN]). *)
Definition toQ (x : float) : Q :=
  match Prim2SF x with
  | S754_finite s m e =>
      let v := if s then Z.neg m else Z.pos m in
      if (0 <=? e)%Z then inject_Z (v * 2 ^ e) else Qmake v (2 ^ Z.to_pos (- e))
  | _ => 0%Q
  end.

(** The specification's [round(q*0.4 + p*0.3 + l*0.3)], read over the
    rationals (a tie going up, as [Math.round] does) ... *)
Definition valueScoreExact (q p l : float) : Z :=
  Qfloor (toQ q * (4 # 10) + toQ p * (3 # 10) + toQ l * (3 # 10) + (1 # 2))%Q.

(** ... and read as the JavaScript expression
    [Math.round(q*0.4 + p*0.3 + l*0.3)]. *)
Definition valueScoreFloat (q p l : float) : float :=
  JSNum.Math_round (q * 0.4 + p * 0.3 + l * 0.3).

(** The signatures of the rows among the details [ds], in order. *)
Definition parsedSignatures (Number_toString : float -> string) (ds : list Detail)
  : list string :=
  flat_map (fun d => match d with
                     | Parsed row => [generateSignature Number_toString row]
                     | Failed _ _ => []
                     end) ds.



(** The specification's falsy component: [null], the number [0] ([NaN],
    the other falsy number, likewise), or the empty string. *)
Definition missingNum (v : option float) : bool :=
  match v with
  | None => true
  | Some x => (x =? 0) || negb (x =? x)
  end.

Definition missingStr (v : option string) : bool :=
  match v with
  | None => true
  | Some s => String.eqb s ""
  end.

(** The title as it enters the signature: in lower case, white space
    removed. *)
Definition normalTitle (l : Listing) : option string :=
  match listing_title l with
  | Some t => Some (JSString.removeAll JSString.isSpace (JSString.toLowerCase t))
  | None => None
  end.

(** A component that is not falsy, as it is printed; nothing for a falsy
    one. *)
Definition keepStr (v : option string) : list string :=
  match v with
  | Some s => if missingStr v then [] else [s]
  | None => []
  end.

Definition keepNum (Number_toString : float -> string) (v : option float) : list string :=
  match v with
  | Some x => if missingNum v then [] else [Number_toString x]
  | None => []
  end.

(** The signature by the specification's words: title, price, area,
    bedrooms and location, the falsy ones left out, joined with ["|"]. *)
Definition signatureOf (Number_toString : float -> string) (l : Listing) : string :=
  JSString.join "|"
    (keepStr (normalTitle l) ++ keepNum Number_toString (price_value l)
     ++ keepNum Number_toString (usable_area_sqm l)
     ++ keepNum Number_toString (bedrooms l) ++ keepStr (location_text l)).

Definition agreeNum (u v : option float) : Prop :=
  u = v \/ (missingNum u = true /\ missingNum v = true).

Definition agreeStr (u v : option string) : Prop :=
  u = v \/ (missingStr u = true /\ missingStr v = true).

(** Two listings agree on their signature fields: each of the five
    components is the same in both, or falsy in both. *)
Definition sameSignatureFields (a b : Listing) : Prop :=
  agreeStr (normalTitle a) (normalTitle b)
  /\ agreeNum (price_value a) (price_value b)
  /\ agreeNum (usable_area_sqm a) (usable_area_sqm b)
  /\ agreeNum (bedrooms a) (bedrooms b)
  /\ agreeStr (location_text a) (location_text b).

(** All five signature fields of a listing are missing. *)
Definition noSignatureFields (a : Listing) : Prop :=
  missingStr (normalTitle a) = true
  /\ missingNum (price_value a) = true
  /\ missingNum (usable_area_sqm a) = true
  /\ missingNum (bedrooms a) = true
  /\ missingStr (location_text a) = true.


(** The specification's cap and floor of the scroll rounds. *)
Definition capped (x cap r : float) : Prop :=
  ((x <? cap) = true -> r = x)
  /\ ((cap <? x) = true -> r = cap)
  /\ (x = cap -> r = cap).


End Spec.

(* ===================================================================== *)
(** ** Sample inputs                                                     *)
(* ===================================================================== *)

Module Samples.

Import Scraper.

Local Open Scope float_scope.

(** A stand-in for [Number::toString] that is right on integers: the
    integer part of the number, in decimal. *)
Definition showInteger (x : float) : string :=
  match JSNum.ToIntegerOrInfinity x with
  | JSNum.Fin z => NilZero.string_of_int (Z.to_int z)
  | JSNum.PlusInf => "Infinity"
  | JSNum.MinusInf => "-Infinity"
  end.

(** One way an engine may sort with a comparator that draws random
    numbers: insertion sort, each element moved left past the elements
    the comparator ranks after it. *)
Fixpoint insertRand {A} (cmp : A -> A -> Rand float) (x : A) (l : list A) : Rand (list A) :=
  fun n =>
    match l with
    | [] => ([x], n)
    | y :: r =>
        let (c, n1) := cmp y x n in
        if 0 <? c then (x :: y :: r, n1)
        else let (r', n2) := insertRand cmp x r n1 in (y :: r', n2)
    end.

Fixpoint sortRandFrom {A} (cmp : A -> A -> Rand float) (l acc : list A) : Rand (list A) :=
  fun n =>
    match l with
    | [] => (acc, n)
    | x :: r => let (acc', n1) := insertRand cmp x acc n in sortRandFrom cmp r acc' n1
    end.

Definition insertionSortRand (A : Type) (cmp : A -> A -> Rand float) (l : list A)
  : Rand (list A) :=
  sortRandFrom cmp l [].

(** A sequence of draws in [[0, 1)]: 0.3, 0, 0.7, 0.4, 0.1, 0.8, ... *)
Definition someDraws (i : nat) : float :=
  JSNum.of_nat ((i * 7 + 3) mod 10) / 10.

(** Four listings of category "condo" priced 100 have been learnt. *)
Definition fourCondos : Engine :=
  learnPrice (Some 100) "condo"
    (learnPrice (Some 100) "condo"
       (learnPrice (Some 100) "condo"
          (learnPrice (Some 100) "condo" newEngine))).

(** An engine that has recorded one source-performance sample. *)
Definition oneSample : Engine :=
  recordSourcePerformance "condo_bangkok"
    {| success := true; linksFound := 12; m_avgQuality := 0.5 |} newEngine.

(** Five listings of category "condo" priced 100 have been learnt. *)
Definition fiveCondos : Engine :=
  learnPrice (Some 100) "condo"
    (learnPrice (Some 100) "condo"
       (learnPrice (Some 100) "condo"
          (learnPrice (Some 100) "condo"
             (learnPrice (Some 100) "condo" newEngine)))).

(** A listing with every checklist field filled, a price with a price per
    square metre and an old price, a valid phone number, a named agent,
    one image and a transit stop 1.5 km away. *)
Definition condoListing : Listing :=
  {| listing_id := Some "1234567"%string;
     listing_url := "https://www.livinginsider.com/livingdetail/1234567/a.html";
     category := "condo";
     deal_type := "sale";
     listing_title := Some "Condo near BTS On Nut, 35 sqm"%string;
     price_value := Some 5000000;
     price_psm := Some 142857;
     old_price_text := Some "5,500,000"%string;
     usable_area_sqm := Some 35;
     bedrooms := Some 1;
     bathrooms := Some 1;
     location_text := Some "On Nut"%string;
     agent_name := "Somchai";
     agent_verified := false;
     contact_phone := Some "0812345678"%string;
     contact_email := None;
     contact_line_url := None;
     description_text := "One bedroom on a high floor, fully furnished, ready to move in.";
     images := "https://cdn.example.com/upload/1234567-1.jpg";
     quality_score := None;
     price_score := None;
     data_completeness := None;
     anomaly_flags := None;
     location_score := calculateLocationScore (Some 1.5) None None;
     value_score := 0 |}.

(** The same listing fetched from another URL. *)
Definition condoListingAgain : Listing :=
  {| listing_id := Some "7654321"%string;
     listing_url := "https://www.livinginsider.com/livingdetail/7654321/b.html";
     category := category condoListing;
     deal_type := deal_type condoListing;
     listing_title := listing_title condoListing;
     price_value := price_value condoListing;
     price_psm := price_psm condoListing;
     old_price_text := old_price_text condoListing;
     usable_area_sqm := usable_area_sqm condoListing;
     bedrooms := bedrooms condoListing;
     bathrooms := bathrooms condoListing;
     location_text := location_text condoListing;
     agent_name := agent_name condoListing;
     agent_verified := agent_verified condoListing;
     contact_phone := contact_phone condoListing;
     contact_email := contact_email condoListing;
     contact_line_url := contact_line_url condoListing;
     description_text := description_text condoListing;
     images := images condoListing;
     quality_score := None;
     price_score := None;
     data_completeness := None;
     anomaly_flags := None;
     location_score := location_score condoListing;
     value_score := 0 |}.

(** A studio with a title, an area and a location, and no price
    ([null]) ... *)
Definition studioNoPrice : Listing :=
  {| listing_id := Some "2000001"%string;
     listing_url := "https://www.livinginsider.com/livingdetail/2000001/a.html";
     category := "condo";
     deal_type := "rent";
     listing_title := Some "T"%string;
     price_value := None;
     price_psm := None;
     old_price_text := None;
     usable_area_sqm := Some 35;
     bedrooms := Some 0;
     bathrooms := None;
     location_text := Some "L"%string;
     agent_name := "";
     agent_verified := false;
     contact_phone := None;
     contact_email := None;
     contact_line_url := None;
     description_text := "";
     images := "";
     quality_score := None;
     price_score := None;
     data_completeness := None;
     anomaly_flags := None;
     location_score := 0;
     value_score := 0 |}.

(** ... and another listing, under another URL, with the same title,
    area and location, the price [0] and one bathroom. *)
Definition studioZeroPrice : Listing :=
  {| listing_id := Some "2000002"%string;
     listing_url := "https://www.livinginsider.com/livingdetail/2000002/b.html";
     category := "condo";
     deal_type := "sale";
     listing_title := Some "t "%string;
     price_value := Some 0;
     price_psm := None;
     old_price_text := None;
     usable_area_sqm := Some 35;
     bedrooms := None;
     bathrooms := Some 1;
     location_text := Some "L"%string;
     agent_name := "Somchai";
     agent_verified := false;
     contact_phone := Some "0812345678"%string;
     contact_email := None;
     contact_line_url := None;
     description_text := "";
     images := "";
     quality_score := None;
     price_score := None;
     data_completeness := None;
     anomaly_flags := None;
     location_score := 0;
     value_score := 0 |}.

(** A page from which none of the five signature fields was read, under
    the URL [url]. *)
Definition barePage (url : string) : Listing :=
  {| listing_id := None;
     listing_url := url;
     category := "";
     deal_type := "";
     listing_title := Some ""%string;
     price_value := None;
     price_psm := None;
     old_price_text := None;
     usable_area_sqm := None;
     bedrooms := None;
     bathrooms := None;
     location_text := Some ""%string;
     agent_name := "";
     agent_verified := false;
     contact_phone := None;
     contact_email := None;
     contact_line_url := None;
     description_text := "";
     images := "";
     quality_score := None;
     price_score := None;
     data_completeness := None;
     anomaly_flags := None;
     location_score := 0;
     value_score := 0 |}.



End Samples.

(* ===================================================================== *)
(** ** server.js: the end of a run, as the store sees it                 *)
(* ===================================================================== *)

Module ServerFlow.

Import Server.

Section Flow.

Variables Opts Meta Row : Type.

(** [j.clients.clear()] *)
Definition clearClients (j : Job Opts Meta Row) : Job Opts Meta Row :=
  {| createdAt := createdAt j; updatedAt := updatedAt j; status := status j;
     opts := opts j; meta := meta j; rows := rows j; error := error j;
     clients := [] |}.

(** [closeAllClients(jobId)] *)
Definition closeAllClients (jobId : string) (s : Store Opts Meta Row) : Store Opts Meta Row :=
  match JSMap.get jobId (jobs s) with
  | None => s
  | Some j =>
      {| jobs := JSMap.set jobId (clearClients j) (jobs s);
         ended := ended s ++ clients j |}
  end.

(** The [onProgress] callback of [POST /api/scrape]: [newMeta] is the
    spread [{ ...jj.meta, ...p.meta }] as a function of the job's meta. *)
Definition onProgress (jobId : string) (newMeta : Meta -> Meta) (now : Z)
    (s : Store Opts Meta Row) : Store Opts Meta Row :=
  match JSMap.get jobId (jobs s) with
  | None => s
  | Some jj =>
      {| jobs := JSMap.set jobId
                   {| createdAt := createdAt jj; updatedAt := now; status := status jj;
                      opts := opts jj; meta := newMeta (meta jj); rows := rows jj;
                      error := error jj; clients := clients jj |}
                   (jobs s);
         ended := ended s |}
  end.

(** The statements of [POST /api/scrape] after [scrapeListings] resolved,
    as far as the store shows them: the route holds the job object it
    created, and a job that left the map meanwhile is not seen again.
    [resultRows] is [result.rows] (or [[]]), [newMeta] the spread
    [{ ...j.meta, ...result.meta, elapsedMs }]. *)
Definition completeJob (jobId : string) (resultRows : list Row) (newMeta : Meta -> Meta)
    (now : Z) (s : Store Opts Meta Row) : Store Opts Meta Row :=
  match JSMap.get jobId (jobs s) with
  | None => s
  | Some j =>
      closeAllClients jobId
        {| jobs := JSMap.set jobId
                     {| createdAt := createdAt j; updatedAt := now; status := Done;
                        opts := opts j; meta := newMeta (meta j); rows := resultRows;
                        error := error j; clients := clients j |}
                     (jobs s);
           ended := ended s |}
  end.

(** The [catch] block of [POST /api/scrape]; [message] is
    [String(err?.stack || err?.message || err)]. *)
Definition failJob (jobId : string) (message : string) (now : Z)
    (s : Store Opts Meta Row) : Store Opts Meta Row :=
  match JSMap.get jobId (jobs s) with
  | None => s
  | Some j =>
      closeAllClients jobId
        {| jobs := JSMap.set jobId
                     {| createdAt := createdAt j; updatedAt := now; status := Error;
                        opts := opts j; meta := meta j; rows := rows j;
                        error := Some message; clients := clients j |}
                     (jobs s);
           ended := ended s |}
  end.

End Flow.

Arguments clearClients {Opts Meta Row}.
Arguments closeAllClients {Opts Meta Row}.
Arguments onProgress {Opts Meta Row}.
Arguments completeJob {Opts Meta Row}.
Arguments failJob {Opts Meta Row}.

End ServerFlow.

(* ===================================================================== *)
(** ** The scraper module: the rest of the engine and of the pipeline    *)
(* ===================================================================== *)

Module ScraperMore.

Import Scraper.

Local Open Scope float_scope.

(** *** AILearningEngine.generateInsights *)

Record BestSource := mkBestSource {
  bs_id : string;
  bs_score : float;
  bs_avgLinks : float;
}.

Record WorstSource := mkWorstSource {
  ws_id : string;
  ws_score : float;
}.

Record PriceRange := mkPriceRange {
  pr_min : float;
  pr_max : float;
  pr_avg : float;
}.

Record CategoryInfo := mkCategoryInfo {
  ci_count : float;
  ci_avgPrice : float;
  ci_priceRange : float * float;
}.

Record Insights := mkInsights {
  totalSources : nat;
  bestSource : option BestSource;
  worstSource : option WorstSource;
  priceRange : PriceRange;
  categoryBreakdown : gmap string CategoryInfo;
  duplicatesDetected : nat;
  recommendations : list string;
}.

(** The loop over [sourcePerformance]: [bestScore], [insights.bestSource],
    [worstScore] and [insights.worstSource] after one more entry. *)
Definition bestWorstStep
    (acc : float * option BestSource * float * option WorstSource)
    (entry : string * SourcePerf)
  : float * option BestSource * float * option WorstSource :=
  let '(bestScore, best, worstScore, worst) := acc in
  let (id, perf) := entry in
  let '(bestScore1, best1) :=
    if bestScore <? score perf
    then (score perf,
          Some {| bs_id := id; bs_score := score perf; bs_avgLinks := avgLinksFound perf |})
    else (bestScore, best) in
  let '(worstScore1, worst1) :=
    if (score perf <? worstScore) && (0 <? attempts perf)
    then (score perf, Some {| ws_id := id; ws_score := score perf |})
    else (worstScore, worst) in
  (bestScore1, best1, worstScore1, worst1).

Section Insights.

(** [Number::toString], for the count inside the recommendation. *)
Variable Number_toString : float -> string.

(** [generateInsights()]. [categoryBreakdown] is a plain object keyed by
    category: a finite map (the order in which an object lists its keys
    is not part of the model). *)
Definition generateInsights (e : Engine) : Insights :=
  let g := priceStats e in
  let '(bestScore, best, _, worst) :=
    fold_left bestWorstStep (sourcePerformance e) (0, None, 1, None) in
  let breakdown :=
    fold_left
      (fun o (entry : string * CatStats) =>
         let (cat, stats) := entry in
         <[cat := {| ci_count := cs_count stats;
                     ci_avgPrice := cs_sum stats / cs_count stats;
                     ci_priceRange := (cs_min stats, cs_max stats) |}]> o)
      (categoryStats e) ∅ in
  let r1 :=
    if 0.7 <? bestScore
    then ["Focus on high-performing sources for better results"%string] else [] in
  let r2 :=
    if (5 <? size (duplicateSignatures e))%nat
    then r1 ++ [(Number_toString (JSNum.of_nat (size (duplicateSignatures e)))
                 ++ " duplicates detected - consider expanding sources")%string]
    else r1 in
  {| totalSources := length (sourcePerformance e);
     bestSource := best;
     worstSource := worst;
     priceRange :=
       {| pr_min := if PrimFloat.eqb (ps_min g) infinity then 0 else ps_min g;
          pr_max := ps_max g;
          pr_avg := if 0 <? ps_count g then ps_sum g / ps_count g else 0 |};
     categoryBreakdown := breakdown;
     duplicatesDetected := size (duplicateSignatures e);
     recommendations := r2 |}.

(** The engine states a program can reach through the methods of the
    engine that write to it. *)
Inductive reachable : Engine -> Prop :=
| reach_new : reachable newEngine
| reach_record sourceId metrics e :
    reachable e -> reachable (recordSourcePerformance sourceId metrics e)
| reach_learn price category e :
    reachable e -> reachable (learnPrice price category e)
| reach_scroll currentRounds linksFound e :
    reachable e -> reachable (recommendScrollRounds currentRounds linksFound e).1
| reach_duplicate listing e :
    reachable e -> reachable (isDuplicate Number_toString listing e).2.

End Insights.

(** The prices [learnPrice] takes in: [[p]] for a price that is a number,
    truthy and above 0, nothing otherwise. *)
Definition learnt (price : option float) : list float :=
  match price with
  | Some p => if negb (JSNum.truthy p) || (p <=? 0) then [] else [p]
  | None => []
  end.

(** [count] after [n] increments from 0. *)
Definition counted (n : nat) : float := Nat.iter n (fun c => c + 1) 0.

(** The [(url, message)] pairs of the failed details, in order. *)
Definition failures (ds : list Detail) : list (string * string) :=
  flat_map (fun d => match d with
                     | Parsed _ => []
                     | Failed url message => [(url, message)]
                     end) ds.

(** *** autoScrollRobust

    [height i] is what the [i]-th evaluation of
    [document.documentElement.scrollHeight] yields, [0] when the
    evaluation fails ([.catch(() => 0)]); [rounds] is the number of
    values of [i] below the bound of the loop. The result is the number of
    [window.scrollBy] calls made. *)
Fixpoint scrollLoop (height : nat -> Z) (left : nat) (i : nat) (lastH : Z)
    (stableCount : nat) : nat :=
  match left with
  | O => O
  | S left' =>
      let h := height i in
      if negb (h =? 0)%Z && (h =? lastH)%Z then
        if (5 <=? stableCount + 1)%nat then O
        else S (scrollLoop height left' (S i) h (stableCount + 1))
      else S (scrollLoop height left' (S i) h O)
  end.

Definition autoScrollRobust (height : nat -> Z) (rounds : nat) : nat :=
  scrollLoop height rounds 0 0%Z 0.

(** The reading [i] repeats the one before it and is not [0]: the test
    [h && h === lastH] of the loop. *)
Definition repeatsAt (height : nat -> Z) (i : nat) : bool :=
  (1 <=? i)%nat && negb (height i =? 0)%Z && (height i =? height (i - 1)%nat)%Z.

(** The readings [i - 5 .. i] are one and the same height, not [0]. *)
Definition stableAt (height : nat -> Z) (i : nat) : bool :=
  (5 <=? i)%nat && negb (height i =? 0)%Z
  && forallb (fun k => (height (i - k)%nat =? height i)%Z) [1; 2; 3; 4; 5]%nat.

(** *** Phase 1 of scrapeListings: collecting links

    [collected] is a [Set] of URLs: a list without repetition, in
    insertion order. *)
Definition setAdd (x : string) (l : list string) : list string :=
  if existsb (String.eqb x) l then l else l ++ [x].

(** [for (const link of links) { collected.add(link);
    if (collected.size >= maxResults * 2) break; }] *)
Fixpoint addLinks (maxResults : Z) (links : list string) (collected : list string)
  : list string :=
  match links with
  | [] => collected
  | link :: rest =>
      let c := setAdd link collected in
      if (maxResults * 2 <=? Z.of_nat (length c))%Z then c
      else addLinks maxResults rest c
  end.

(** The state of the loop over the selected sources: the engine, the
    links collected, and the rounds each visited source was scrolled
    with. *)
Record Collecting := mkCollecting {
  c_engine : Engine;
  c_collected : list string;
  c_rounds : list float;
}.

(** The loop over [sources]; each source comes with the links
    [collectDetailLinksFromList] finds on its page (every navigation
    succeeds: a navigation that fails ends the run). *)
Fixpoint collectLinks (LIST_SCROLL_ROUNDS : float) (maxResults : Z)
    (sources : list (Source * list string)) (st : Collecting) : Collecting :=
  match sources with
  | [] => st
  | (source, links) :: rest =>
      let (e1, adaptiveRounds) :=
        recommendScrollRounds LIST_SCROLL_ROUNDS 0 (c_engine st) in
      let e2 :=
        recordSourcePerformance (id source)
          {| success := (0 <? length links)%nat;
             linksFound := JSNum.of_nat (length links);
             m_avgQuality := 0.5 |} e1 in
      let c := addLinks maxResults links (c_collected st) in
      let st' := {| c_engine := e2; c_collected := c;
                    c_rounds := c_rounds st ++ [adaptiveRounds] |} in
      if (maxResults * 2 <=? Z.of_nat (length c))%Z then st'
      else collectLinks LIST_SCROLL_ROUNDS maxResults rest st'
  end.

(** [[...collected].slice(0, maxResults)], the queue of the workers. *)
Definition sampled (maxResults : Z) (collected : list string) : list string :=
  firstn (Z.to_nat maxResults) collected.

(** *** The values the quality scorer can return

    Each of the four partial scores takes one of finitely many values,
    whatever the listing. *)

(** Two numbers are the same value: same sign, mantissa and exponent. *)
Definition sf_eqb (a b : spec_float) : bool :=
  match a, b with
  | S754_zero s, S754_zero t => Bool.eqb s t
  | S754_infinity s, S754_infinity t => Bool.eqb s t
  | S754_nan, S754_nan => true
  | S754_finite s m e, S754_finite t n f => Bool.eqb s t && Pos.eqb m n && Z.eqb e f
  | _, _ => false
  end.

(** The integers [0 .. 100], decoded. *)
Definition percentTable : list spec_float :=
  map (fun z => Prim2SF (JSNum.of_Z z)) (map Z.of_nat (seq 0 101)).

(** [x] is one of the integers [0 .. 100]. *)
Definition isPercent (x : float) : bool :=
  existsb (sf_eqb (Prim2SF x)) percentTable.

Definition completenessValues : list float :=
  map (fun k => JSNum.of_nat k / JSNum.of_nat 12) (seq 0 13).

(** [scoreContactQuality] when its five tests come out as [b1 .. b5]. *)
Definition contactValue (b1 b2 b3 b4 b5 : bool) : float :=
  let s0 := 0 in
  let s1 := if b1 then s0 + 0.4 else s0 in
  let s2 := if b2 then s1 + 0.2 else s1 in
  let s3 := if b3 then s2 + 0.2 else s2 in
  let s4 := if b4 then s3 + 0.1 else s3 in
  if b5 then s4 + 0.1 else s4.

Definition contactValues : list float :=
  flat_map (fun b1 => flat_map (fun b2 => flat_map (fun b3 =>
    flat_map (fun b4 => flat_map (fun b5 => [contactValue b1 b2 b3 b4 b5])
    [true; false]) [true; false]) [true; false]) [true; false]) [true; false].

Definition imageValues : list float :=
  0 :: 1 :: map (fun k => JSNum.of_nat k / 10) (seq 1 9).

(** [scorePriceReliability] for a positive price, when its three tests
    come out as [b1 .. b3]. *)
Definition priceValue (b1 b2 b3 : bool) : float :=
  let s0 := 0.5 in
  let s1 := if b1 then s0 + 0.2 else s0 in
  let s2 := if b2 then s1 + 0.2 else s1 in
  let s3 := if b3 then s2 + 0.1 else s2 in
  JSNum.Math_min s3 1.

Definition priceValues : list float :=
  0 :: flat_map (fun b1 => flat_map (fun b2 => flat_map (fun b3 => [priceValue b1 b2 b3])
         [true; false]) [true; false]) [true; false].

(** [calculateQualityScore] on the four partial scores. *)
Definition qualityOf (completeness contactQuality imageQuality priceQuality : float)
  : float :=
  JSNum.Math_round
    ((completeness * 0.35 + contactQuality * 0.25 + imageQuality * 0.20
      + priceQuality * 0.20) * 100).

End ScraperMore.

(* ===================================================================== *)
(** * Properties                                                         *)
(* ===================================================================== *)

Module JSMapFacts.

Lemma get_set_eq {V} k (v : V) m : JSMap.get k (JSMap.set k v m) = Some v.
Proof.
  induction m as [|[k' v'] r IH]; simpl.
  - now rewrite String.eqb_refl.
  - destruct (String.eqb k' k) eqn:E; simpl.
    + now rewrite String.eqb_refl.
    + now rewrite E.
Qed.

Lemma set_fresh {V} k (v : V) m :
  JSMap.get k m = None -> JSMap.set k v m = m ++ [(k, v)].
Proof.
  induction m as [|[k' v'] r IH]; simpl; [easy|].
  destruct (String.eqb k' k); [discriminate|].
  intros H. now rewrite IH.
Qed.

Lemma get_delete_eq {V} k (m : list (string * V)) :
  NoDup (map fst m) -> JSMap.get k (JSMap.delete k m) = None.
Proof.
  induction m as [|[k' v'] r IH]; simpl; [easy|].
  intros ND. apply NoDup_cons in ND as [Hnin ND].
  destruct (String.eqb k' k) eqn:E; simpl.
  - apply String.eqb_eq in E. subst k'.
    clear IH ND. induction r as [|[k2 v2] r IH]; simpl; [easy|].
    destruct (String.eqb k2 k) eqn:E2.
    + apply String.eqb_eq in E2. subst. exfalso. apply Hnin. simpl. left.
    + apply IH. intros Hin. apply Hnin. simpl. now right.
  - rewrite E. now apply IH.
Qed.

End JSMapFacts.

Module JSArrayFacts.

Import JSArray.

Lemma insert_perm {A} gt (x : A) l : Permutation (x :: l) (insert gt x l).
Proof.
  induction l as [|y r IH]; simpl; [reflexivity|].
  destruct (gt y x); [reflexivity|].
  rewrite perm_swap. now constructor.
Qed.

Lemma sort_perm_acc {A} gt (l acc : list A) :
  Permutation (acc ++ l) (fold_left (fun acc x => insert gt x acc) l acc).
Proof.
  revert acc. induction l as [|x r IH]; intros acc; simpl.
  - now rewrite app_nil_r.
  - rewrite <- IH, <- insert_perm. simpl.
    symmetry. apply Permutation_middle.
Qed.

Lemma sort_perm {A} gt (l : list A) : Permutation l (sort gt l).
Proof. exact (sort_perm_acc gt l []). Qed.

Lemma sort_length {A} gt (l : list A) : length (sort gt l) = length l.
Proof. symmetry. apply Permutation_length, sort_perm. Qed.

End JSArrayFacts.

(* ===================================================================== *)
(** ** The order of numbers                                              *)
(* ===================================================================== *)

Module JSNumFacts.

Import JSNum.

Local Open Scope float_scope.

Lemma SFcompare_refl (a : spec_float) :
  SFcompare a a = match a with S754_nan => None | _ => Some Eq end.
Proof.
  destruct a as [s|s| |s m e]; simpl; try reflexivity.
  - now destruct s.
  - rewrite Z.compare_refl, Pos.compare_cont_refl. now destruct s.
Qed.

Lemma SFcompare_antisym (a b : spec_float) :
  SFcompare b a = option_map CompOpp (SFcompare a b).
Proof.
  destruct a as [s|s| |s m e], b as [t|t| |t n f]; simpl; try reflexivity;
    try (now destruct s); try (now destruct t); try (now destruct s, t).
  rewrite (Z.compare_antisym e f).
  destruct s, t; simpl; try reflexivity.
  - destruct (e ?= f)%Z; simpl; try reflexivity.
    f_equal.
    change (PosDef.Pos.compare_cont Eq n m) with (Pos.compare_cont (CompOpp Eq) n m).
    now rewrite <- (Pos.compare_cont_antisym m n Eq).
  - destruct (e ?= f)%Z; simpl; try reflexivity.
    f_equal.
    change (PosDef.Pos.compare_cont Eq n m) with (Pos.compare_cont (CompOpp Eq) n m).
    now rewrite <- (Pos.compare_cont_antisym m n Eq).
Qed.

(** [x < y] holds of no [NaN], and not together with [y < x]. *)
Lemma ltb_not_nan (x y : float) :
  (x <? y) = true -> is_nan x = false /\ is_nan y = false.
Proof.
  unfold is_nan. rewrite FloatAxioms.ltb_spec, !FloatAxioms.eqb_spec.
  unfold SFltb, SFeqb. rewrite !SFcompare_refl.
  destruct (Prim2SF x), (Prim2SF y); simpl; try discriminate; auto.
Qed.

Lemma ltb_asym (x y : float) : (x <? y) = true -> (y <? x) = false.
Proof.
  rewrite !FloatAxioms.ltb_spec. unfold SFltb.
  rewrite (SFcompare_antisym (Prim2SF x) (Prim2SF y)).
  now destruct (SFcompare (Prim2SF x) (Prim2SF y)) as [[]|].
Qed.

Lemma Math_min_below (x cap : float) : (x <? cap) = true -> Math_min x cap = x.
Proof.
  intros H. unfold Math_min. destruct (ltb_not_nan _ _ H) as [-> ->]. simpl.
  now rewrite H.
Qed.

Lemma Math_min_above (x cap : float) : (cap <? x) = true -> Math_min x cap = cap.
Proof.
  intros H. unfold Math_min. destruct (ltb_not_nan _ _ H) as [-> ->]. simpl.
  now rewrite (ltb_asym _ _ H), H.
Qed.



End JSNumFacts.

(* ===================================================================== *)
(** ** The job store                                                     *)
(* ===================================================================== *)

Module ServerProps.

Import Server ServerSamples.

Section Store.

Variables Opts Meta Row : Type.
Variable TTL_MS : Z.
Variable MAX_CACHE_ITEMS : Z.
Variable meta0 : Meta.

Abbreviation Job := (Job Opts Meta Row).
Abbreviation Store := (Store Opts Meta Row).

(** Below the limit, and at the limit, [evictIfNeeded] returns at once. *)
Lemma evictIfNeeded_within (s : Store) :
  Z.of_nat (length (jobs s)) <= MAX_CACHE_ITEMS ->
  evictIfNeeded MAX_CACHE_ITEMS s = Normal s.
Proof.
  intros H. unfold evictIfNeeded.
  destruct (Z.leb_spec (Z.of_nat (length (jobs s))) MAX_CACHE_ITEMS); [reflexivity|lia].
Qed.

(** The eviction loop, run over [n] entries that exist: each evicted job
    has its clients ended, then is deleted. *)
Lemma evictLoop_spec (n : nat) (entries : list (string * Job)) (s : Store) :
  (n <= length entries)%nat ->
  evictLoop n entries s =
  Normal {| jobs := fold_left (fun js e => JSMap.delete e.1 js) (firstn n entries) (jobs s);
            ended := ended s ++ concat (map (fun e => clients e.2) (firstn n entries)) |}.
Proof.
  revert entries s. induction n as [|n IH]; intros entries s Hn; simpl.
  - rewrite app_nil_r. now destruct s.
  - destruct entries as [|[jobId j] rest]; simpl in Hn; [lia|].
    rewrite IH by lia. simpl. now rewrite <- app_assoc.
Qed.

(** Above the limit (a limit that is not negative), [evictIfNeeded] ends
    the clients of the [size - MAX_CACHE_ITEMS] oldest jobs and deletes
    them. *)
Lemma evictIfNeeded_above (s : Store) :
  0 <= MAX_CACHE_ITEMS ->
  MAX_CACHE_ITEMS < Z.of_nat (length (jobs s)) ->
  let n := Z.to_nat (Z.of_nat (length (jobs s)) - MAX_CACHE_ITEMS) in
  let oldest := firstn n (JSArray.sort olderFirst (jobs s)) in
  evictIfNeeded MAX_CACHE_ITEMS s =
  Normal {| jobs := fold_left (fun js e => JSMap.delete e.1 js) oldest (jobs s);
            ended := ended s ++ concat (map (fun e => clients e.2) oldest) |}.
Proof.
  intros H0 H. unfold evictIfNeeded.
  destruct (Z.leb_spec (Z.of_nat (length (jobs s))) MAX_CACHE_ITEMS); [lia|].
  rewrite Z.max_r by lia.
  apply evictLoop_spec. rewrite JSArrayFacts.sort_length. lia.
Qed.

(** The cleanup timer's loop over the entries [es]: every expired job met
    has its clients ended, then is deleted. *)
Lemma sweep_entries_spec (now : Z) (es : list (string * Job)) (s : Store) :
  let old := List.filter (fun e => expired TTL_MS now e.2) es in
  fold_left (sweepStep TTL_MS now) es s =
  {| jobs := fold_left (fun js e => JSMap.delete e.1 js) old (jobs s);
     ended := ended s ++ concat (map (fun e => clients e.2) old) |}.
Proof.
  revert s. induction es as [|e es IH]; intros s; simpl.
  - rewrite app_nil_r. now destruct s.
  - unfold sweepStep at 2. destruct (expired TTL_MS now e.2); simpl.
    + rewrite IH. simpl. now rewrite <- app_assoc.
    + apply IH.
Qed.

Lemma ttlSweep_spec (now : Z) (s : Store) :
  let old := List.filter (fun e => expired TTL_MS now e.2) (jobs s) in
  ttlSweep TTL_MS now s =
  {| jobs := fold_left (fun js e => JSMap.delete e.1 js) old (jobs s);
     ended := ended s ++ concat (map (fun e => clients e.2) old) |}.
Proof. apply sweep_entries_spec. Qed.

(** [getJob] on a job older than the TTL. *)
Lemma getJob_old (jobId : string) (j : Job) (now : Z) (s : Store) :
  JSMap.get jobId (jobs s) = Some j ->
  now - createdAt j > TTL_MS ->
  getJob TTL_MS jobId now s = (None, deleteJob jobId s).
Proof.
  intros Hget Hold. unfold getJob, expired. rewrite Hget.
  destruct (Z.gtb_spec (now - createdAt j) TTL_MS); [reflexivity|lia].
Qed.

(** C1 (the code departs from it): when the store holds exactly
    [MAX_CACHE_ITEMS] jobs, [createJob] evicts nothing and disconnects
    nobody; it adds the new job to the jobs already there, and the store
    then holds [MAX_CACHE_ITEMS + 1] jobs. *)
Theorem createJob_at_capacity_evicts_nothing
    (o : Opts) (jobId : string) (now : Z) (s : Store) :
  Z.of_nat (length (jobs s)) = MAX_CACHE_ITEMS ->
  JSMap.get jobId (jobs s) = None ->
  exists s',
    createJob MAX_CACHE_ITEMS meta0 o jobId now s = Normal s'
    /\ jobs s' = jobs s ++ [(jobId, newJob meta0 o now)]
    /\ ended s' = ended s
    /\ Z.of_nat (length (jobs s')) = MAX_CACHE_ITEMS + 1.
Proof.
  intros Hsize Hfresh. unfold createJob.
  rewrite evictIfNeeded_within by lia.
  eexists. split; [reflexivity|]. simpl.
  rewrite JSMapFacts.set_fresh by assumption.
  repeat split. rewrite length_app. simpl. lia.
Qed.

(** C2 (the code departs from it): when [getJob] finds a job older than
    the TTL it deletes the job and ends no client: the record of ended
    responses is unchanged. *)
Theorem getJob_expired_deletes_without_disconnecting
    (jobId : string) (j : Job) (now : Z) (s : Store) :
  JSMap.get jobId (jobs s) = Some j ->
  now - createdAt j > TTL_MS ->
  exists s',
    getJob TTL_MS jobId now s = (None, s')
    /\ jobs s' = JSMap.delete jobId (jobs s)
    /\ ended s' = ended s.
Proof.
  intros Hget Hold. rewrite (getJob_old _ _ _ _ Hget Hold).
  eexists. split; [reflexivity|]. split; reflexivity.
Qed.

(** C9: [GET /api/job/:id] answers not-found for an unknown id and for a
    job older than the TTL (so for a job created at [T] and asked for at
    [T + 1500] under a TTL of 1000 ms when [TTL_MS] is 1000); for any
    other job it answers its status, meta and error, with its rows when
    the status is "done" and no rows otherwise. *)
Theorem api_job_spec (jobId : string) (now : Z) (s : Store) :
  (JSMap.get jobId (jobs s) = None ->
   (api_job TTL_MS jobId now s).1 = NotFound)
  /\ (forall j, JSMap.get jobId (jobs s) = Some j ->
        now - createdAt j > TTL_MS ->
        (api_job TTL_MS jobId now s).1 = NotFound)
  /\ (forall j, JSMap.get jobId (jobs s) = Some j ->
        now - createdAt j <= TTL_MS ->
        (api_job TTL_MS jobId now s).1
        = JobJson jobId (status j) (meta j) (error j)
            (match status j with Done => rows j | _ => [] end))
  /\ (forall j T, JSMap.get jobId (jobs s) = Some j ->
        createdAt j = T -> TTL_MS = 1000 -> now = T + 1500 ->
        (api_job TTL_MS jobId now s).1 = NotFound).
Proof.
  assert (Hold : forall j, JSMap.get jobId (jobs s) = Some j ->
                  now - createdAt j > TTL_MS ->
                  (api_job TTL_MS jobId now s).1 = NotFound).
  { intros j Hget Hgt. unfold api_job.
    now rewrite (getJob_old _ _ _ _ Hget Hgt). }
  repeat split.
  - intros Hget. unfold api_job, getJob. now rewrite Hget.
  - exact Hold.
  - intros j Hget Hle. unfold api_job, getJob, expired. rewrite Hget.
    destruct (Z.gtb_spec (now - createdAt j) TTL_MS); [lia|reflexivity].
  - intros j T Hget HT Httl Hnow. apply (Hold j Hget). lia.
Qed.

End Store.

Lemma createJob_at_capacity_witness :
  Z.of_nat (length (jobs twoJobs)) = 2
  /\ JSMap.get "c" (jobs twoJobs) = None
  /\ exists s',
       createJob 2 tt tt "c" 3 twoJobs = Normal s'
       /\ jobs s' = jobs twoJobs ++ [("c"%string, newJob tt tt 3)]
       /\ ended s' = ended twoJobs
       /\ Z.of_nat (length (jobs s')) = 2 + 1.
Proof.
  split; [reflexivity|]. split; [reflexivity|].
  apply (createJob_at_capacity_evicts_nothing unit unit unit 2 tt tt "c"%string 3 twoJobs);
    reflexivity.
Defined.

(** The fourth job is the first to evict: the oldest job goes, and its
    subscriber is disconnected; the store again holds three jobs. *)
Example createJob_above_capacity :
  match createJob 2 tt tt "c" 3 twoJobs with
  | Normal s3 =>
      createJob 2 tt tt "d" 4 s3
      = Normal {| jobs := [("b"%string, jobAt 2 []); ("c"%string, jobAt 3 []);
                           ("d"%string, jobAt 4 [])];
                  ended := [7%nat] |}
  | Thrown _ => False
  end.
Proof. reflexivity. Qed.

Lemma getJob_expired_witness :
  JSMap.get "a" (jobs oneJob) = Some (jobAt 0 [7%nat])
  /\ 1500 - createdAt (jobAt 0 [7%nat]) > 1000
  /\ exists s',
       getJob 1000 "a" 1500 oneJob = (None, s')
       /\ jobs s' = JSMap.delete "a" (jobs oneJob)
       /\ ended s' = ended oneJob.
Proof.
  split; [reflexivity|]. split; [reflexivity|].
  apply (getJob_expired_deletes_without_disconnecting unit unit unit 1000
           "a"%string (jobAt 0 [7%nat]) 1500 oneJob); reflexivity.
Defined.

(** The same job under the cleanup timer: the subscriber is disconnected. *)
Example ttlSweep_disconnects :
  ttlSweep 1000 1500 oneJob = {| jobs := []; ended := [7%nat] |}.
Proof. reflexivity. Qed.

End ServerProps.

(* ===================================================================== *)
(** ** The learning engine, the scorer and the pipeline                  *)
(* ===================================================================== *)

Module ScraperProps.

Import Scraper Spec Samples.

Local Open Scope float_scope.

(** *** Scroll rounds *)

Lemma length_lastn {A} (n : nat) (l : list A) :
  (n <= length l)%nat -> length (JSArraySlice.lastn n l) = n.
Proof. intros H. unfold JSArraySlice.lastn. rewrite length_skipn. lia. Qed.

(** The value [recommendScrollRounds] returns, and the history it leaves. *)
Lemma recommendScrollRounds_value (currentRounds linksFound : float) (e : Engine) :
  let hist := scrollEffectiveness e ++ [mkScrollSample currentRounds linksFound] in
  let avgLinks :=
    fold_left (fun sum x => sum + links x) (JSArraySlice.lastn 3 hist) 0 / 3 in
  (recommendScrollRounds currentRounds linksFound e).2 =
  if (length hist <? 3)%nat then currentRounds
  else if avgLinks <? 8 then JSNum.Math_min (currentRounds + 5) 35
  else if 20 <? avgLinks then JSNum.Math_max (currentRounds - 3) 15
  else currentRounds.
Proof.
  cbv zeta. unfold recommendScrollRounds.
  destruct (Nat.ltb_spec (length (scrollEffectiveness e ++ [mkScrollSample currentRounds linksFound])) 3)
    as [Hlt|Hge]; [reflexivity|].
  rewrite (length_lastn 3 _ Hge). change (JSNum.of_nat 3) with 3.
  destruct (_ <? 8); [reflexivity|]. now destruct (20 <? _).
Qed.

Lemma recommendScrollRounds_history (currentRounds linksFound : float) (e : Engine) :
  scrollEffectiveness (recommendScrollRounds currentRounds linksFound e).1
  = scrollEffectiveness e ++ [mkScrollSample currentRounds linksFound].
Proof.
  unfold recommendScrollRounds.
  destruct (_ <? 3)%nat; [reflexivity|].
  destruct (_ <? 8); [reflexivity|]. now destruct (20 <? _).
Qed.

(** [min(x, cap)] caps and [max(x, floor)] floors. *)
Lemma Math_min_capped (x cap : float) : capped x cap (JSNum.Math_min x cap).
Proof.
  split; [apply JSNumFacts.Math_min_below|]. split; [apply JSNumFacts.Math_min_above|].
  intros ->. unfold JSNum.Math_min. destruct (is_nan cap) eqn:Hn.
  - simpl. unfold is_nan in Hn. apply negb_true_iff in Hn.
    apply FloatAxioms.Prim2SF_inj. rewrite FloatAxioms.eqb_spec in Hn.
    unfold SFeqb in Hn. rewrite JSNumFacts.SFcompare_refl in Hn.
    destruct (Prim2SF cap) eqn:Hc; try discriminate. reflexivity.
  - simpl. destruct (cap <? cap); [reflexivity|]. now destruct (get_sign cap).
Qed.



(** *** Price anomalies *)

Lemma detectPriceAnomaly_global (e : Engine) (p : float) (c : string) :
  JSNum.truthy p = true ->
  (ps_count (priceStats e) <? 5) = false ->
  detectPriceAnomaly e (Some p) c =
  if 3 <? zScore e p then Some outlier_high
  else if p <? globalAvg e * 0.1 then Some outlier_low
  else catAnomaly e p c.
Proof.
  intros Hp Hc. unfold detectPriceAnomaly. simpl. now rewrite Hp, Hc.
Qed.

(** C3 as stated fails: once five condos priced 100 are learnt, the price
    0 is a global anomaly (below 10% of the mean 100) and a category
    anomaly (below 30% of the category mean), and [detectPriceAnomaly]
    returns [null], not a global flag: its first statement returns [null]
    for a falsy price. *)
Lemma detectPriceAnomaly_zero_price_unflagged :
  globalAnomalous fiveCondos 0 = true
  /\ categoryAnomalous fiveCondos 0 "condo" = true
  /\ detectPriceAnomaly fiveCondos (Some 0) "condo" = None.
Proof. vm_compute. repeat split; reflexivity. Qed.

(** A falsy price gets no flag. *)
Lemma detectPriceAnomaly_falsy (e : Engine) (price : option float) (category : string) :
  truthyNum price = false -> detectPriceAnomaly e price category = None.
Proof. intros H. unfold detectPriceAnomaly. now rewrite H. Qed.

(** C3, amended: for every price that is truthy (not [null], not [0], not
    [NaN]) and is both a global anomaly and a category anomaly, the flag
    returned is a global one, [outlier_high] when the z-score is above 3
    and [outlier_low] otherwise, never [suspiciously_low] or
    [suspiciously_high], although the category check on its own would
    have flagged the price; for a falsy price the function returns
    [null], whatever the engine has learnt. *)
Theorem detectPriceAnomaly_global_precedence
    (e : Engine) (price : option float) (category : string) :
  (truthyNum price = true ->
   globalAnomalous e (toNumber price) = true ->
   categoryAnomalous e (toNumber price) category = true ->
   (detectPriceAnomaly e price category = Some outlier_high
    \/ detectPriceAnomaly e price category = Some outlier_low)
   /\ detectPriceAnomaly e price category
      = Some (if 3 <? zScore e (toNumber price) then outlier_high else outlier_low)
   /\ detectPriceAnomaly e price category <> Some suspiciously_low
   /\ detectPriceAnomaly e price category <> Some suspiciously_high
   /\ (JSString.truthy category = true ->
       catAnomaly e (toNumber price) category = Some suspiciously_low
       \/ catAnomaly e (toNumber price) category = Some suspiciously_high))
  /\ (truthyNum price = false -> detectPriceAnomaly e price category = None).
Proof.
  split; [|apply detectPriceAnomaly_falsy].
  intros Hp Hg Hcat. destruct price as [p|]; [|discriminate]. simpl in Hp.
  cbn [toNumber] in *. unfold globalAnomalous in Hg.
  apply andb_prop in Hg as [Hc Hz]. apply negb_true_iff in Hc.
  rewrite (detectPriceAnomaly_global e p category Hp Hc).
  assert (Hflag : JSString.truthy category = true ->
                  catAnomaly e p category = Some suspiciously_low
                  \/ catAnomaly e p category = Some suspiciously_high).
  { intros Ht. unfold catAnomaly, categoryAnomalous in *. rewrite Ht.
    destruct (JSMap.get category (categoryStats e)) as [cs|]; [|discriminate].
    apply andb_prop in Hcat as [H3 Hor]. rewrite H3. cbv zeta.
    destruct (cs_sum cs / cs_count cs * 3 <? p); [now right|].
    rewrite orb_false_r in Hor. rewrite Hor. now left. }
  destruct (3 <? zScore e p).
  - split; [now left|]. split; [reflexivity|]. split; [discriminate|].
    split; [discriminate|exact Hflag].
  - simpl in Hz. rewrite Hz. split; [now right|]. split; [reflexivity|].
    split; [discriminate|]. split; [discriminate|exact Hflag].
Qed.

(** A price of 1000 against the five condos priced 100: more than 3
    deviations from the global mean and more than 300% of the category
    mean; and no price at all. *)
Lemma detectPriceAnomaly_global_precedence_witness :
  truthyNum (Some 1000) = true
  /\ globalAnomalous fiveCondos 1000 = true
  /\ categoryAnomalous fiveCondos 1000 "condo" = true
  /\ catAnomaly fiveCondos 1000 "condo" = Some suspiciously_high
  /\ detectPriceAnomaly fiveCondos (Some 1000) "condo" = Some outlier_high
  /\ detectPriceAnomaly fiveCondos None "condo" = None
  /\ ((detectPriceAnomaly fiveCondos (Some 1000) "condo" = Some outlier_high
       \/ detectPriceAnomaly fiveCondos (Some 1000) "condo" = Some outlier_low)
      /\ detectPriceAnomaly fiveCondos (Some 1000) "condo"
         = Some (if 3 <? zScore fiveCondos (toNumber (Some 1000))
                 then outlier_high else outlier_low)
      /\ detectPriceAnomaly fiveCondos (Some 1000) "condo" <> Some suspiciously_low
      /\ detectPriceAnomaly fiveCondos (Some 1000) "condo" <> Some suspiciously_high
      /\ (JSString.truthy "condo" = true ->
          catAnomaly fiveCondos (toNumber (Some 1000)) "condo" = Some suspiciously_low
          \/ catAnomaly fiveCondos (toNumber (Some 1000)) "condo"
             = Some suspiciously_high)).
Proof.
  split; [reflexivity|]. split; [vm_compute; reflexivity|].
  split; [vm_compute; reflexivity|]. split; [vm_compute; reflexivity|].
  split; [vm_compute; reflexivity|].
  split; [exact (proj2 (detectPriceAnomaly_global_precedence fiveCondos None "condo")
                   eq_refl)|].
  apply (proj1 (detectPriceAnomaly_global_precedence fiveCondos (Some 1000) "condo"));
    vm_compute; reflexivity.
Defined.

(** *** The scores of a row *)

(** C4 as stated fails: for the sample listing the stored scores are
    quality 70, price a little under 100 and location 15; the worker
    stores the value score 63, and [round(70*0.4 + price*0.3 + 15*0.3)] is
    62, read over the rationals and read as a JavaScript expression
    alike. *)
Lemma value_score_is_not_the_rounded_weighted_sum :
  let r := scoreRow newEngine condoListing in
  quality_score r = Some 70
  /\ (toNumber (price_score r) <? 100) = true
  /\ location_score r = 15
  /\ value_score r = 63
  /\ valueScoreExact (toNumber (quality_score r)) (toNumber (price_score r))
       (location_score r) = 62%Z
  /\ valueScoreFloat (toNumber (quality_score r)) (toNumber (price_score r))
       (location_score r) = 62.
Proof. vm_compute. repeat split; reflexivity. Qed.

(** The scorer reads none of the fields the worker writes. *)
Lemma scorePriceReliability_set_quality_score (q : option float) (r : Listing) :
  scorePriceReliability (set_quality_score q r) = scorePriceReliability r.
Proof. now destruct r. Qed.

Lemma calculateQualityScore_set_quality_score (q : option float) (r : Listing) :
  calculateQualityScore (set_quality_score q r) = calculateQualityScore r.
Proof. now destruct r. Qed.

Lemma scoreDataCompleteness_set_scores (q p : option float) (r : Listing) :
  scoreDataCompleteness (set_price_score p (set_quality_score q r))
  = scoreDataCompleteness r.
Proof. now destruct r. Qed.

Lemma generateAnomalyFlags_set_scores (q p d : option float) (r : Listing) (e : Engine) :
  generateAnomalyFlags (set_data_completeness d (set_price_score p (set_quality_score q r))) e
  = generateAnomalyFlags r e.
Proof. now destruct r. Qed.

Lemma set_quality_score_twice (q q0 : option float) (r : Listing) :
  set_quality_score q (set_quality_score q0 r) = set_quality_score q r.
Proof. now destruct r. Qed.

(** The five assignments of the worker, each value written in terms of
    the row the worker received. *)
Lemma scoreRow_assignments (e : Engine) (row : Listing) :
  scoreRow e row =
  set_value_score
    (JSNum.Math_round
       ((calculateQualityScore row / 100) * 40 +
        (scorePriceReliability row * 100 / 100) * 30 +
        (location_score row / 100) * 30))
    (set_anomaly_flags (generateAnomalyFlags row e)
       (set_data_completeness (Some (JSNum.Math_round (scoreDataCompleteness row * 100)))
          (set_price_score (Some (scorePriceReliability row * 100))
             (set_quality_score (Some (calculateQualityScore row)) row)))).
Proof.
  unfold scoreRow. cbv zeta.
  rewrite scorePriceReliability_set_quality_score, scoreDataCompleteness_set_scores,
    generateAnomalyFlags_set_scores.
  f_equal; now destruct row.
Qed.

(** The worker sets [quality_score] on the row first, then
    [price_score], and computes [value_score] last, from the scores then
    stored on that row; whatever [quality_score] the row held before
    plays no part. *)
Lemma scoreRow_scores (e : Engine) (row : Listing) :
  let r := scoreRow e row in
  quality_score r = Some (calculateQualityScore row)
  /\ price_score r = Some (scorePriceReliability row * 100)
  /\ location_score r = location_score row
  /\ value_score r =
     JSNum.Math_round
       ((toNumber (quality_score r) / 100) * 40 +
        (toNumber (price_score r) / 100) * 30 +
        (location_score r / 100) * 30)
  /\ forall q0, scoreRow e (set_quality_score q0 row) = r.
Proof.
  cbv zeta. split; [|split; [|split; [|split]]].
  - rewrite scoreRow_assignments. now destruct row.
  - rewrite scoreRow_assignments. now destruct row.
  - rewrite scoreRow_assignments. now destruct row.
  - rewrite scoreRow_assignments. now destruct row.
  - intros q0. rewrite !scoreRow_assignments.
    rewrite calculateQualityScore_set_quality_score,
      scorePriceReliability_set_quality_score, set_quality_score_twice.
    repeat f_equal; now destruct row.
Qed.

(** *** The schema of the final rows *)

Lemma SCHEMA_KEYS_NoDup : NoDup SCHEMA_KEYS.
Proof. apply (bool_decide_unpack _). vm_compute. exact I. Qed.

Lemma SCHEMA_KEYS_length : length SCHEMA_KEYS = 77%nat.
Proof. reflexivity. Qed.

(** Filling an object from a list of keys. *)
Lemma fill_lookup (f : string -> jsval) (ks : list string) (o : gmap string jsval) (k : string) :
  fold_left (fun o k => <[k := f k]> o) ks o !! k
  = if bool_decide (k ∈ ks) then Some (f k) else o !! k.
Proof.
  revert o. induction ks as [|k0 ks IH]; intros o; simpl; [reflexivity|].
  rewrite IH. destruct (decide (k = k0)) as [->|Hne].
  - rewrite lookup_insert_eq. rewrite (bool_decide_eq_true_2 (k0 ∈ k0 :: ks)) by left.
    now destruct (bool_decide (k0 ∈ ks)).
  - rewrite lookup_insert_ne by congruence.
    destruct (bool_decide (k ∈ ks)) eqn:E.
    + apply bool_decide_eq_true_1 in E.
      rewrite (bool_decide_eq_true_2 (k ∈ k0 :: ks)); [reflexivity|now right].
    + apply bool_decide_eq_false_1 in E.
      rewrite (bool_decide_eq_false_2 (k ∈ k0 :: ks)); [reflexivity|].
      intros Hin. apply elem_of_cons in Hin as [?|?]; contradiction.
Qed.

Lemma normalizeRow_lookup (r : gmap string jsval) (k : string) :
  normalizeRow r !! k = if bool_decide (k ∈ SCHEMA_KEYS) then Some (orNull (r !! k)) else None.
Proof. unfold normalizeRow. rewrite fill_lookup. now rewrite lookup_empty. Qed.

Lemma normalizeRow_dom (r : gmap string jsval) :
  dom (normalizeRow r) = list_to_set SCHEMA_KEYS.
Proof.
  apply set_eq. intros k. rewrite elem_of_dom, normalizeRow_lookup, elem_of_list_to_set.
  destruct (bool_decide (k ∈ SCHEMA_KEYS)) eqn:E.
  - apply bool_decide_eq_true_1 in E. split; [auto|]. intros _. eauto.
  - apply bool_decide_eq_false_1 in E. split; [|contradiction].
    intros [v Hv]. discriminate.
Qed.

Lemma orNull_defined (v : option jsval) : orNull v <> VUndefined.
Proof. destruct v as [[]|]; discriminate. Qed.

Lemma orNull_kept (v : jsval) : v <> VUndefined -> v <> VNull -> orNull (Some v) = v.
Proof. now destruct v. Qed.

Lemma orNull_null (v : option jsval) :
  orNull v = VNull <-> v = None \/ v = Some VUndefined \/ v = Some VNull.
Proof.
  destruct v as [[]|]; simpl; split; intros H; try discriminate; auto;
    destruct H as [H|[H|H]]; discriminate.
Qed.

Lemma jsOr_defined (v : option jsval) (d : jsval) :
  d <> VUndefined -> d <> VNull -> jsOr v d <> VUndefined /\ jsOr v d <> VNull.
Proof.
  intros H1 H2. destruct v as [[]|]; simpl; try (split; assumption).
  - destruct b; [split; discriminate|split; assumption].
  - destruct (JSNum.truthy x); [split; discriminate|split; assumption].
  - destruct (JSString.truthy s); [split; discriminate|split; assumption].
Qed.

Lemma FACILITY_FLAGS_in_schema :
  forallb (fun k => bool_decide (k ∈ SCHEMA_KEYS))
          ("facility_count"%string :: FACILITY_FLAGS) = true.
Proof. vm_compute. reflexivity. Qed.

Lemma facilityEntries_keys (data : gmap string jsval) :
  (facilityEntries data).*1 = "facility_count"%string :: FACILITY_FLAGS.
Proof. reflexivity. Qed.

(** The row [parseDetail] returns holds, under each facility key, what
    the row literal holds. *)
Lemma facilityRow_lookup (data : gmap string jsval) (k : string) (d : jsval) :
  (k, jsOr (data !! k) d) ∈ facilityEntries data ->
  d <> VUndefined -> d <> VNull ->
  facilityRow data !! k = Some (jsOr (data !! k) d).
Proof.
  intros Hin Hd1 Hd2. unfold facilityRow. rewrite normalizeRow_lookup.
  assert (Hk : k ∈ "facility_count"%string :: FACILITY_FLAGS).
  { rewrite <- (facilityEntries_keys data).
    apply list_elem_of_fmap. now exists (k, jsOr (data !! k) d). }
  pose proof FACILITY_FLAGS_in_schema as Hs. rewrite forallb_forall in Hs.
  rewrite (Hs k) by now apply list_elem_of_In.
  assert (Hl : (list_to_map (facilityEntries data) : gmap string jsval) !! k
               = Some (jsOr (data !! k) d)).
  { apply elem_of_list_to_map; [|exact Hin].
    rewrite facilityEntries_keys. apply (bool_decide_unpack _). vm_compute. exact I. }
  rewrite Hl. f_equal. apply orNull_kept; now apply jsOr_defined.
Qed.

Lemma facility_flag_entry (data : gmap string jsval) (k : string) :
  k ∈ FACILITY_FLAGS -> (k, jsOr (data !! k) (VBool false)) ∈ facilityEntries data.
Proof.
  intros Hk. unfold facilityEntries. right.
  apply list_elem_of_fmap. now exists k.
Qed.

(** ... and so does the final row. *)
Lemma final_facility_lookup (data : gmap string jsval) (k : string) (d : jsval) :
  (k, jsOr (data !! k) d) ∈ facilityEntries data ->
  d <> VUndefined -> d <> VNull ->
  normalizeRow (facilityRow data) !! k = Some (jsOr (data !! k) d).
Proof.
  intros Hin Hd1 Hd2. rewrite normalizeRow_lookup.
  rewrite (facilityRow_lookup data k d Hin Hd1 Hd2).
  assert (Hk : k ∈ "facility_count"%string :: FACILITY_FLAGS).
  { rewrite <- (facilityEntries_keys data).
    apply list_elem_of_fmap. now exists (k, jsOr (data !! k) d). }
  pose proof FACILITY_FLAGS_in_schema as Hs. rewrite forallb_forall in Hs.
  rewrite (Hs k) by now apply list_elem_of_In.
  f_equal. apply orNull_kept; now apply jsOr_defined.
Qed.

Lemma jsOr_missing (data : gmap string jsval) (k : string) (d : jsval) :
  data !! k = None -> jsOr (data !! k) d = d.
Proof. now intros ->. Qed.

(** C8 as stated fails twice. A final row has 77 keys, the 77 entries of
    [SCHEMA_KEYS], not 76. And a field for which no data was extracted is
    not always [null]: for a page that gave nothing ([data] empty) the
    row literal of [parseDetail] holds [has_pool: false] and
    [facility_count: 0], and so does the final row. *)
Lemma final_row_has_not_76_keys :
  size (normalizeRow ∅) <> 76%nat
  /\ (∅ : gmap string jsval) !! "has_pool"%string = None
  /\ normalizeRow (facilityRow ∅) !! "has_pool"%string = Some (VBool false)
  /\ normalizeRow (facilityRow ∅) !! "has_pool"%string <> Some VNull
  /\ normalizeRow (facilityRow ∅) !! "facility_count"%string = Some (VNum 0)
  /\ normalizeRow (facilityRow ∅) !! "facility_count"%string <> Some VNull.
Proof.
  split.
  { rewrite <- size_dom, normalizeRow_dom.
    rewrite (size_list_to_set SCHEMA_KEYS SCHEMA_KEYS_NoDup). discriminate. }
  split; [apply lookup_empty|].
  assert (Hp : normalizeRow (facilityRow ∅) !! "has_pool"%string = Some (VBool false)).
  { rewrite <- (jsOr_missing ∅ "has_pool" (VBool false) (lookup_empty _)).
    apply final_facility_lookup; try discriminate.
    apply facility_flag_entry. now left. }
  assert (Hc : normalizeRow (facilityRow ∅) !! "facility_count"%string = Some (VNum 0)).
  { rewrite <- (jsOr_missing ∅ "facility_count" (VNum 0) (lookup_empty _)).
    apply final_facility_lookup; try discriminate. now left. }
  rewrite Hp, Hc. repeat split; discriminate.
Qed.

(** C8, amended: every row of a completed run's output carries exactly
    the keys of [SCHEMA_KEYS], which are 77: each schema key is present,
    no other key is, and no value is [undefined]. A key holds [null]
    exactly when its value was missing ([undefined]) or [null] in the
    worker's row; any other value is kept as it is. In particular the
    defaults of [parseDetail] for a field the page gave nothing for are
    kept: a facility flag is [false] and [facility_count] is [0] in the
    final row, not [null]. *)
Theorem final_rows_have_the_schema (rows : list (gmap string jsval)) :
  length (finalRows rows) = length rows
  /\ Forall2
       (fun r o =>
          dom o = list_to_set SCHEMA_KEYS
          /\ size o = 77%nat
          /\ (forall k, k ∈ SCHEMA_KEYS -> o !! k = Some (orNull (r !! k)))
          /\ (forall k, k ∉ SCHEMA_KEYS -> o !! k = None)
          /\ (forall k v, o !! k = Some v -> v <> VUndefined)
          /\ (forall k, k ∈ SCHEMA_KEYS -> r !! k = None -> o !! k = Some VNull)
          /\ (forall k, k ∈ SCHEMA_KEYS ->
                (o !! k = Some VNull
                 <-> r !! k = None \/ r !! k = Some VUndefined \/ r !! k = Some VNull))
          /\ (forall k v, k ∈ SCHEMA_KEYS -> r !! k = Some v ->
                v <> VUndefined -> v <> VNull -> o !! k = Some v))
       rows (finalRows rows)
  /\ (forall data k,
        k ∈ FACILITY_FLAGS ->
        Forall (fun o => o !! k = Some (jsOr (data !! k) (VBool false))
                         /\ o !! k <> Some VNull
                         /\ (data !! k = None -> o !! k = Some (VBool false)))
               (finalRows [facilityRow data]))
  /\ (forall data,
        Forall (fun o => o !! "facility_count"%string
                         = Some (jsOr (data !! "facility_count"%string) (VNum 0))
                         /\ o !! "facility_count"%string <> Some VNull
                         /\ (data !! "facility_count"%string = None ->
                             o !! "facility_count"%string = Some (VNum 0)))
               (finalRows [facilityRow data])).
Proof.
  pose proof final_facility_lookup as Hkept.
  unfold finalRows. split; [apply length_map|]. split; [|split].
  - induction rows as [|r rows IH]; simpl; constructor; [|exact IH].
    split; [apply normalizeRow_dom|].
    split.
    { rewrite <- size_dom, normalizeRow_dom.
      now rewrite (size_list_to_set SCHEMA_KEYS SCHEMA_KEYS_NoDup). }
    split.
    { intros k Hk. rewrite normalizeRow_lookup. now rewrite bool_decide_eq_true_2. }
    split.
    { intros k Hk. rewrite normalizeRow_lookup. now rewrite bool_decide_eq_false_2. }
    split.
    { intros k v. rewrite normalizeRow_lookup.
      destruct (bool_decide (k ∈ SCHEMA_KEYS)); [|discriminate].
      intros [= <-]. apply orNull_defined. }
    split.
    { intros k Hk Hnone. rewrite normalizeRow_lookup, bool_decide_eq_true_2 by assumption.
      now rewrite Hnone. }
    split.
    { intros k Hk. rewrite normalizeRow_lookup, bool_decide_eq_true_2 by assumption.
      rewrite <- orNull_null. split; [now intros [= ->]|now intros ->]. }
    intros k v Hk Hv H1 H2.
    rewrite normalizeRow_lookup, bool_decide_eq_true_2 by assumption.
    rewrite Hv. f_equal. now apply orNull_kept.
  - intros data k Hk. simpl. constructor; [|constructor].
    rewrite (Hkept data k (VBool false)); try discriminate;
      [|now apply facility_flag_entry].
    split; [reflexivity|]. split.
    + intros [= H]. now destruct (jsOr_defined (data !! k) (VBool false)).
    + now intros ->.
  - intros data. simpl. constructor; [|constructor].
    rewrite (Hkept data "facility_count"%string (VNum 0)); try discriminate; [|now left].
    split; [reflexivity|]. split.
    + intros [= H]. now destruct (jsOr_defined (data !! "facility_count"%string) (VNum 0)).
    + now intros ->.
Qed.


(** *** Duplicate detection *)

Lemma learnPrice_duplicateSignatures (p : option float) (c : string) (e : Engine) :
  duplicateSignatures (learnPrice p c e) = duplicateSignatures e.
Proof.
  unfold learnPrice. destruct p as [x|]; [|reflexivity].
  now destruct (negb (JSNum.truthy x) || (x <=? 0)).
Qed.

Section Duplicates.

Variable Number_toString : float -> string.

Abbreviation sig := (generateSignature Number_toString).
Abbreviation sigs := (parsedSignatures Number_toString).

(** Scoring a row leaves the five signature fields as they are. *)
Lemma scoreRow_signature (e : Engine) (row : Listing) :
  sig (scoreRow e row) = sig row.
Proof. now destruct row. Qed.

Lemma scoreRow_listing_url (e : Engine) (row : Listing) :
  listing_url (scoreRow e row) = listing_url row.
Proof. now destruct row. Qed.

(** The step on a row whose signature the engine has seen. *)
Lemma processRow_seen (row : Listing) (st : Run) :
  sig row ∈ duplicateSignatures (aiEngine st) ->
  processRow Number_toString row st =
  {| aiEngine := aiEngine st; rows := rows st;
     meta := {| duplicates_removed := (duplicates_removed (meta st) + 1)%Z;
                total_parsed := total_parsed (meta st);
                errors := errors (meta st) |};
     parsedCount := parsedCount st |}.
Proof.
  intros Hin. unfold processRow, isDuplicate.
  now rewrite bool_decide_eq_true_2.
Qed.

(** The step on a row whose signature is new. *)
Lemma processRow_new (row : Listing) (st : Run) :
  sig row ∉ duplicateSignatures (aiEngine st) ->
  exists e2,
    processRow Number_toString row st =
    {| aiEngine := e2; rows := rows st ++ [scoreRow e2 row];
       meta := {| duplicates_removed := duplicates_removed (meta st);
                  total_parsed := (parsedCount st + 1)%Z;
                  errors := errors (meta st) |};
       parsedCount := (parsedCount st + 1)%Z |}
    /\ duplicateSignatures e2 = duplicateSignatures (aiEngine st) ∪ {[ sig row ]}.
Proof.
  intros Hnin. unfold processRow, isDuplicate.
  rewrite bool_decide_eq_false_2 by assumption.
  eexists. split; [reflexivity|]. now rewrite learnPrice_duplicateSignatures.
Qed.

Lemma runWorkers_snoc (ds : list Detail) (d : Detail) (st : Run) :
  runWorkers Number_toString (ds ++ [d]) st
  = workerStep Number_toString (runWorkers Number_toString ds st) d.
Proof. unfold runWorkers. now rewrite fold_left_app. Qed.

Lemma sigs_snoc (ds : list Detail) (d : Detail) :
  sigs (ds ++ [d]) = sigs ds ++ sigs [d].
Proof. unfold parsedSignatures. now rewrite flat_map_app. Qed.

(** What holds of a run after any sequence of details: the engine has
    seen exactly the signatures of the rows parsed so far, the rows kept
    have pairwise different signatures, which are those signatures, and
    every parsed row was either kept or counted as a duplicate. *)
Lemma run_invariant (ds : list Detail) :
  let st := runWorkers Number_toString ds newRun in
  duplicateSignatures (aiEngine st) = list_to_set (sigs ds)
  /\ NoDup (map sig (rows st))
  /\ (forall s, s ∈ map sig (rows st) <-> s ∈ sigs ds)
  /\ (duplicates_removed (meta st) + Z.of_nat (length (rows st))
      = Z.of_nat (length (sigs ds)))%Z.
Proof.
  induction ds as [|d ds IH] using rev_ind.
  - simpl. repeat split; try (intros H; inversion H). constructor.
  - cbv zeta in *. rewrite runWorkers_snoc, sigs_snoc.
    set (st := runWorkers Number_toString ds newRun) in *.
    destruct IH as (Hseen & Hnd & Hmem & Hcnt).
    destruct d as [row|url msg]; simpl.
    + destruct (decide (sig row ∈ duplicateSignatures (aiEngine st))) as [Hin|Hnin].
      * rewrite (processRow_seen row st Hin). simpl.
        assert (Hin' : sig row ∈ sigs ds) by (rewrite Hseen in Hin; set_solver).
        repeat split.
        -- rewrite Hseen, list_to_set_app_L. set_solver.
        -- exact Hnd.
        -- intros H. apply elem_of_app. left. now apply Hmem.
        -- intros H. apply elem_of_app in H as [H|H]; [now apply Hmem|].
           apply list_elem_of_singleton in H. subst. now apply Hmem.
        -- rewrite length_app. simpl. lia.
      * destruct (processRow_new row st Hnin) as (e2 & -> & He2). simpl.
        assert (Hnin' : sig row ∉ sigs ds) by (rewrite Hseen in Hnin; set_solver).
        rewrite map_app. simpl. rewrite scoreRow_signature.
        repeat split.
        -- rewrite He2, Hseen, list_to_set_app_L. set_solver.
        -- apply NoDup_app. split; [exact Hnd|]. split.
           ++ intros s Hs Hs'. apply list_elem_of_singleton in Hs'. subst.
              apply Hnin'. now apply Hmem.
           ++ apply NoDup_singleton.
        -- intros H. apply elem_of_app in H as [H|H]; apply elem_of_app;
             [left; now apply Hmem|now right].
        -- intros H. apply elem_of_app in H as [H|H]; apply elem_of_app;
             [left; now apply Hmem|now right].
        -- rewrite !length_app. simpl. lia.
    + rewrite app_nil_r. repeat split; try assumption; apply Hmem.
Qed.

(** The rows of a run are the rows the worker scored: each row kept was
    parsed, and went through [scoreRow] before it was appended. *)
Lemma rows_are_scored (ds : list Detail) :
  Forall (fun r => exists e row, Parsed row ∈ ds /\ r = scoreRow e row)
         (rows (runWorkers Number_toString ds newRun)).
Proof.
  induction ds as [|d ds IH] using rev_ind; [constructor|].
  rewrite runWorkers_snoc.
  set (st := runWorkers Number_toString ds newRun) in *.
  assert (IH' : Forall (fun r => exists e row, Parsed row ∈ ds ++ [d] /\ r = scoreRow e row)
                       (rows st)).
  { refine (Forall_impl _ _ _ IH _). intros r (e & row & Hin & ->).
    exists e, row. split; [|reflexivity]. apply elem_of_app. now left. }
  destruct d as [row|url msg]; simpl; [|exact IH'].
  destruct (decide (sig row ∈ duplicateSignatures (aiEngine st))) as [Hin|Hnin].
  - now rewrite (processRow_seen row st Hin).
  - destruct (processRow_new row st Hnin) as (e2 & -> & _). simpl.
    apply Forall_app. split; [exact IH'|]. constructor; [|constructor].
    exists e2, row. split; [|reflexivity]. apply elem_of_app. right. now left.
Qed.

(** C4, amended: every row of a run's [rows] is a parsed row that the
    worker scored before appending it: [quality_score] was set on the
    row first (to the quality score of the parsed row), then
    [price_score], and [value_score] was computed last, from the scores
    then stored on that row, as
    [Math.round((quality_score/100)*40 + (price_score/100)*30 +
    (location_score/100)*30)] in double arithmetic; whatever
    [quality_score] the parsed row held plays no part. *)
Theorem value_score_after_quality_score (ds : list Detail) :
  Forall
    (fun r =>
       exists e row,
         Parsed row ∈ ds
         /\ r = scoreRow e row
         /\ quality_score r = Some (calculateQualityScore row)
         /\ price_score r = Some (scorePriceReliability row * 100)
         /\ location_score r = location_score row
         /\ value_score r =
            JSNum.Math_round
              ((toNumber (quality_score r) / 100) * 40 +
               (toNumber (price_score r) / 100) * 30 +
               (location_score r / 100) * 30)
         /\ forall q0, scoreRow e (set_quality_score q0 row) = r)
    (rows (runWorkers Number_toString ds newRun)).
Proof.
  refine (Forall_impl _ _ _ (rows_are_scored ds) _).
  intros r (e & row & Hin & ->). exists e, row.
  split; [exact Hin|]. split; [reflexivity|]. exact (scoreRow_scores e row).
Qed.

(** Two listings with one signature, from a fresh run. *)
Lemma two_equal_signatures_one_row (a b : Listing) :
  sig a = sig b ->
  let s2 := runWorkers Number_toString [Parsed a; Parsed b] newRun in
  (exists row', rows s2 = [row'] /\ listing_url row' = listing_url a)
  /\ duplicates_removed (meta s2) = 1%Z.
Proof.
  intros Hab. unfold runWorkers. simpl.
  destruct (processRow_new a newRun) as (e2 & -> & He2); [set_solver|].
  rewrite processRow_seen by (simpl; rewrite He2, Hab; set_solver).
  simpl. split; [|reflexivity].
  eexists. split; [reflexivity|apply scoreRow_listing_url].
Qed.

(** C5: within one run, a listing whose signature an earlier listing of
    the run had is discarded and [duplicates_removed] goes up by exactly
    one; a listing whose signature is new is kept (its signature is then
    recorded) and [duplicates_removed] stays. So the rows kept have
    pairwise different signatures, one row for each signature met, and
    two listings with the same signature yield exactly one row and a
    count of one. *)
Theorem duplicates_yield_one_row (ds : list Detail) (x : Listing) :
  let st := runWorkers Number_toString ds newRun in
  let st' := processRow Number_toString x st in
  NoDup (map sig (rows st))
  /\ (forall s, s ∈ map sig (rows st) <-> s ∈ sigs ds)
  /\ (duplicates_removed (meta st)
      = Z.of_nat (length (sigs ds)) - Z.of_nat (length (rows st)))%Z
  /\ (sig x ∈ sigs ds ->
      rows st' = rows st
      /\ duplicates_removed (meta st') = (duplicates_removed (meta st) + 1)%Z)
  /\ (sig x ∉ sigs ds ->
      (exists row', rows st' = rows st ++ [row'] /\ sig row' = sig x
                    /\ listing_url row' = listing_url x)
      /\ sig x ∈ duplicateSignatures (aiEngine st')
      /\ duplicates_removed (meta st') = duplicates_removed (meta st))
  /\ (forall a b, sig a = sig b ->
      let s2 := runWorkers Number_toString [Parsed a; Parsed b] newRun in
      (exists row', rows s2 = [row'] /\ listing_url row' = listing_url a)
      /\ duplicates_removed (meta s2) = 1%Z).
Proof.
  cbv zeta. destruct (run_invariant ds) as (Hseen & Hnd & Hmem & Hcnt).
  set (st := runWorkers Number_toString ds newRun) in *.
  split; [exact Hnd|]. split; [exact Hmem|]. split; [lia|]. split; [|split].
  - intros Hin.
    rewrite processRow_seen by (rewrite Hseen; set_solver). now simpl.
  - intros Hnin.
    destruct (processRow_new x st) as (e2 & -> & He2); [rewrite Hseen; set_solver|].
    simpl. split; [|split; [rewrite He2; set_solver|reflexivity]].
    eexists. split; [reflexivity|].
    split; [apply scoreRow_signature|apply scoreRow_listing_url].
  - intros a b Hab. unfold runWorkers. simpl.
    destruct (processRow_new a newRun) as (e2 & -> & He2); [set_solver|].
    rewrite processRow_seen by (simpl; rewrite He2, Hab; set_solver).
    simpl. split; [|reflexivity].
    eexists. split; [reflexivity|apply scoreRow_listing_url].
Qed.

(** The parts the code keeps are the components the specification keeps. *)
Lemma kept_numPart (v : option float) :
  map (partToString Number_toString) (List.filter partTruthy [numPart v])
  = keepNum Number_toString v.
Proof.
  destruct v as [x|]; [|reflexivity]. cbn [numPart List.filter partTruthy keepNum missingNum].
  unfold JSNum.truthy, is_zero, is_nan. change zero with 0%float.
  now destruct ((x =? 0)%float || negb (x =? x)%float).
Qed.

Lemma kept_strPart (v : option string) :
  map (partToString Number_toString) (List.filter partTruthy [strPart v]) = keepStr v.
Proof. destruct v as [[|c s0]|]; reflexivity. Qed.

Lemma kept_titlePart (l : Listing) :
  map (partToString Number_toString) (List.filter partTruthy [titlePart (listing_title l)])
  = keepStr (normalTitle l).
Proof.
  unfold normalTitle. destruct (listing_title l) as [t|]; [|reflexivity].
  cbn [titlePart]. exact (kept_strPart (Some _)).
Qed.

Lemma generateSignature_signatureOf (l : Listing) :
  sig l = signatureOf Number_toString l.
Proof.
  unfold generateSignature, signatureOf, signatureParts. f_equal.
  change [titlePart (listing_title l); numPart (price_value l);
          numPart (usable_area_sqm l); numPart (bedrooms l); strPart (location_text l)]
    with ([titlePart (listing_title l)] ++ [numPart (price_value l)]
          ++ [numPart (usable_area_sqm l)] ++ [numPart (bedrooms l)]
          ++ [strPart (location_text l)]).
  rewrite !List.filter_app, !map_app.
  now rewrite kept_titlePart, !kept_numPart, kept_strPart.
Qed.

Lemma keepNum_agree (u v : option float) :
  agreeNum u v -> keepNum Number_toString u = keepNum Number_toString v.
Proof.
  intros [->|[Hu Hv]]; [reflexivity|]. unfold keepNum. rewrite Hu, Hv.
  now destruct u, v.
Qed.

Lemma keepStr_agree (u v : option string) : agreeStr u v -> keepStr u = keepStr v.
Proof.
  intros [->|[Hu Hv]]; [reflexivity|]. unfold keepStr. rewrite Hu, Hv.
  now destruct u, v.
Qed.

Lemma keepNum_missing (v : option float) :
  missingNum v = true -> keepNum Number_toString v = [].
Proof. intros H. unfold keepNum. rewrite H. now destruct v. Qed.

Lemma keepStr_missing (v : option string) : missingStr v = true -> keepStr v = [].
Proof. intros H. unfold keepStr. rewrite H. now destruct v. Qed.

Lemma parsed_signature_met (a : Listing) (ds : list Detail) :
  Parsed a ∈ ds -> sig a ∈ sigs ds.
Proof.
  intros Hin. unfold parsedSignatures.
  apply list_elem_of_In, in_flat_map. exists (Parsed a).
  split; [now apply list_elem_of_In|]. now left.
Qed.

(** C10: the signature is the ["|"]-join of the normalised title, the
    price, the area, the bedroom count and the location text, in this
    order, with every component that is [null], [0], [NaN] or the empty
    string left out; neither the URL nor the id of the listing takes
    part. A listing without a price signs as the same listing with the
    price [0]. Two listings that agree on the five components (each the
    same in both, or falsy in both) have the same signature; a listing
    whose five components are all missing has the empty signature; and a
    listing that agrees in this way with a listing parsed earlier in the
    run is discarded as a duplicate, whatever its URL and id. So it is
    with the two studios, one without a price and one with the price [0],
    which both sign ["t|35|L"], and with two pages nothing was read
    from. *)
Theorem signature_omits_falsy_parts_and_url (a b : Listing) (ds : list Detail) :
  sig a = signatureOf Number_toString a
  /\ (missingNum (price_value a) = true ->
      sig a = JSString.join "|"
                (keepStr (normalTitle a) ++ keepNum Number_toString (usable_area_sqm a)
                 ++ keepNum Number_toString (bedrooms a) ++ keepStr (location_text a)))
  /\ (missingStr (normalTitle a) = true -> missingStr (location_text a) = true ->
      sig a = JSString.join "|"
                (keepNum Number_toString (price_value a)
                 ++ keepNum Number_toString (usable_area_sqm a)
                 ++ keepNum Number_toString (bedrooms a)))
  /\ (sameSignatureFields a b -> sig a = sig b)
  /\ (noSignatureFields a -> sig a = ""%string)
  /\ (noSignatureFields a -> noSignatureFields b -> sig a = sig b)
  /\ (sameSignatureFields a b -> Parsed a ∈ ds ->
      let st := runWorkers Number_toString ds newRun in
      let st' := processRow Number_toString b st in
      rows st' = rows st
      /\ duplicates_removed (meta st') = (duplicates_removed (meta st) + 1)%Z)
  /\ (listing_url studioNoPrice <> listing_url studioZeroPrice
      /\ price_value studioNoPrice = None
      /\ price_value studioZeroPrice = Some 0%float
      /\ generateSignature showInteger studioNoPrice = "t|35|L"%string
      /\ generateSignature showInteger studioZeroPrice = "t|35|L"%string
      /\ generateSignature showInteger (barePage "https://a.example/1") = ""%string
      /\ (let st := runWorkers showInteger
                      [Parsed studioNoPrice; Parsed studioZeroPrice;
                       Parsed (barePage "https://a.example/1");
                       Parsed (barePage "https://a.example/2")] newRun in
          map listing_url (rows st)
          = [listing_url studioNoPrice; "https://a.example/1"%string]
          /\ duplicates_removed (meta st) = 2%Z)).
Proof.
  assert (Hsame : forall x y, sameSignatureFields x y -> sig x = sig y).
  { intros x y (Ht & Hp & Ha & Hb & Hl). rewrite !generateSignature_signatureOf.
    unfold signatureOf.
    now rewrite (keepStr_agree _ _ Ht), (keepNum_agree _ _ Hp), (keepNum_agree _ _ Ha),
      (keepNum_agree _ _ Hb), (keepStr_agree _ _ Hl). }
  assert (Hempty : forall l, noSignatureFields l -> sig l = ""%string).
  { intros l (Ht & Hp & Ha & Hb & Hl). rewrite generateSignature_signatureOf.
    unfold signatureOf.
    now rewrite (keepStr_missing _ Ht), (keepNum_missing _ Hp), (keepNum_missing _ Ha),
      (keepNum_missing _ Hb), (keepStr_missing _ Hl). }
  split; [apply generateSignature_signatureOf|].
  split.
  { intros Hp. rewrite generateSignature_signatureOf. unfold signatureOf.
    now rewrite (keepNum_missing _ Hp). }
  split.
  { intros Ht Hl. rewrite generateSignature_signatureOf. unfold signatureOf.
    now rewrite (keepStr_missing _ Ht), (keepStr_missing _ Hl), app_nil_r. }
  split; [apply Hsame|]. split; [apply Hempty|].
  split; [intros Ha Hb; now rewrite (Hempty a Ha), (Hempty b Hb)|].
  split.
  { intros Hab Hin. cbv zeta.
    destruct (run_invariant ds) as (Hseen & _).
    rewrite processRow_seen; [now simpl|].
    rewrite Hseen, <- (Hsame _ _ Hab). apply elem_of_list_to_set.
    now apply parsed_signature_met. }
  split; [discriminate|]. split; [reflexivity|]. split; [reflexivity|].
  split; [vm_compute; reflexivity|]. split; [vm_compute; reflexivity|].
  split; [vm_compute; reflexivity|].
  vm_compute. split; reflexivity.
Qed.

End Duplicates.

(** The sample listing and its copy under another URL: one signature, and
    the copy is discarded. The numbers met are integers, printed in
    decimal. *)
Example same_listing_other_url_is_discarded :
  listing_url condoListing <> listing_url condoListingAgain
  /\ generateSignature showInteger condoListing
     = "condonearbtsonnut,35sqm|5000000|35|1|On Nut"%string
  /\ generateSignature showInteger condoListingAgain
     = generateSignature showInteger condoListing
  /\ (let st := runWorkers showInteger [Parsed condoListing; Parsed condoListingAgain] newRun in
      length (rows st) = 1%nat /\ duplicates_removed (meta st) = 1%Z).
Proof.
  split; [discriminate|]. split; [vm_compute; reflexivity|].
  split; [vm_compute; reflexivity|].
  vm_compute. split; reflexivity.
Qed.


(** *** Source selection *)





(** Sorting with a comparator that never ranks two elements each after
    the other puts the elements in order. *)
Lemma insert_Sorted {A} (gt : A -> A -> bool) (x : A) (l : list A) :
  (forall y, In y l -> gt y x = true -> gt x y = false) ->
  Sorted (fun a b => gt a b = false) l ->
  Sorted (fun a b => gt a b = false) (JSArray.insert gt x l).
Proof.
  intros Hasym Hs. induction l as [|y r IH]; simpl.
  - repeat constructor.
  - destruct (gt y x) eqn:E.
    + constructor; [exact Hs|]. constructor. apply Hasym; [now left|exact E].
    + apply Sorted_inv in Hs as [Hr Hhd].
      constructor.
      * apply IH; [|exact Hr]. intros z Hz. apply Hasym. now right.
      * destruct r as [|z r']; simpl.
        -- now constructor.
        -- destruct (gt z x); constructor; [exact E|]. now inversion Hhd.
Qed.

Lemma sort_Sorted_from {A} (gt : A -> A -> bool) (l acc : list A) :
  (forall a b, In a (acc ++ l) -> In b (acc ++ l) -> gt a b = true -> gt b a = false) ->
  Sorted (fun a b => gt a b = false) acc ->
  Sorted (fun a b => gt a b = false) (fold_left (fun acc x => JSArray.insert gt x acc) l acc).
Proof.
  revert acc. induction l as [|x r IH]; intros acc Hasym Hs; simpl; [exact Hs|].
  apply IH.
  - intros a b Ha Hb. apply Hasym.
    + apply in_app_iff in Ha as [Ha|Ha].
      * apply (Permutation_in _ (Permutation_sym (JSArrayFacts.insert_perm gt x acc))) in Ha.
        apply in_app_iff. destruct Ha as [->|Ha]; [right; now left|now left].
      * apply in_app_iff. right. now right.
    + apply in_app_iff in Hb as [Hb|Hb].
      * apply (Permutation_in _ (Permutation_sym (JSArrayFacts.insert_perm gt x acc))) in Hb.
        apply in_app_iff. destruct Hb as [->|Hb]; [right; now left|now left].
      * apply in_app_iff. right. now right.
  - apply insert_Sorted; [|exact Hs].
    intros y Hy. apply Hasym; apply in_app_iff; [now left|right; now left].
Qed.

Lemma sort_Sorted {A} (gt : A -> A -> bool) (l : list A) :
  (forall a b, In a l -> In b l -> gt a b = true -> gt b a = false) ->
  Sorted (fun a b => gt a b = false) (JSArray.sort gt l).
Proof. intros H. apply sort_Sorted_from; [exact H|constructor]. Qed.



(** The insertion sort of the samples permutes its input, whatever the
    comparator answers. *)
Lemma insertRand_perm {A} (cmp : A -> A -> Rand float) (x : A) (l : list A) (n : nat) :
  Permutation (x :: l) (insertRand cmp x l n).1.
Proof.
  revert n. induction l as [|y r IH]; intros n; simpl; [reflexivity|].
  destruct (cmp y x n) as [c n1]. destruct (0 <? c); simpl; [reflexivity|].
  specialize (IH n1). destruct (insertRand cmp x r n1) as [r' n2]. simpl in *.
  rewrite perm_swap. now constructor.
Qed.

Lemma sortRandFrom_perm {A} (cmp : A -> A -> Rand float) (l acc : list A) (n : nat) :
  Permutation (acc ++ l) (sortRandFrom cmp l acc n).1.
Proof.
  revert acc n. induction l as [|x r IH]; intros acc n; simpl.
  - now rewrite app_nil_r.
  - pose proof (insertRand_perm cmp x acc n) as Hp.
    destruct (insertRand cmp x acc n) as [acc' n1]. simpl in Hp.
    rewrite <- IH, <- Hp. simpl. symmetry. apply Permutation_middle.
Qed.

Lemma insertionSortRand_perm (A : Type) (cmp : A -> A -> Rand float) (l : list A) (n : nat) :
  Permutation l (insertionSortRand A cmp l n).1.
Proof. exact (sortRandFrom_perm cmp l [] n). Qed.


Section Selection.

Variable random : nat -> float.
Variable engineSort : forall A : Type, (A -> A -> Rand float) -> list A -> Rand (list A).

(** All that is asked of the engine's sort: the result holds the elements
    it was given. *)
Hypothesis engineSort_perm :
  forall (A : Type) (cmp : A -> A -> Rand float) (l : list A) (n : nat),
    Permutation l (engineSort A cmp l n).1.

(** [withRandScore] keeps the sources in order and gives the [i]-th one
    its weight times the [i]-th draw. *)
Lemma withRandScore_spec (l : list Source) (d : nat) :
  map fst (withRandScore random l d).1 = l
  /\ forall i s x, (withRandScore random l d).1 !! i = Some (s, x) ->
                   x = weight s * random (d + i)%nat.
Proof.
  revert d. induction l as [|s0 l IH]; intros d; simpl.
  - split; [reflexivity|]. intros i s x H. destruct i; discriminate.
  - destruct (IH (S d)) as [Hm Hx].
    destruct (withRandScore random l (S d)) as [r' n2]. simpl in *.
    split; [now rewrite Hm|].
    intros [|i] s x H; simpl in H.
    + injection H as <- <-. now rewrite Nat.add_0_r.
    + rewrite (Hx i s x H). f_equal. f_equal. lia.
Qed.


End Selection.



End ScraperProps.

(* ===================================================================== *)
(** ** More of the job store                                             *)
(* ===================================================================== *)

Module ServerExtra.

Import Server ServerFlow ServerSamples.

(** *** Maps with distinct keys *)

Lemma filter_keeps_all {A} (f : A -> bool) (l : list A) :
  (forall x, In x l -> f x = true) -> List.filter f l = l.
Proof.
  induction l as [|x l IH]; simpl; [reflexivity|]. intros H.
  rewrite (H x) by now left. f_equal. apply IH. intros y Hy. apply H. now right.
Qed.

Lemma filter_drops_all {A} (f : A -> bool) (l : list A) :
  (forall x, In x l -> f x = false) -> List.filter f l = [].
Proof.
  induction l as [|x l IH]; simpl; [reflexivity|]. intros H.
  rewrite (H x) by now left. apply IH. intros y Hy. apply H. now right.
Qed.

Lemma filter_filter {A} (f g : A -> bool) (l : list A) :
  List.filter f (List.filter g l) = List.filter (fun x => g x && f x) l.
Proof.
  induction l as [|x l IH]; simpl; [reflexivity|].
  destruct (g x); simpl; [destruct (f x)|]; now rewrite IH.
Qed.

Lemma filter_perm {A} (f : A -> bool) (l l' : list A) :
  Permutation l l' -> Permutation (List.filter f l) (List.filter f l').
Proof.
  induction 1 as [|x l l' _ IH|x y l|l l' l'' _ IH1 _ IH2]; simpl.
  - reflexivity.
  - destruct (f x); [now constructor|exact IH].
  - destruct (f x), (f y); try reflexivity. apply perm_swap.
  - now transitivity (List.filter f l').
Qed.

Lemma sorted_prefix_below_suffix {A} (R : A -> A -> Prop) (l1 l2 : list A) :
  StronglySorted R (l1 ++ l2) -> forall x y, In x l1 -> In y l2 -> R x y.
Proof.
  induction l1 as [|a l1 IH]; simpl; intros Hs x y Hx Hy; [easy|].
  apply StronglySorted_inv in Hs as [Hs Hall].
  destruct Hx as [->|Hx]; [|now apply IH].
  rewrite List.Forall_forall in Hall. apply Hall, in_app_iff. now right.
Qed.

Lemma concat_perm {A} (l l' : list (list A)) :
  Permutation l l' -> Permutation (concat l) (concat l').
Proof.
  induction 1 as [|x l l' _ IH|x y l|l l' l'' _ IH1 _ IH2]; simpl.
  - reflexivity.
  - now apply Permutation_app_head.
  - rewrite !app_assoc. apply Permutation_app_tail, Permutation_app_comm.
  - now transitivity (concat l').
Qed.

Lemma NoDup_keys_filter {V} (f : string * V -> bool) (m : list (string * V)) :
  NoDup (map fst m) -> NoDup (map fst (List.filter f m)).
Proof.
  induction m as [|e m IH]; simpl; [easy|]. intros ND.
  apply NoDup_cons in ND as [Hn ND]. destruct (f e); simpl; [|now apply IH].
  apply NoDup_cons. split; [|now apply IH].
  intros Hin. apply Hn. apply list_elem_of_In in Hin. apply list_elem_of_In.
  apply in_map_iff in Hin as (x & Hx & Hin). apply in_map_iff. exists x.
  split; [exact Hx|]. now apply filter_In in Hin as [Hin _].
Qed.

Lemma same_key_same_entry {V} (m : list (string * V)) (a b : string * V) :
  NoDup (map fst m) -> In a m -> In b m -> a.1 = b.1 -> a = b.
Proof.
  induction m as [|e m IH]; simpl; [easy|]. intros ND Ha Hb Hab.
  apply NoDup_cons in ND as [Hn ND].
  destruct Ha as [->|Ha], Hb as [->|Hb]; [reflexivity| | |now apply IH].
  - exfalso. apply Hn, list_elem_of_In, in_map_iff. exists b. now split.
  - exfalso. apply Hn, list_elem_of_In, in_map_iff. exists a. now split.
Qed.

Lemma delete_as_filter {V} (k : string) (m : list (string * V)) :
  NoDup (map fst m) ->
  JSMap.delete k m = List.filter (fun e => negb (String.eqb e.1 k)) m.
Proof.
  induction m as [|[k' v] r IH]; simpl; [easy|]. intros ND.
  apply NoDup_cons in ND as [Hn ND].
  destruct (String.eqb k' k) eqn:E; simpl.
  - apply String.eqb_eq in E. subst k'. symmetry. apply filter_keeps_all.
    intros x Hx. apply negb_true_iff. apply String.eqb_neq. intros Hk.
    apply Hn. rewrite <- Hk. apply list_elem_of_In. now apply in_map.
  - f_equal. now apply IH.
Qed.

Lemma fold_delete_as_filter {V} (old m : list (string * V)) :
  NoDup (map fst m) ->
  fold_left (fun js e => JSMap.delete e.1 js) old m
  = List.filter (fun x => negb (existsb (String.eqb x.1) (map fst old))) m.
Proof.
  revert m. induction old as [|e old IH]; intros m ND; simpl.
  - symmetry. now apply filter_keeps_all.
  - rewrite delete_as_filter by assumption.
    rewrite IH by now apply NoDup_keys_filter.
    rewrite filter_filter. apply filter_ext. intros x.
    now rewrite negb_orb.
Qed.

Lemma key_among (V : Type) (x : string * V) (l : list (string * V)) :
  existsb (String.eqb x.1) (map fst l) = true <-> exists y, In y l /\ y.1 = x.1.
Proof.
  rewrite existsb_exists. split.
  - intros (k & Hk & E). apply String.eqb_eq in E.
    apply in_map_iff in Hk as (y & <- & Hy). now exists y.
  - intros (y & Hy & E). exists y.1. split; [now apply in_map|].
    now apply String.eqb_eq.
Qed.

Section Store.

Variables Opts Meta Row : Type.
Variable TTL_MS : Z.
Variable MAX_CACHE_ITEMS : Z.
Variable meta0 : Meta.

Abbreviation Job := (Job Opts Meta Row).
Abbreviation Store := (Store Opts Meta Row).

(** X1: on a map with distinct keys the cleanup timer removes exactly the
    jobs older than the TTL, keeps the others in their order, and ends
    the clients of exactly the removed jobs; no job left is older than
    the TTL. *)
Theorem ttlSweep_removes_exactly_the_expired (now : Z) (s : Store) :
  NoDup (map fst (jobs s)) ->
  jobs (ttlSweep TTL_MS now s)
  = List.filter (fun e => negb (expired TTL_MS now e.2)) (jobs s)
  /\ ended (ttlSweep TTL_MS now s)
     = ended s ++ concat (map (fun e => clients e.2)
                            (List.filter (fun e => expired TTL_MS now e.2) (jobs s)))
  /\ Forall (fun e => now - createdAt e.2 <= TTL_MS) (jobs (ttlSweep TTL_MS now s))
  /\ NoDup (map fst (jobs (ttlSweep TTL_MS now s))).
Proof.
  intros ND. rewrite ServerProps.ttlSweep_spec. cbv zeta. simpl.
  assert (Hjobs :
    fold_left (fun js e => JSMap.delete e.1 js)
      (List.filter (fun e => expired TTL_MS now e.2) (jobs s)) (jobs s)
    = List.filter (fun e => negb (expired TTL_MS now e.2)) (jobs s)).
  { rewrite fold_delete_as_filter by assumption.
    apply filter_ext_in. intros x Hx. f_equal.
    destruct (expired TTL_MS now x.2) eqn:E.
    - apply key_among. exists x. split; [|reflexivity]. apply filter_In. now split.
    - apply not_true_is_false. intros H. apply key_among in H as (y & Hy & Hk).
      apply filter_In in Hy as [Hy Hexp].
      rewrite (same_key_same_entry (jobs s) y x ND Hy Hx Hk) in Hexp. congruence. }
  rewrite Hjobs. split; [reflexivity|]. split; [reflexivity|]. split.
  - apply Forall_forall. intros e He. apply list_elem_of_In, filter_In in He as [_ He].
    apply negb_true_iff in He. unfold expired in He.
    destruct (Z.gtb_spec (now - createdAt e.2) TTL_MS); [discriminate|lia].
  - now apply NoDup_keys_filter.
Qed.

Lemma olderFirst_false (a b : string * Job) :
  olderFirst a b = false <-> createdAt a.2 <= createdAt b.2.
Proof.
  unfold olderFirst.
  destruct (Z.gtb_spec (createdAt a.2 - createdAt b.2) 0); split; intros; try lia; easy.
Qed.

Lemma sorted_by_age (m : list (string * Job)) :
  StronglySorted (fun a b => createdAt a.2 <= createdAt b.2) (JSArray.sort olderFirst m).
Proof.
  apply Sorted_StronglySorted; [intros a b c; lia|].
  eapply Sorted_ind with (P := fun l => Sorted (fun a b => createdAt a.2 <= createdAt b.2) l);
    [constructor| |apply (ScraperProps.sort_Sorted olderFirst m)].
  - intros a l _ IH Hhd. constructor; [exact IH|].
    destruct Hhd; constructor. now apply olderFirst_false.
  - intros a b _ _ Hab. apply olderFirst_false.
    unfold olderFirst in Hab. destruct (Z.gtb_spec (createdAt a.2 - createdAt b.2) 0); [|discriminate].
    lia.
Qed.

(** What the eviction loop leaves when it has removed the entries
    [removed], a prefix of a rearrangement of the map. *)
Lemma removed_and_kept (m removed rest : list (string * Job)) :
  NoDup (map fst m) ->
  Permutation m (removed ++ rest) ->
  Permutation
    (List.filter (fun x => negb (existsb (String.eqb x.1) (map fst removed))) m) rest.
Proof.
  intros ND Hp.
  assert (ND' : NoDup (map fst (removed ++ rest))).
  { assert (Hk : Permutation (map fst m) (map fst (removed ++ rest)))
      by now apply Permutation_map.
    now rewrite <- Hk. }
  rewrite (filter_perm _ _ _ Hp), List.filter_app.
  rewrite (filter_drops_all _ removed), (filter_keeps_all _ rest); [reflexivity| |].
  - intros x Hx. apply negb_true_iff, not_true_is_false. intros H.
    apply key_among in H as (y & Hy & Hk).
    rewrite map_app in ND'. apply NoDup_app in ND' as (_ & Hdisj & _).
    apply (Hdisj y.1); apply list_elem_of_In; [now apply in_map|].
    rewrite Hk. now apply in_map.
  - intros x Hx. apply negb_false_iff, key_among. now exists x.
Qed.

(** The eviction, for a limit that is not negative. *)
Lemma evictIfNeeded_removes_the_oldest_aux (s : Store) :
  0 <= MAX_CACHE_ITEMS ->
  NoDup (map fst (jobs s)) ->
  exists s' removed,
    evictIfNeeded MAX_CACHE_ITEMS s = Normal s'
    /\ Z.of_nat (length (jobs s')) = Z.min (Z.of_nat (length (jobs s))) MAX_CACHE_ITEMS
    /\ Permutation (jobs s) (removed ++ jobs s')
    /\ jobs s' = List.filter (fun x => negb (existsb (String.eqb x.1) (map fst removed))) (jobs s)
    /\ ended s' = ended s ++ concat (map (fun e => clients e.2) removed)
    /\ (forall r k, In r removed -> In k (jobs s') -> createdAt r.2 <= createdAt k.2)
    /\ NoDup (map fst (jobs s')).
Proof.
  intros H0 ND.
  destruct (Z.le_gt_cases (Z.of_nat (length (jobs s))) MAX_CACHE_ITEMS) as [Hle|Hgt].
  - exists s, []. rewrite ServerProps.evictIfNeeded_within by exact Hle.
    split; [reflexivity|]. split; [lia|]. split; [reflexivity|].
    split; [symmetry; now apply filter_keeps_all|].
    split; [simpl; now rewrite app_nil_r|]. split; [intros r k []|exact ND].
  - rewrite ServerProps.evictIfNeeded_above by lia. cbv zeta.
    set (n := Z.to_nat (Z.of_nat (length (jobs s)) - MAX_CACHE_ITEMS)).
    set (sorted := JSArray.sort olderFirst (jobs s)).
    assert (Hperm : Permutation (jobs s) (firstn n sorted ++ skipn n sorted)).
    { rewrite firstn_skipn. apply JSArrayFacts.sort_perm. }
    pose proof (removed_and_kept _ _ _ ND Hperm) as Hkept.
    eexists. exists (firstn n sorted). split; [reflexivity|]. simpl.
    rewrite fold_delete_as_filter by exact ND.
    split.
    { rewrite (Permutation_length Hkept), length_skipn.
      unfold sorted. rewrite JSArrayFacts.sort_length. lia. }
    split; [now rewrite Hkept|]. split; [reflexivity|]. split; [reflexivity|].
    split; [|now apply NoDup_keys_filter].
    intros r k Hr Hk.
    apply (Permutation_in _ Hkept) in Hk.
    pose proof (sorted_by_age (jobs s)) as Hs. fold sorted in Hs.
    rewrite <- (firstn_skipn n sorted) in Hs.
    now apply (sorted_prefix_below_suffix _ _ _ Hs r k).
Qed.

(** X2: with a limit that is not negative and a map with distinct keys,
    [evictIfNeeded] never throws; it leaves [min(size, MAX_CACHE_ITEMS)]
    jobs, in their order; the jobs removed have their clients ended, and
    none of them was created after a job that is kept. *)
Theorem evictIfNeeded_removes_the_oldest (s : Store) :
  0 <= MAX_CACHE_ITEMS ->
  NoDup (map fst (jobs s)) ->
  exists s' removed,
    evictIfNeeded MAX_CACHE_ITEMS s = Normal s'
    /\ Z.of_nat (length (jobs s')) = Z.min (Z.of_nat (length (jobs s))) MAX_CACHE_ITEMS
    /\ Permutation (jobs s) (removed ++ jobs s')
    /\ jobs s' = List.filter (fun x => negb (existsb (String.eqb x.1) (map fst removed))) (jobs s)
    /\ ended s' = ended s ++ concat (map (fun e => clients e.2) removed)
    /\ (forall r k, In r removed -> In k (jobs s') -> createdAt r.2 <= createdAt k.2)
    /\ NoDup (map fst (jobs s')).
Proof. exact (evictIfNeeded_removes_the_oldest_aux s). Qed.

(** [createJob] with a fresh id, for a limit that is not negative. *)
Lemma createJob_fresh (o : Opts) (jobId : string) (now : Z) (s : Store) :
  0 <= MAX_CACHE_ITEMS ->
  NoDup (map fst (jobs s)) ->
  JSMap.get jobId (jobs s) = None ->
  exists s' (removed : list (string * Job)),
    createJob MAX_CACHE_ITEMS meta0 o jobId now s = Normal s'
    /\ NoDup (map fst (jobs s'))
    /\ Z.of_nat (length (jobs s'))
       = Z.min (Z.of_nat (length (jobs s))) MAX_CACHE_ITEMS + 1
    /\ JSMap.get jobId (jobs s') = Some (newJob meta0 o now)
    /\ ended s' = ended s ++ concat (map (fun e => clients e.2) removed).
Proof.
  intros H0 ND Hfresh.
  destruct (evictIfNeeded_removes_the_oldest_aux s H0 ND)
    as (s1 & removed & Hev & Hlen & _ & Hjobs & Hend & _ & ND1).
  unfold createJob. rewrite Hev.
  assert (Hfresh1 : JSMap.get jobId (jobs s1) = None).
  { rewrite Hjobs. clear - Hfresh. induction (jobs s) as [|[k v] m IH]; simpl in *; [reflexivity|].
    destruct (String.eqb k jobId) eqn:E; [discriminate|].
    destruct (negb _); simpl; [rewrite E|]; now apply IH. }
  eexists. exists removed. split; [reflexivity|]. simpl.
  split.
  { rewrite (JSMapFacts.set_fresh _ _ _ Hfresh1), map_app. simpl.
    apply NoDup_app. split; [exact ND1|]. split; [|apply NoDup_singleton].
    intros k Hk Hk'. apply list_elem_of_singleton in Hk'. subst k.
    clear - Hk Hfresh1. induction (jobs s1) as [|[k v] m IH]; simpl in *; [inversion Hk|].
    destruct (String.eqb k jobId) eqn:E; [discriminate|].
    apply elem_of_cons in Hk as [->|Hk]; [now rewrite String.eqb_refl in E|now apply IH]. }
  split; [rewrite (JSMapFacts.set_fresh _ _ _ Hfresh1), length_app; simpl; lia|].
  split; [apply JSMapFacts.get_set_eq|exact Hend].
Qed.

Lemma getJob_live (jobId : string) (j : Job) (now : Z) (s : Store) :
  JSMap.get jobId (jobs s) = Some j ->
  now - createdAt j <= TTL_MS ->
  getJob TTL_MS jobId now s = (Some j, s).
Proof.
  intros Hget Hle. unfold getJob, expired. rewrite Hget.
  destruct (Z.gtb_spec (now - createdAt j) TTL_MS); [lia|reflexivity].
Qed.

(** X3: with a limit that is not negative, a TTL that is not negative, a
    map with distinct keys and a fresh id, [createJob] never throws, keeps
    the keys distinct and leaves [min(size, MAX_CACHE_ITEMS) + 1] jobs;
    asked for at once, the new job is found, running, with no rows, no
    error and no client. *)
Theorem createJob_then_getJob (o : Opts) (jobId : string) (now : Z) (s : Store) :
  0 <= MAX_CACHE_ITEMS ->
  0 <= TTL_MS ->
  NoDup (map fst (jobs s)) ->
  JSMap.get jobId (jobs s) = None ->
  exists s',
    createJob MAX_CACHE_ITEMS meta0 o jobId now s = Normal s'
    /\ NoDup (map fst (jobs s'))
    /\ Z.of_nat (length (jobs s'))
       = Z.min (Z.of_nat (length (jobs s))) MAX_CACHE_ITEMS + 1
    /\ getJob TTL_MS jobId now s' = (Some (newJob meta0 o now), s')
    /\ api_job TTL_MS jobId now s' = (JobJson jobId Running meta0 None [], s').
Proof.
  intros H0 Httl ND Hfresh.
  destruct (createJob_fresh o jobId now s H0 ND Hfresh)
    as (s' & removed & Hc & ND' & Hlen & Hget & _).
  exists s'. split; [exact Hc|]. split; [exact ND'|]. split; [exact Hlen|].
  assert (Hg : getJob TTL_MS jobId now s' = (Some (newJob meta0 o now), s')).
  { apply getJob_live; [exact Hget|]. simpl. lia. }
  split; [exact Hg|]. unfold api_job. now rewrite Hg.
Qed.

(** The eviction loop asked for more entries than there are. *)
Lemma evictLoop_overrun (n : nat) (entries : list (string * Job)) (s : Store) :
  (length entries < n)%nat ->
  evictLoop n entries s =
  Thrown {| jobs := fold_left (fun js e => JSMap.delete e.1 js) entries (jobs s);
            ended := ended s ++ concat (map (fun e => clients e.2) entries) |}.
Proof.
  revert entries s. induction n as [|n IH]; intros entries s Hn; [lia|].
  destruct entries as [|[jobId j] rest]; simpl.
  - rewrite app_nil_r. now destruct s.
  - simpl in Hn. rewrite IH by lia. simpl. now rewrite <- app_assoc.
Qed.

(** X4: with a negative limit, [createJob] always throws, on the
    [TypeError] of the eviction loop reading past the last entry: no job
    is created, and by then every job of the store has been deleted and
    every client of every job ended. *)
Theorem createJob_negative_limit_throws (o : Opts) (jobId : string) (now : Z) (s : Store) :
  MAX_CACHE_ITEMS < 0 ->
  NoDup (map fst (jobs s)) ->
  exists s',
    createJob MAX_CACHE_ITEMS meta0 o jobId now s = Thrown s'
    /\ jobs s' = []
    /\ Permutation (concat (map (fun e => clients e.2) (jobs s)) ++ ended s)
                   (ended s').
Proof.
  intros Hneg ND. unfold createJob, evictIfNeeded.
  destruct (Z.leb_spec (Z.of_nat (length (jobs s))) MAX_CACHE_ITEMS); [lia|].
  rewrite evictLoop_overrun by (rewrite JSArrayFacts.sort_length; lia).
  eexists. split; [reflexivity|]. simpl. split.
  - rewrite fold_delete_as_filter by exact ND.
    apply filter_drops_all. intros x Hx. apply negb_false_iff, key_among.
    exists x. split; [|reflexivity].
    now apply (Permutation_in _ (JSArrayFacts.sort_perm olderFirst (jobs s))).
  - rewrite Permutation_app_comm. apply Permutation_app_head.
    apply concat_perm, Permutation_map, JSArrayFacts.sort_perm.
Qed.

(** X5: a job created with a fresh id, subscribed to and completed while
    it is in the store, then asked for within its TTL: the subscriber is
    disconnected at completion (and only then), the job keeps no client,
    and the snapshot answers "done" with the rows of the run and the new
    meta. *)
Theorem job_lifecycle (o : Opts) (jobId : string) (res : Res) (now t1 t2 t3 : Z)
    (resultRows : list Row) (newMeta : Meta -> Meta) (s : Store) :
  0 <= MAX_CACHE_ITEMS ->
  NoDup (map fst (jobs s)) ->
  JSMap.get jobId (jobs s) = None ->
  t1 - now <= TTL_MS ->
  t3 - now <= TTL_MS ->
  exists s1 s2 s3 j,
    createJob MAX_CACHE_ITEMS meta0 o jobId now s = Normal s1
    /\ subscribe TTL_MS jobId res t1 s1 = (true, s2)
    /\ ended s2 = ended s1
    /\ completeJob jobId resultRows newMeta t2 s2 = s3
    /\ ended s3 = ended s1 ++ [res]
    /\ JSMap.get jobId (jobs s3) = Some j
    /\ clients j = []
    /\ api_job TTL_MS jobId t3 s3
       = (JobJson jobId Done (newMeta meta0) None resultRows, s3).
Proof.
  intros H0 ND Hfresh Ht1 Ht3.
  destruct (createJob_fresh o jobId now s H0 ND Hfresh)
    as (s1 & removed & Hc & _ & _ & Hget & _).
  exists s1. unfold subscribe.
  rewrite (getJob_live jobId _ t1 s1 Hget) by exact Ht1.
  eexists. eexists. eexists.
  split; [exact Hc|]. split; [reflexivity|]. split; [reflexivity|].
  split; [reflexivity|].
  unfold completeJob. cbn [jobs ended]. rewrite JSMapFacts.get_set_eq.
  unfold closeAllClients. cbn [jobs ended]. rewrite JSMapFacts.get_set_eq.
  cbn [jobs ended clients addClient newJob].
  split; [reflexivity|]. rewrite JSMapFacts.get_set_eq.
  split; [reflexivity|]. split; [reflexivity|].
  unfold api_job, getJob. cbn [jobs]. rewrite JSMapFacts.get_set_eq.
  unfold expired. cbn.
  destruct (Z.gtb_spec (t3 - now) TTL_MS); [lia|reflexivity].
Qed.

End Store.

Lemma twoJobs_keys : NoDup (map fst (jobs twoJobs)).
Proof. apply (bool_decide_unpack _). vm_compute. exact I. Qed.

(** Under a TTL of 1 ms at time 3, job a (created at 1) goes and job b
    (created at 2) stays. *)
Lemma ttlSweep_witness :
  NoDup (map fst (jobs twoJobs))
  /\ jobs (ttlSweep 1 3 twoJobs)
     = List.filter (fun e => negb (expired 1 3 e.2)) (jobs twoJobs)
  /\ ended (ttlSweep 1 3 twoJobs)
     = ended twoJobs ++ concat (map (fun e => clients e.2)
                                  (List.filter (fun e => expired 1 3 e.2) (jobs twoJobs)))
  /\ Forall (fun e => 3 - createdAt e.2 <= 1) (jobs (ttlSweep 1 3 twoJobs))
  /\ NoDup (map fst (jobs (ttlSweep 1 3 twoJobs))).
Proof.
  split; [exact twoJobs_keys|].
  exact (ttlSweep_removes_exactly_the_expired unit unit unit 1 3 twoJobs twoJobs_keys).
Defined.

(** A limit of 1 on the two jobs: the older one is evicted. *)
Lemma evictIfNeeded_witness :
  0 <= 1
  /\ NoDup (map fst (jobs twoJobs))
  /\ exists s' removed,
       evictIfNeeded 1 twoJobs = Normal s'
       /\ Z.of_nat (length (jobs s')) = Z.min (Z.of_nat (length (jobs twoJobs))) 1
       /\ Permutation (jobs twoJobs) (removed ++ jobs s')
       /\ jobs s' = List.filter (fun x => negb (existsb (String.eqb x.1) (map fst removed)))
                      (jobs twoJobs)
       /\ ended s' = ended twoJobs ++ concat (map (fun e => clients e.2) removed)
       /\ (forall r k, In r removed -> In k (jobs s') -> createdAt r.2 <= createdAt k.2)
       /\ NoDup (map fst (jobs s')).
Proof.
  split; [lia|]. split; [exact twoJobs_keys|].
  apply (evictIfNeeded_removes_the_oldest unit unit unit 1 twoJobs); [lia|exact twoJobs_keys].
Defined.

Lemma createJob_then_getJob_witness :
  0 <= 2
  /\ 0 <= 1000
  /\ NoDup (map fst (jobs twoJobs))
  /\ JSMap.get "c" (jobs twoJobs) = None
  /\ exists s',
       createJob 2 tt tt "c" 3 twoJobs = Normal s'
       /\ NoDup (map fst (jobs s'))
       /\ Z.of_nat (length (jobs s')) = Z.min (Z.of_nat (length (jobs twoJobs))) 2 + 1
       /\ getJob 1000 "c" 3 s' = (Some (newJob tt tt 3), s')
       /\ api_job 1000 "c" 3 s' = (JobJson "c" Running tt None [], s').
Proof.
  split; [lia|]. split; [lia|]. split; [exact twoJobs_keys|]. split; [reflexivity|].
  apply (createJob_then_getJob unit unit unit 1000 2 tt tt "c"%string 3 twoJobs);
    [lia|lia|exact twoJobs_keys|reflexivity].
Defined.

Lemma createJob_negative_limit_witness :
  -1 < 0
  /\ NoDup (map fst (jobs twoJobs))
  /\ exists s',
       createJob (-1) tt tt "c" 3 twoJobs = Thrown s'
       /\ jobs s' = []
       /\ Permutation (concat (map (fun e => clients e.2) (jobs twoJobs)) ++ ended twoJobs)
                      (ended s').
Proof.
  split; [lia|]. split; [exact twoJobs_keys|].
  apply (createJob_negative_limit_throws unit unit unit (-1) tt tt "c"%string 3 twoJobs);
    [lia|exact twoJobs_keys].
Defined.

Lemma job_lifecycle_witness :
  0 <= 2
  /\ NoDup (map fst (jobs twoJobs))
  /\ JSMap.get "c" (jobs twoJobs) = None
  /\ 4 - 3 <= 1000
  /\ 6 - 3 <= 1000
  /\ exists s1 s2 s3 j,
       createJob 2 tt tt "c" 3 twoJobs = Normal s1
       /\ subscribe 1000 "c" 9%nat 4 s1 = (true, s2)
       /\ ended s2 = ended s1
       /\ completeJob "c" [tt] (fun m => m) 5 s2 = s3
       /\ ended s3 = ended s1 ++ [9%nat]
       /\ JSMap.get "c" (jobs s3) = Some j
       /\ clients j = []
       /\ api_job 1000 "c" 6 s3 = (JobJson "c" Done tt None [tt], s3).
Proof.
  split; [lia|]. split; [exact twoJobs_keys|]. split; [reflexivity|].
  split; [lia|]. split; [lia|].
  apply (job_lifecycle unit unit unit 1000 2 tt tt "c"%string 9%nat 3 4 5 6 [tt]
           (fun m => m) twoJobs); [lia|exact twoJobs_keys|reflexivity|lia|lia].
Defined.

End ServerExtra.

(* ===================================================================== *)
(** ** More of the scraper                                               *)
(* ===================================================================== *)

Module ScraperExtra.

Import Scraper Spec Samples ScraperMore.

Local Open Scope float_scope.

(** *** Normalising a row twice *)

(** A row that holds a defined value under every schema key and nothing
    else is left as it is. *)
Lemma normalizeRow_fixed (m : gmap string jsval) :
  (forall k, k ∈ SCHEMA_KEYS -> exists w, m !! k = Some w /\ w <> VUndefined) ->
  (forall k, k ∉ SCHEMA_KEYS -> m !! k = None) ->
  normalizeRow m = m.
Proof.
  intros Hin Hout. apply map_eq. intros k.
  rewrite ScraperProps.normalizeRow_lookup.
  destruct (bool_decide (k ∈ SCHEMA_KEYS)) eqn:E.
  - apply bool_decide_eq_true_1 in E. destruct (Hin k E) as (w & -> & Hw).
    now destruct w.
  - apply bool_decide_eq_false_1 in E. now rewrite Hout.
Qed.

(** X6: [parseDetail] returns its row normalised to the schema, the worker
    then assigns values under schema keys, and the normalisation at the
    end of [scrapeListings] leaves such a row exactly as it is, provided
    no assigned value is [undefined]. In particular normalising twice is
    normalising once. *)
Theorem final_normalisation_keeps_the_row
    (r : gmap string jsval) (assigned : list (string * jsval)) :
  Forall (fun kv => kv.1 ∈ SCHEMA_KEYS /\ kv.2 <> VUndefined) assigned ->
  let row := fold_left (fun o kv => <[kv.1 := kv.2]> o) assigned (normalizeRow r) in
  normalizeRow row = row.
Proof.
  intros Hall. cbv zeta.
  assert (H : forall (l : list (string * jsval)) (m : gmap string jsval),
             Forall (fun kv => kv.1 ∈ SCHEMA_KEYS /\ kv.2 <> VUndefined) l ->
             (forall k, k ∈ SCHEMA_KEYS -> exists w, m !! k = Some w /\ w <> VUndefined) ->
             (forall k, k ∉ SCHEMA_KEYS -> m !! k = None) ->
             let m' := fold_left (fun o kv => <[kv.1 := kv.2]> o) l m in
             (forall k, k ∈ SCHEMA_KEYS -> exists w, m' !! k = Some w /\ w <> VUndefined)
             /\ (forall k, k ∉ SCHEMA_KEYS -> m' !! k = None)).
  { induction l as [|[k0 v0] l IH]; intros m Hl Hin Hout; simpl; [now split|].
    apply Forall_cons in Hl as [[Hk0 Hv0] Hl]. simpl in Hk0, Hv0.
    apply IH; [exact Hl| |].
    - intros k Hk. destruct (decide (k = k0)) as [->|Hne].
      + exists v0. now rewrite lookup_insert_eq.
      + rewrite lookup_insert_ne by congruence. now apply Hin.
    - intros k Hk. rewrite lookup_insert_ne; [now apply Hout|]. intros ->. contradiction. }
  destruct (H assigned (normalizeRow r) Hall) as [Hin Hout].
  - intros k Hk. exists (orNull (r !! k)).
    rewrite ScraperProps.normalizeRow_lookup, bool_decide_eq_true_2 by assumption.
    split; [reflexivity|apply ScraperProps.orNull_defined].
  - intros k Hk.
    now rewrite ScraperProps.normalizeRow_lookup, bool_decide_eq_false_2.
  - now apply normalizeRow_fixed.
Qed.

(** A row that lacks its price, and the five assignments of the worker. *)
Lemma final_normalisation_witness :
  let r : gmap string jsval := {[ "listing_title" := VStr "Condo"; "price_value" := VUndefined ]} in
  let assigned := [ ("quality_score"%string, VNum 70); ("price_score"%string, VNum 0);
                    ("data_completeness"%string, VNum 8);
                    ("anomaly_flags"%string, VNull); ("value_score"%string, VNum 40) ] in
  Forall (fun kv => kv.1 ∈ SCHEMA_KEYS /\ kv.2 <> VUndefined) assigned
  /\ let row := fold_left (fun o kv => <[kv.1 := kv.2]> o) assigned (normalizeRow r) in
     normalizeRow row = row.
Proof.
  cbv zeta.
  assert (H : Forall (fun kv : string * jsval => kv.1 ∈ SCHEMA_KEYS /\ kv.2 <> VUndefined)
                [ ("quality_score"%string, VNum 70); ("price_score"%string, VNum 0);
                  ("data_completeness"%string, VNum 8);
                  ("anomaly_flags"%string, VNull); ("value_score"%string, VNum 40) ]).
  { repeat constructor; simpl; try discriminate;
      apply (bool_decide_unpack _); vm_compute; exact I. }
  split; [exact H|].
  exact (final_normalisation_keeps_the_row _ _ H).
Defined.

(** *** The worker's books *)

Lemma string_length_app (a b : string) :
  String.length (a ++ b) = (String.length a + String.length b)%nat.
Proof. induction a as [|c a IH]; simpl; [reflexivity|]. now rewrite IH. Qed.

Lemma duplicates_note_is_not_the_focus_note (a : string) :
  (a ++ " duplicates detected - consider expanding sources")%string
  <> "Focus on high-performing sources for better results"%string.
Proof.
  intros H. pose proof (f_equal String.length H) as Hl.
  rewrite string_length_app in Hl. simpl in Hl.
  destruct a as [|c1 [|c2 [|c3 a]]]; simpl in Hl; try lia. discriminate H.
Qed.

Lemma learnPrice_values (p : option float) (c : string) (e : Engine) :
  ps_values (priceStats (learnPrice p c e)) = ps_values (priceStats e) ++ learnt p.
Proof.
  unfold learnPrice, learnt. destruct p as [x|]; [|now rewrite app_nil_r].
  destruct (negb (JSNum.truthy x) || (x <=? 0)); [now rewrite app_nil_r|reflexivity].
Qed.

Lemma learnPrice_count (p : option float) (c : string) (e : Engine) :
  ps_count (priceStats e) = counted (length (ps_values (priceStats e))) ->
  ps_count (priceStats (learnPrice p c e))
  = counted (length (ps_values (priceStats (learnPrice p c e)))).
Proof.
  intros H. unfold learnPrice. destruct p as [x|]; [|exact H].
  destruct (negb (JSNum.truthy x) || (x <=? 0)); [exact H|]. simpl.
  rewrite length_app, Nat.add_comm. simpl. now rewrite H.
Qed.

Lemma scoreRow_price_value (e : Engine) (row : Listing) :
  price_value (scoreRow e row) = price_value row.
Proof. now destruct row. Qed.

Section Books.

Variable Number_toString : float -> string.

Abbreviation sig := (generateSignature Number_toString).

(** The engine after the step on a row whose signature is new. *)
Lemma processRow_new_engine (row : Listing) (st : Run) :
  sig row ∉ duplicateSignatures (aiEngine st) ->
  let e2 := learnPrice (price_value row) (category row)
              (isDuplicate Number_toString row (aiEngine st)).2 in
  processRow Number_toString row st =
  {| aiEngine := e2; rows := rows st ++ [scoreRow e2 row];
     meta := {| duplicates_removed := duplicates_removed (meta st);
                total_parsed := (parsedCount st + 1)%Z;
                errors := errors (meta st) |};
     parsedCount := (parsedCount st + 1)%Z |}
  /\ priceStats (isDuplicate Number_toString row (aiEngine st)).2 = priceStats (aiEngine st).
Proof.
  intros Hnin. unfold processRow, isDuplicate.
  now rewrite bool_decide_eq_false_2 by assumption.
Qed.

(** X7: whatever the details of a run, in whatever order: every detail is
    accounted for once, as a row kept, a duplicate removed or an error
    recorded; [total_parsed] is the number of rows kept; the errors are
    the failures met, in order, and a failure stops nothing. *)
Theorem every_detail_is_accounted_for (ds : list Detail) :
  let st := runWorkers Number_toString ds newRun in
  Z.of_nat (length ds)
  = (Z.of_nat (length (rows st)) + duplicates_removed (meta st)
     + Z.of_nat (length (errors (meta st))))%Z
  /\ total_parsed (meta st) = Z.of_nat (length (rows st))
  /\ parsedCount st = Z.of_nat (length (rows st))
  /\ errors (meta st) = failures ds
  /\ (0 <= duplicates_removed (meta st))%Z.
Proof.
  induction ds as [|d ds IH] using rev_ind; [now simpl|].
  cbv zeta in *. rewrite ScraperProps.runWorkers_snoc.
  set (st := runWorkers Number_toString ds newRun) in *.
  destruct IH as (Hn & Ht & Hp & He & Hd).
  unfold failures in *. rewrite flat_map_app, length_app. simpl.
  destruct d as [row|url msg]; simpl.
  - rewrite app_nil_r.
    destruct (decide (sig row ∈ duplicateSignatures (aiEngine st))) as [Hin|Hnin].
    + rewrite (ScraperProps.processRow_seen Number_toString row st Hin). simpl.
      repeat split; try assumption; lia.
    + destruct (processRow_new_engine row st Hnin) as [-> _]. simpl.
      rewrite length_app. simpl. repeat split; try assumption; lia.
  - rewrite length_app. simpl. repeat split; try assumption; try lia.
    now rewrite He.
Qed.

(** X8: the prices the engine has learnt at any point of a run are the
    prices of the rows kept so far, in order, one for each row whose price
    is a positive number: a duplicate and a failure teach the engine
    nothing, and [count] is one increment for each price. *)
Theorem prices_learnt_are_those_of_the_rows_kept (ds : list Detail) :
  let st := runWorkers Number_toString ds newRun in
  ps_values (priceStats (aiEngine st)) = flat_map (fun r => learnt (price_value r)) (rows st)
  /\ ps_count (priceStats (aiEngine st))
     = counted (length (ps_values (priceStats (aiEngine st)))).
Proof.
  induction ds as [|d ds IH] using rev_ind; [now simpl|].
  cbv zeta in *. rewrite ScraperProps.runWorkers_snoc.
  set (st := runWorkers Number_toString ds newRun) in *.
  destruct IH as (Hv & Hc).
  destruct d as [row|url msg]; simpl; [|now split].
  destruct (decide (sig row ∈ duplicateSignatures (aiEngine st))) as [Hin|Hnin].
  - rewrite (ScraperProps.processRow_seen Number_toString row st Hin). simpl. now split.
  - destruct (processRow_new_engine row st Hnin) as [-> Hps]. cbn [aiEngine rows]. split.
    + rewrite learnPrice_values, Hps, Hv, flat_map_app. cbn [flat_map].
      now rewrite scoreRow_price_value, app_nil_r.
    + apply learnPrice_count. now rewrite Hps.
Qed.

(** In every reachable state of the engine [count] is one increment for
    each learnt price. *)
Lemma reachable_count (e : Engine) :
  reachable Number_toString e ->
  ps_count (priceStats e) = counted (length (ps_values (priceStats e))).
Proof.
  induction 1 as [|sourceId metrics e _ IH|price category e _ IH
                  |currentRounds linksFound e _ IH|listing e _ IH].
  - reflexivity.
  - exact IH.
  - now apply learnPrice_count.
  - unfold recommendScrollRounds.
    destruct (_ <? 3)%nat; [exact IH|].
    destruct (_ <? 8); [exact IH|]. now destruct (20 <? _).
  - unfold isDuplicate. now destruct (bool_decide _).
Qed.

(** X9: in a state of the engine reached from a new engine by its own
    methods, as long as fewer than 5 prices have been learnt
    [detectPriceAnomaly] answers [null] for every price and category. *)
Theorem no_price_anomaly_before_five_prices
    (e : Engine) (price : option float) (category : string) :
  reachable Number_toString e ->
  (length (ps_values (priceStats e)) < 5)%nat ->
  detectPriceAnomaly e price category = None.
Proof.
  intros Hr Hlt. unfold detectPriceAnomaly.
  rewrite (reachable_count e Hr).
  assert (Hc : (counted (length (ps_values (priceStats e))) <? 5) = true).
  { destruct (length (ps_values (priceStats e))) as [|[|[|[|[|n]]]]]; try lia;
      vm_compute; reflexivity. }
  rewrite Hc. now rewrite orb_true_r.
Qed.

(** X10: at any point of a run, [generateInsights().duplicatesDetected] is
    the number of rows kept so far (the number of distinct signatures
    met), not the number of duplicates removed; the recommendation on
    duplicates is made when more than 5 rows are kept. *)
Theorem duplicatesDetected_counts_the_rows_kept (ds : list Detail) :
  let st := runWorkers Number_toString ds newRun in
  let insights := generateInsights Number_toString (aiEngine st) in
  duplicatesDetected insights = length (rows st)
  /\ ((5 < length (rows st))%nat <->
      In (Number_toString (JSNum.of_nat (length (rows st)))
          ++ " duplicates detected - consider expanding sources")%string
         (recommendations insights)).
Proof.
  cbv zeta.
  destruct (ScraperProps.run_invariant Number_toString ds) as (Hseen & Hnd & Hmem & _).
  set (st := runWorkers Number_toString ds newRun) in *.
  assert (Hsize : size (duplicateSignatures (aiEngine st)) = length (rows st)).
  { rewrite Hseen.
    replace (list_to_set (parsedSignatures Number_toString ds) : gset string)
      with (list_to_set (map sig (rows st)) : gset string).
    - now rewrite (size_list_to_set _ Hnd), length_map.
    - apply set_eq. intros s. rewrite !elem_of_list_to_set. apply Hmem. }
  unfold generateInsights.
  destruct (fold_left bestWorstStep _ _) as [[[bestScore best] worstScore] worst].
  cbn [duplicatesDetected recommendations]. rewrite Hsize.
  split; [reflexivity|].
  destruct (Nat.ltb_spec 5 (length (rows st))) as [Hlt|Hge].
  - split; [intros _|intros _; exact Hlt].
    apply in_app_iff. right. now left.
  - split; [lia|]. intros Hin. exfalso.
    destruct (0.7 <? bestScore); simpl in Hin; [|exact Hin].
    destruct Hin as [Heq|[]].
    now apply (duplicates_note_is_not_the_focus_note _ (eq_sym Heq)).
Qed.

End Books.


Lemma no_price_anomaly_witness :
  reachable showInteger fourCondos
  /\ (length (ps_values (priceStats fourCondos)) < 5)%nat
  /\ detectPriceAnomaly fourCondos (Some 1000) "condo" = None.
Proof.
  assert (Hr : reachable showInteger fourCondos)
    by (unfold fourCondos; repeat apply reach_learn; apply reach_new).
  assert (Hl : (length (ps_values (priceStats fourCondos)) < 5)%nat)
    by (vm_compute; lia).
  split; [exact Hr|]. split; [exact Hl|].
  exact (no_price_anomaly_before_five_prices showInteger fourCondos (Some 1000) "condo" Hr Hl).
Defined.

(** ** Source selection *)

Lemma slice0_prefix {A} (v : JSNum.IntOrInf) (l : list A) :
  exists k, JSArraySlice.slice0 v l = firstn k l.
Proof.
  destruct v as [z| |]; simpl.
  - destruct (z <? 0)%Z; eauto.
  - exists (length l). now rewrite firstn_all.
  - now exists 0%nat.
Qed.

Lemma generateSearchURLs_ids : List.NoDup (map id generateSearchURLs).
Proof. apply NoDup_ListNoDup, (bool_decide_unpack _). vm_compute. exact I. Qed.

(** What holds of any prefix of any reordering of the scored sources. *)
Lemma prefix_of_the_sources (scored : list (Source * float)) (k : nat) :
  Permutation generateSearchURLs (map fst scored) ->
  List.NoDup (map (fun a => id a.1) (firstn k scored))
  /\ (forall a, In a (firstn k scored) -> In a.1 generateSearchURLs)
  /\ (length (firstn k scored) <= 25)%nat.
Proof.
  intros Hp. split; [|split].
  - assert (Hn : List.NoDup (map (fun a => id a.1) scored)).
    { rewrite <- (map_map fst id).
      eapply Permutation_NoDup; [|exact generateSearchURLs_ids].
      now apply Permutation_map. }
    rewrite <- (firstn_skipn k scored), map_app in Hn.
    now apply NoDup_app_remove_r in Hn.
  - intros a Ha.
    assert (In a scored)
      by (rewrite <- (firstn_skipn k scored); apply in_or_app; now left).
    eapply Permutation_in; [symmetry; exact Hp|]. now apply in_map.
  - rewrite length_firstn.
    pose proof (Permutation_length Hp) as Hl.
    rewrite length_map in Hl. change (length generateSearchURLs) with 25%nat in Hl. lia.
Qed.

Section Distinct.

Variable random : nat -> float.
Variable engineSort : forall A : Type, (A -> A -> Rand float) -> list A -> Rand (list A).

Hypothesis engineSort_perm :
  forall (A : Type) (cmp : A -> A -> Rand float) (l : list A) (n : nat),
    Permutation l (engineSort A cmp l n).1.

(** X11: whatever the target count (any number, also [NaN], an infinity
    or a negative one), whatever the engine has learnt and whatever the
    random draws, [selectSmartSources] returns sources of
    [generateSearchURLs], no source twice, and at most 25 of them. *)
Theorem selectSmartSources_returns_distinct_sources
    (targetCount : float) (e : Engine) (d : nat) :
  let out := (selectSmartSources random engineSort targetCount e d).1 in
  List.NoDup (map (fun a => id a.1) out)
  /\ (forall a, In a out -> In a.1 generateSearchURLs)
  /\ (length out <= 25)%nat.
Proof.
  cbv zeta. unfold selectSmartSources, getBestSources.
  destruct (0 <? length (sourcePerformance e))%nat.
  - pose proof (engineSort_perm _ (jitterCompare random)
                  (map (withAiScore e) generateSearchURLs) d) as Hp.
    destruct (engineSort _ (jitterCompare random) _ d) as [sorted n']. cbn [fst] in *.
    destruct (slice0_prefix
                (JSNum.ToIntegerOrInfinity (JSNum.Math_ceil (targetCount / 10))) sorted)
      as [k ->].
    apply prefix_of_the_sources.
    apply (Permutation_map fst) in Hp. rewrite map_map in Hp.
    cbn [withAiScore fst] in Hp. now rewrite map_id in Hp.
  - destruct (ScraperProps.withRandScore_spec random generateSearchURLs d) as [Hm _].
    destruct (withRandScore random generateSearchURLs d) as [weighted n']. cbn [fst] in *.
    destruct (slice0_prefix
                (JSNum.ToIntegerOrInfinity
                   (JSNum.Math_max (JSNum.Math_ceil (targetCount / 10)) 3))
                (JSArray.sort byRandScore weighted)) as [k ->].
    apply prefix_of_the_sources.
    rewrite <- Hm at 1. apply Permutation_map, JSArrayFacts.sort_perm.
Qed.

End Distinct.

(** A target count that is not a number, with the sample draws. *)
Lemma selectSmartSources_distinct_witness :
  (forall (A : Type) (cmp : A -> A -> Rand float) (l : list A) (n : nat),
      Permutation l (insertionSortRand A cmp l n).1)
  /\ let out := (selectSmartSources someDraws insertionSortRand nan oneSample 0%nat).1 in
     List.NoDup (map (fun a => id a.1) out)
     /\ (forall a, In a out -> In a.1 generateSearchURLs)
     /\ (length out <= 25)%nat.
Proof.
  split; [exact ScraperProps.insertionSortRand_perm|].
  exact (selectSmartSources_returns_distinct_sources someDraws insertionSortRand
           ScraperProps.insertionSortRand_perm nan oneSample 0%nat).
Defined.

(** ** Scrolling a list page *)

Lemma stableAt_repeats (height : nat -> Z) (i : nat) :
  stableAt height i = true <->
  (5 <= i)%nat /\ forall k, (k <= 4)%nat -> repeatsAt height (i - k) = true.
Proof.
  unfold stableAt, repeatsAt. cbn [forallb].
  rewrite !andb_true_iff, negb_true_iff, !Z.eqb_eq, Z.eqb_neq, Nat.leb_le.
  split.
  - intros [[Hi Hz] (H1 & H2 & H3 & H4 & H5 & _)]. split; [exact Hi|].
    intros k Hk.
    rewrite !andb_true_iff, negb_true_iff, Z.eqb_eq, Z.eqb_neq, Nat.leb_le.
    assert (Hall : forall j, (j <= 5)%nat -> height (i - j)%nat = height i).
    { intros j Hj.
      destruct j as [|[|[|[|[|[|j]]]]]]; try assumption; [|lia].
      now rewrite Nat.sub_0_r. }
    replace (i - k - 1)%nat with (i - S k)%nat by lia.
    rewrite !Hall by lia. repeat split; [lia|exact Hz].
  - intros [Hi Hr].
    assert (Hk : forall k, (k <= 4)%nat ->
               height (i - k)%nat <> 0%Z /\ height (i - k)%nat = height (i - S k)%nat).
    { intros k Hk. specialize (Hr k Hk).
      rewrite !andb_true_iff, negb_true_iff, Z.eqb_eq, Z.eqb_neq in Hr.
      replace (i - k - 1)%nat with (i - S k)%nat in Hr by lia. tauto. }
    pose proof (Hk 0%nat ltac:(lia)) as [Hz H0]. rewrite Nat.sub_0_r in Hz, H0.
    pose proof (Hk 1%nat ltac:(lia)) as [_ H1].
    pose proof (Hk 2%nat ltac:(lia)) as [_ H2].
    pose proof (Hk 3%nat ltac:(lia)) as [_ H3].
    pose proof (Hk 4%nat ltac:(lia)) as [_ H4].
    repeat split; try assumption; congruence.
Qed.

(** The loop, entered at reading [i] with [stableCount] repeats behind it. *)
Lemma scrollLoop_spec (height : nat -> Z) (left i : nat) (lastH : Z) (stableCount : nat) :
  (stableCount < 5)%nat ->
  (i = 0%nat /\ lastH = 0%Z /\ stableCount = 0%nat
   \/ (stableCount < i)%nat /\ lastH = height (i - 1)%nat
      /\ repeatsAt height (i - stableCount - 1) = false
      /\ forall j, (i - stableCount <= j < i)%nat -> repeatsAt height j = true) ->
  (forall j, (j < i)%nat -> stableAt height j = false) ->
  let n := scrollLoop height left i lastH stableCount in
  (n <= left)%nat
  /\ (forall j, (j < i + n)%nat -> stableAt height j = false)
  /\ ((n < left)%nat -> stableAt height (i + n) = true).
Proof.
  revert i lastH stableCount.
  induction left as [|left IH]; intros i lastH c Hc Hinv Hbefore; cbv zeta.
  - simpl. split; [lia|]. split; [|lia].
    intros j Hj. apply Hbefore. lia.
  - cbn [scrollLoop].
    assert (Htest : (negb (height i =? 0)%Z && (height i =? lastH)%Z)
                    = repeatsAt height i).
    { unfold repeatsAt. destruct Hinv as [(-> & -> & _)|(Hci & -> & _)].
      - simpl. now destruct (height 0%nat =? 0)%Z.
      - replace (1 <=? i)%nat with true by (symmetry; apply Nat.leb_le; lia).
        reflexivity. }
    rewrite Htest. destruct (repeatsAt height i) eqn:Hrep.
    + assert (Hi : (c < i)%nat).
      { destruct Hinv as [(-> & _ & _)|(Hci & _)]; [|exact Hci].
        unfold repeatsAt in Hrep. simpl in Hrep. discriminate. }
      destruct Hinv as [(-> & _)|(_ & _ & Hmax & Hrun)]; [lia|].
      destruct (Nat.leb_spec 5 (c + 1)) as [Hfive|Hless].
      * rewrite Nat.add_0_r. split; [lia|]. split; [exact Hbefore|].
        intros _. apply stableAt_repeats. split; [lia|].
        intros k Hk. destruct k as [|k]; [now rewrite Nat.sub_0_r|].
        apply Hrun. lia.
      * assert (Hnot : stableAt height i = false).
        { destruct (stableAt height i) eqn:Hs; [|reflexivity].
          apply stableAt_repeats in Hs as [Hi5 Hs].
          specialize (Hs (S c) ltac:(lia)).
          replace (i - S c)%nat with (i - c - 1)%nat in Hs by lia. congruence. }
        destruct (IH (S i) (height i) (c + 1)%nat) as (Hle & Hno & Hstop).
        -- lia.
        -- right. split; [lia|]. split; [f_equal; lia|]. split.
           ++ replace (S i - (c + 1) - 1)%nat with (i - c - 1)%nat by lia. exact Hmax.
           ++ intros j Hj. destruct (Nat.eq_dec j i) as [->|Hne]; [exact Hrep|].
              apply Hrun. lia.
        -- intros j Hj. destruct (Nat.eq_dec j i) as [->|Hne]; [exact Hnot|].
           apply Hbefore. lia.
        -- split; [lia|]. split.
           ++ intros j Hj. apply Hno. lia.
           ++ intros Hlt. replace (i + S _)%nat with (S i + scrollLoop height left (S i) (height i) (c + 1))%nat by lia.
              apply Hstop. lia.
    + assert (Hnot : stableAt height i = false).
      { destruct (stableAt height i) eqn:Hs; [|reflexivity].
        apply stableAt_repeats in Hs as [Hi5 Hs].
        specialize (Hs 0%nat ltac:(lia)). rewrite Nat.sub_0_r in Hs. congruence. }
      destruct (IH (S i) (height i) 0%nat) as (Hle & Hno & Hstop).
      * lia.
      * right. split; [lia|]. split; [f_equal; lia|]. split.
        -- replace (S i - 0 - 1)%nat with i by lia. exact Hrep.
        -- intros j Hj. lia.
      * intros j Hj. destruct (Nat.eq_dec j i) as [->|Hne]; [exact Hnot|].
        apply Hbefore. lia.
      * split; [lia|]. split.
        -- intros j Hj. apply Hno. lia.
        -- intros Hlt. replace (i + S _)%nat with (S i + scrollLoop height left (S i) (height i) 0)%nat by lia.
           apply Hstop. lia.
Qed.

(** X12: [autoScrollRobust] scrolls at most [rounds] times, and it stops
    before that exactly at the first reading [n] at which the page height
    has been one and the same non-zero value for six readings in a row
    ([n - 5 .. n]): no earlier reading is stable, and when fewer than
    [rounds] scrolls were made the reading [n] is. In particular a page
    whose height cannot be read (every reading [0]) is scrolled [rounds]
    times. *)
Theorem autoScrollRobust_stops_at_the_first_stable_reading
    (height : nat -> Z) (rounds : nat) :
  let n := autoScrollRobust height rounds in
  (n <= rounds)%nat
  /\ (forall j, (j < n)%nat -> stableAt height j = false)
  /\ ((n < rounds)%nat -> stableAt height n = true)
  /\ ((forall i, height i = 0%Z) -> n = rounds).
Proof.
  cbv zeta. unfold autoScrollRobust.
  destruct (scrollLoop_spec height rounds 0 0%Z 0) as (Hle & Hno & Hstop).
  - lia.
  - now left.
  - intros j Hj. lia.
  - cbn [Nat.add] in *. split; [exact Hle|]. split; [exact Hno|]. split; [exact Hstop|].
    intros Hzero.
    destruct (Nat.eq_dec (scrollLoop height rounds 0 0%Z 0) rounds) as [->|Hne];
      [reflexivity|].
    specialize (Hstop ltac:(lia)). unfold stableAt in Hstop.
    rewrite Hzero in Hstop. simpl in Hstop.
    rewrite andb_false_r in Hstop. discriminate.
Qed.

(** ** Collecting links *)

Lemma setAdd_In (x y : string) (l : list string) :
  In y (setAdd x l) <-> y = x \/ In y l.
Proof.
  unfold setAdd. destruct (existsb (String.eqb x) l) eqn:He.
  - apply existsb_exists in He as (z & Hz & Hxz). apply String.eqb_eq in Hxz.
    subst z. split; [now right|]. now intros [->|H].
  - rewrite in_app_iff. simpl. split; intros H; [|destruct H as [->|H]]; intuition.
Qed.

Lemma setAdd_NoDup (x : string) (l : list string) :
  List.NoDup l -> List.NoDup (setAdd x l).
Proof.
  intros Hn. unfold setAdd. destruct (existsb (String.eqb x) l) eqn:He; [exact Hn|].
  apply NoDup_ListNoDup. apply NoDup_ListNoDup in Hn.
  apply NoDup_app. split; [exact Hn|]. split; [|apply NoDup_singleton].
  intros y Hy Hx. apply list_elem_of_singleton in Hx. subst y.
  apply list_elem_of_In in Hy.
  assert (existsb (String.eqb x) l = true); [|congruence].
  apply existsb_exists. exists x. split; [exact Hy|apply String.eqb_refl].
Qed.

Lemma setAdd_length (x : string) (l : list string) :
  (length l <= length (setAdd x l) <= S (length l))%nat.
Proof.
  unfold setAdd. destruct (existsb (String.eqb x) l); [lia|].
  rewrite length_app. simpl. lia.
Qed.

Lemma addLinks_spec (maxResults : Z) (links collected : list string) :
  List.NoDup collected ->
  (Z.of_nat (length collected) < maxResults * 2)%Z ->
  let c := addLinks maxResults links collected in
  List.NoDup c
  /\ (Z.of_nat (length c) <= maxResults * 2)%Z
  /\ (forall y, In y c -> In y collected \/ In y links)
  /\ (forall y, In y collected -> In y c)
  /\ ((Z.of_nat (length c) < maxResults * 2)%Z -> forall y, In y links -> In y c).
Proof.
  revert collected. induction links as [|link rest IH]; intros collected Hn Hlt; cbv zeta.
  - simpl. repeat split; try assumption; try lia; intuition.
  - cbn [addLinks].
    pose proof (setAdd_NoDup link collected Hn) as Hn'.
    pose proof (setAdd_length link collected) as Hlen.
    destruct (Z.leb_spec (maxResults * 2) (Z.of_nat (length (setAdd link collected))))
      as [Hfull|Hroom].
    + split; [exact Hn'|]. split; [lia|]. split; [|split].
      * intros y Hy. apply setAdd_In in Hy as [->|Hy]; [right; now left|now left].
      * intros y Hy. apply setAdd_In. now right.
      * lia.
    + destruct (IH _ Hn' Hroom) as (H1 & H2 & H3 & H4 & H5).
      split; [exact H1|]. split; [exact H2|]. split; [|split].
      * intros y Hy. destruct (H3 y Hy) as [Hc|Hr]; [|right; now right].
        apply setAdd_In in Hc as [->|Hc]; [right; now left|now left].
      * intros y Hy. apply H4, setAdd_In. now right.
      * intros Hlt' y [<-|Hy]; [|now apply H5].
        apply H4, setAdd_In. now left.
Qed.

Lemma collectLinks_collected (LIST_SCROLL_ROUNDS : float) (maxResults : Z)
    (sources : list (Source * list string)) (st : Collecting) :
  List.NoDup (c_collected st) ->
  (Z.of_nat (length (c_collected st)) < maxResults * 2)%Z ->
  let c := c_collected (collectLinks LIST_SCROLL_ROUNDS maxResults sources st) in
  List.NoDup c
  /\ (Z.of_nat (length c) <= maxResults * 2)%Z
  /\ (forall y, In y c ->
        In y (c_collected st) \/ exists s, In s sources /\ In y s.2)
  /\ (forall y, In y (c_collected st) -> In y c)
  /\ ((Z.of_nat (length c) < maxResults * 2)%Z ->
      forall s y, In s sources -> In y s.2 -> In y c).
Proof.
  revert st. induction sources as [|[source links] rest IH]; intros st Hn Hlt; cbv zeta.
  - simpl. repeat split; try assumption; try lia; intuition.
  - cbn [collectLinks].
    destruct (recommendScrollRounds LIST_SCROLL_ROUNDS 0 (c_engine st)) as [e1 adaptiveRounds].
    destruct (addLinks_spec maxResults links (c_collected st) Hn Hlt)
      as (A1 & A2 & A3 & A4 & A5).
    destruct (Z.leb_spec (maxResults * 2)
                (Z.of_nat (length (addLinks maxResults links (c_collected st)))))
      as [Hfull|Hroom]; cbn [c_collected].
    + split; [exact A1|]. split; [exact A2|]. split; [|split].
      * intros y Hy. destruct (A3 y Hy) as [Hc|Hl]; [now left|].
        right. exists (source, links). split; [now left|exact Hl].
      * exact A4.
      * lia.
    + match goal with |- context [collectLinks _ _ rest ?s] => set (st' := s) end.
      destruct (IH st' A1 Hroom) as (H1 & H2 & H3 & H4 & H5).
      split; [exact H1|]. split; [exact H2|]. split; [|split].
      * intros y Hy. destruct (H3 y Hy) as [Hc|(s & Hs & Hys)].
        -- destruct (A3 y Hc) as [Hc'|Hl]; [now left|].
           right. exists (source, links). split; [now left|exact Hl].
        -- right. exists s. split; [now right|exact Hys].
      * intros y Hy. now apply H4, A4.
      * intros Hlt' s y [<-|Hs] Hy.
        -- apply H4, A5; [exact Hroom|exact Hy].
        -- now apply (H5 Hlt' s).
Qed.

(** X13: for a result limit of at least 1, the links phase 1 of
    [scrapeListings] collects are pairwise different, each was found on
    the page of one of the sources, and there are at most twice the
    limit; when there are fewer, every link of every source was
    collected. The queue handed to the workers holds pairwise different
    collected links, at most the limit. *)
Theorem collectLinks_gathers_distinct_links_up_to_twice_the_limit
    (LIST_SCROLL_ROUNDS : float) (maxResults : Z)
    (sources : list (Source * list string)) :
  (1 <= maxResults)%Z ->
  let collected :=
    c_collected (collectLinks LIST_SCROLL_ROUNDS maxResults sources
                   (mkCollecting newEngine [] [])) in
  let queue := sampled maxResults collected in
  List.NoDup collected
  /\ (Z.of_nat (length collected) <= maxResults * 2)%Z
  /\ (forall link, In link collected -> exists s, In s sources /\ In link s.2)
  /\ ((Z.of_nat (length collected) < maxResults * 2)%Z ->
      forall s link, In s sources -> In link s.2 -> In link collected)
  /\ List.NoDup queue
  /\ (Z.of_nat (length queue) <= maxResults)%Z
  /\ (forall link, In link queue -> In link collected).
Proof.
  intros Hmax. cbv zeta.
  destruct (collectLinks_collected LIST_SCROLL_ROUNDS maxResults sources
              (mkCollecting newEngine [] []))
    as (H1 & H2 & H3 & _ & H5).
  - constructor.
  - simpl. lia.
  - set (collected := c_collected _) in *.
    split; [exact H1|]. split; [exact H2|]. split; [|split; [exact H5|]].
    + intros link Hl. destruct (H3 link Hl) as [[]|Hs]. exact Hs.
    + unfold sampled. split; [|split].
      * rewrite <- (firstn_skipn (Z.to_nat maxResults) collected) in H1.
        now apply NoDup_app_remove_r in H1.
      * rewrite length_firstn. lia.
      * intros link Hl.
        rewrite <- (firstn_skipn (Z.to_nat maxResults) collected).
        apply in_or_app. now left.
Qed.

(** Three sources and a limit of 2: the third page is not visited. *)
Lemma collectLinks_witness :
  (1 <= 2)%Z
  /\ c_collected (collectLinks 25 2
                    (map (fun s => (s, ["/a"; "/b"; "/a"; "/c"]%string))
                         (firstn 3 generateSearchURLs))
                    (mkCollecting newEngine [] []))
     = ["/a"; "/b"; "/c"]%string ++ []
  /\ let collected :=
       c_collected (collectLinks 25 2
                      (map (fun s => (s, ["/a"; "/b"; "/a"; "/c"]%string))
                           (firstn 3 generateSearchURLs))
                      (mkCollecting newEngine [] [])) in
     let queue := sampled 2 collected in
     List.NoDup collected
     /\ (Z.of_nat (length collected) <= 2 * 2)%Z
     /\ (forall link, In link collected ->
           exists s, In s (map (fun s => (s, ["/a"; "/b"; "/a"; "/c"]%string))
                             (firstn 3 generateSearchURLs)) /\ In link s.2)
     /\ ((Z.of_nat (length collected) < 2 * 2)%Z ->
         forall s link,
           In s (map (fun s => (s, ["/a"; "/b"; "/a"; "/c"]%string))
                     (firstn 3 generateSearchURLs)) -> In link s.2 -> In link collected)
     /\ List.NoDup queue
     /\ (Z.of_nat (length queue) <= 2)%Z
     /\ (forall link, In link queue -> In link collected).
Proof.
  split; [lia|]. split; [vm_compute; reflexivity|].
  apply (collectLinks_gathers_distinct_links_up_to_twice_the_limit 25 2). lia.
Defined.

(** ** The scroll rounds of a run *)

Lemma skipn_repeat {A} (a : A) (m n : nat) :
  skipn m (repeat a n) = repeat a (n - m).
Proof.
  revert n. induction m as [|m IH]; intros [|n]; simpl; try reflexivity.
  apply IH.
Qed.

Lemma recordSourcePerformance_scroll (sourceId : string) (metrics : Metrics) (e : Engine) :
  scrollEffectiveness (recordSourcePerformance sourceId metrics e) = scrollEffectiveness e.
Proof. reflexivity. Qed.

(** With nothing but samples of no links behind it, the engine keeps the
    rounds for two sources and raises them from the third on. *)
Lemma recommendScrollRounds_no_links (L : float) (e : Engine) (k : nat) :
  scrollEffectiveness e = repeat (mkScrollSample L 0) k ->
  (recommendScrollRounds L 0 e).2
  = if (k <? 2)%nat then L else JSNum.Math_min (L + 5) 35.
Proof.
  intros He. rewrite ScraperProps.recommendScrollRounds_value. cbv zeta.
  rewrite He, <- repeat_cons. change (mkScrollSample L 0 :: repeat _ k)
    with (repeat (mkScrollSample L 0) (S k)).
  rewrite repeat_length.
  destruct (Nat.ltb_spec (S k) 3) as [Hlt|Hge].
  - replace (k <? 2)%nat with true by (symmetry; apply Nat.ltb_lt; lia). reflexivity.
  - replace (k <? 2)%nat with false by (symmetry; apply Nat.ltb_ge; lia).
    unfold JSArraySlice.lastn. rewrite repeat_length, skipn_repeat.
    replace (S k - (S k - 3))%nat with 3%nat by lia.
    replace (fold_left (fun sum x => sum + links x) (repeat (mkScrollSample L 0) 3) 0 / 3 <? 8)
      with true by (vm_compute; reflexivity).
    reflexivity.
Qed.

Lemma collectLinks_rounds (L : float) (maxResults : Z)
    (sources : list (Source * list string)) (st : Collecting) :
  scrollEffectiveness (c_engine st) = repeat (mkScrollSample L 0) (length (c_rounds st)) ->
  (forall k r, c_rounds st !! k = Some r ->
               r = if (k <? 2)%nat then L else JSNum.Math_min (L + 5) 35) ->
  let st' := collectLinks L maxResults sources st in
  (forall k r, c_rounds st' !! k = Some r ->
               r = if (k <? 2)%nat then L else JSNum.Math_min (L + 5) 35)
  /\ (length (c_rounds st) <= length (c_rounds st')
      <= length (c_rounds st) + length sources)%nat
  /\ scrollEffectiveness (c_engine st') = repeat (mkScrollSample L 0) (length (c_rounds st')).
Proof.
  revert st. induction sources as [|[source links] rest IH]; intros st He Hr; cbv zeta.
  - simpl. split; [exact Hr|]. split; [lia|exact He].
  - cbn [collectLinks].
    pose proof (recommendScrollRounds_no_links L (c_engine st) _ He) as Hval.
    pose proof (ScraperProps.recommendScrollRounds_history L 0 (c_engine st)) as Hhist.
    destruct (recommendScrollRounds L 0 (c_engine st)) as [e1 adaptiveRounds].
    cbn [fst snd] in Hval, Hhist.
    match goal with |- context [if _ then ?s else _] => set (st' := s) end.
    assert (He' : scrollEffectiveness (c_engine st')
                  = repeat (mkScrollSample L 0) (length (c_rounds st'))).
    { unfold st'. cbn [c_engine c_rounds].
      rewrite recordSourcePerformance_scroll, Hhist, He, length_app.
      simpl. rewrite Nat.add_1_r. symmetry. apply repeat_cons. }
    assert (Hr' : forall k r, c_rounds st' !! k = Some r ->
                    r = if (k <? 2)%nat then L else JSNum.Math_min (L + 5) 35).
    { unfold st'. cbn [c_rounds]. intros k r Hk.
      apply lookup_app_Some in Hk as [Hk|[Hge Hk]]; [now apply Hr|].
      apply list_lookup_singleton_Some in Hk as [Hk <-].
      replace k with (length (c_rounds st)) by lia. exact Hval. }
    assert (Hlen : length (c_rounds st') = S (length (c_rounds st))).
    { unfold st'. cbn [c_rounds]. rewrite length_app. simpl. lia. }
    destruct (maxResults * 2 <=? _)%Z.
    + split; [exact Hr'|]. split; [rewrite Hlen; cbn [length]; lia|exact He'].
    + destruct (IH st' He' Hr') as (H1 & H2 & H3). rewrite Hlen in H2.
      split; [exact H1|]. split; [cbn [length]; lia|exact H3].
Qed.

(** X14: in a run, whatever links the pages yield, the round bound
    handed to [autoScrollRobust] (the most it may scroll) is
    [LIST_SCROLL_ROUNDS] for the first two sources visited and
    [LIST_SCROLL_ROUNDS + 5] capped at 35 for every later one:
    [LIST_SCROLL_ROUNDS + 5] itself when that is below 35, and 35 when it
    is 35 or more. The links found play no part, because every sample
    the engine is given says that no link was found. No more sources are
    visited than were selected. *)
Theorem scroll_rounds_of_a_run (LIST_SCROLL_ROUNDS : float) (maxResults : Z)
    (sources : list (Source * list string)) :
  let st := collectLinks LIST_SCROLL_ROUNDS maxResults sources
              (mkCollecting newEngine [] []) in
  (forall k r, c_rounds st !! k = Some r ->
     r = (if (k <? 2)%nat then LIST_SCROLL_ROUNDS
          else JSNum.Math_min (LIST_SCROLL_ROUNDS + 5) 35)
     /\ ((k < 2)%nat -> r = LIST_SCROLL_ROUNDS)
     /\ ((2 <= k)%nat -> capped (LIST_SCROLL_ROUNDS + 5) 35 r))
  /\ (length (c_rounds st) <= length sources)%nat
  /\ scrollEffectiveness (c_engine st)
     = repeat (mkScrollSample LIST_SCROLL_ROUNDS 0) (length (c_rounds st)).
Proof.
  cbv zeta.
  destruct (collectLinks_rounds LIST_SCROLL_ROUNDS maxResults sources
              (mkCollecting newEngine [] [])) as (H1 & H2 & H3).
  - reflexivity.
  - intros k r Hk. destruct k; discriminate.
  - split; [|split; [simpl in H2; lia|exact H3]].
    intros k r Hk. rewrite (H1 k r Hk). split; [reflexivity|]. split.
    + intros Hlt. apply Nat.ltb_lt in Hlt. now rewrite Hlt.
    + intros Hge. apply Nat.ltb_ge in Hge. rewrite Hge.
      apply ScraperProps.Math_min_capped.
Qed.

(** ** The range of the scores *)

Lemma sf_eqb_eq (a b : spec_float) : sf_eqb a b = true -> a = b.
Proof.
  destruct a as [s|s| |s m e], b as [t|t| |t n f]; simpl; try discriminate;
    try reflexivity.
  - intros H. apply Bool.eqb_prop in H. now subst.
  - intros H. apply Bool.eqb_prop in H. now subst.
  - rewrite !andb_true_iff. intros [[H1 H2] H3].
    apply Bool.eqb_prop in H1. apply Pos.eqb_eq in H2. apply Z.eqb_eq in H3.
    now subst.
Qed.

Lemma isPercent_spec (x : float) :
  isPercent x = true -> exists z, (0 <= z <= 100)%Z /\ x = JSNum.of_Z z.
Proof.
  unfold isPercent, percentTable. intros H.
  apply existsb_exists in H as (s & Hs & He).
  apply in_map_iff in Hs as (z & <- & Hz).
  apply in_map_iff in Hz as (k & <- & Hk). apply in_seq in Hk.
  exists (Z.of_nat k). split; [lia|].
  apply FloatAxioms.Prim2SF_inj. now apply sf_eqb_eq.
Qed.

Lemma in_bools (b : bool) : In b [true; false].
Proof. destruct b; simpl; tauto. Qed.

Lemma scoreDataCompleteness_values (l : Listing) :
  In (scoreDataCompleteness l) completenessValues.
Proof.
  unfold scoreDataCompleteness, completenessValues.
  change (length (completenessChecks l)) with 12%nat.
  apply (in_map (fun k => JSNum.of_nat k / JSNum.of_nat 12)).
  apply in_seq.
  match goal with |- context [List.filter ?f (completenessChecks l)] =>
    pose proof (filter_length_le f (completenessChecks l)) as H end.
  change (length (completenessChecks l)) with 12%nat in H. lia.
Qed.

Lemma contactValue_in (b1 b2 b3 b4 b5 : bool) :
  In (contactValue b1 b2 b3 b4 b5) contactValues.
Proof.
  unfold contactValues.
  apply in_flat_map; exists b1; split; [apply in_bools|].
  apply in_flat_map; exists b2; split; [apply in_bools|].
  apply in_flat_map; exists b3; split; [apply in_bools|].
  apply in_flat_map; exists b4; split; [apply in_bools|].
  apply in_flat_map; exists b5; split; [apply in_bools|].
  now left.
Qed.

Lemma scoreContactQuality_values (l : Listing) :
  In (scoreContactQuality l) contactValues.
Proof.
  assert (H : exists b1 b2 b3 b4 b5,
             scoreContactQuality l = contactValue b1 b2 b3 b4 b5).
  { unfold scoreContactQuality, contactValue. cbv zeta.
    exists (match contact_phone l with
            | Some ph => JSString.truthy ph
                         && isThaiPhone (JSString.removeAll isSpaceOrHyphen ph)
            | None => false
            end),
           (match contact_email l with
            | Some em => JSString.truthy em && JSString.includesChar "@" em
            | None => false
            end),
           (JSString.truthyOpt (contact_line_url l)),
           (JSString.truthy (agent_name l) && (2 <? String.length (agent_name l))%nat),
           (agent_verified l).
    destruct (contact_phone l), (contact_email l); reflexivity. }
  destruct H as (b1 & b2 & b3 & b4 & b5 & ->). apply contactValue_in.
Qed.

Lemma scoreImageQuality_values (l : Listing) :
  In (scoreImageQuality l) imageValues.
Proof.
  unfold scoreImageQuality, imageValues.
  destruct (negb (JSString.truthy (images l))); [now left|].
  cbv zeta.
  destruct (Nat.eqb_spec
              (length (List.filter JSString.truthy (JSString.splitChar "|" (images l)))) 0)
    as [_|Hpos]; [now left|].
  destruct (Nat.leb_spec 10
              (length (List.filter JSString.truthy (JSString.splitChar "|" (images l)))))
    as [_|Hlt]; [right; now left|].
  right. right. apply (in_map (fun k => JSNum.of_nat k / 10)).
  apply in_seq. lia.
Qed.

Lemma priceValue_in (b1 b2 b3 : bool) : In (priceValue b1 b2 b3) priceValues.
Proof.
  unfold priceValues. right.
  apply in_flat_map; exists b1; split; [apply in_bools|].
  apply in_flat_map; exists b2; split; [apply in_bools|].
  apply in_flat_map; exists b3; split; [apply in_bools|].
  now left.
Qed.

Lemma scorePriceReliability_values (l : Listing) :
  In (scorePriceReliability l) priceValues.
Proof.
  unfold scorePriceReliability.
  destruct (price_value l) as [p|]; [|now left].
  destruct (negb (JSNum.truthy p) || (p <=? 0)); [now left|].
  cbv zeta.
  assert (H : exists b1 b2 b3,
             JSNum.Math_min
               (if JSString.truthyOpt (old_price_text l)
                then (if (100000 <? p) && (p <? 1000000000)
                      then match price_psm l with
                           | Some q => if JSNum.truthy q && (0 <? q) then 0.5 + 0.2 else 0.5
                           | None => 0.5
                           end + 0.2
                      else match price_psm l with
                           | Some q => if JSNum.truthy q && (0 <? q) then 0.5 + 0.2 else 0.5
                           | None => 0.5
                           end) + 0.1
                else (if (100000 <? p) && (p <? 1000000000)
                      then match price_psm l with
                           | Some q => if JSNum.truthy q && (0 <? q) then 0.5 + 0.2 else 0.5
                           | None => 0.5
                           end + 0.2
                      else match price_psm l with
                           | Some q => if JSNum.truthy q && (0 <? q) then 0.5 + 0.2 else 0.5
                           | None => 0.5
                           end)) 1
             = priceValue b1 b2 b3).
  { exists (match price_psm l with
            | Some q => JSNum.truthy q && (0 <? q)
            | None => false
            end),
           ((100000 <? p) && (p <? 1000000000)),
           (JSString.truthyOpt (old_price_text l)).
    unfold priceValue. cbv zeta.
    destruct (price_psm l) as [q|]; [destruct (JSNum.truthy q && (0 <? q))|];
      reflexivity. }
  destruct H as (b1 & b2 & b3 & ->). apply priceValue_in.
Qed.

Lemma forallb4 {A B C D} (f : A -> B -> C -> D -> bool) la lb lc ld :
  forallb (fun a => forallb (fun b => forallb (fun c => forallb (fun d =>
    f a b c d) ld) lc) lb) la = true ->
  forall a b c d, In a la -> In b lb -> In c lc -> In d ld -> f a b c d = true.
Proof.
  intros H a b c d Ha Hb Hc Hd.
  rewrite forallb_forall in H. specialize (H a Ha).
  rewrite forallb_forall in H. specialize (H b Hb).
  rewrite forallb_forall in H. specialize (H c Hc).
  rewrite forallb_forall in H. exact (H d Hd).
Qed.

(** Every combination of the partial scores gives a whole percentage:
    13 x 32 x 11 x 9 cases. *)
Lemma qualityValues_checked :
  forallb (fun c => forallb (fun q => forallb (fun i => forallb (fun p =>
    isPercent (qualityOf c q i p)) priceValues) imageValues) contactValues)
    completenessValues = true.
Proof. vm_compute. reflexivity. Qed.

Lemma completenessValues_checked :
  forallb (fun c => isPercent (JSNum.Math_round (c * 100))) completenessValues = true.
Proof. vm_compute. reflexivity. Qed.

Lemma calculateQualityScore_qualityOf (row : Listing) :
  calculateQualityScore row
  = qualityOf (scoreDataCompleteness row) (scoreContactQuality row)
      (scoreImageQuality row) (scorePriceReliability row).
Proof. reflexivity. Qed.

Lemma calculateQualityScore_percent (row : Listing) :
  exists z, (0 <= z <= 100)%Z /\ calculateQualityScore row = JSNum.of_Z z.
Proof.
  rewrite calculateQualityScore_qualityOf. apply isPercent_spec.
  apply (forallb4 (fun c q i p => isPercent (qualityOf c q i p))
           completenessValues contactValues imageValues priceValues
           qualityValues_checked).
  - apply scoreDataCompleteness_values.
  - apply scoreContactQuality_values.
  - apply scoreImageQuality_values.
  - apply scorePriceReliability_values.
Qed.

Lemma data_completeness_percent (row : Listing) :
  exists z, (0 <= z <= 100)%Z
            /\ JSNum.Math_round (scoreDataCompleteness row * 100) = JSNum.of_Z z.
Proof.
  apply isPercent_spec.
  exact (proj1 (forallb_forall (fun c => isPercent (JSNum.Math_round (c * 100)))
                  completenessValues)
           completenessValues_checked _ (scoreDataCompleteness_values row)).
Qed.

Lemma scored_fields (v : float) (a : option string) (d p q : option float) (row : Listing) :
  let r := set_value_score v
             (set_anomaly_flags a
                (set_data_completeness d (set_price_score p (set_quality_score q row)))) in
  quality_score r = q /\ data_completeness r = d.
Proof. now destruct row. Qed.

(** X15: whatever the listing, the [quality_score] and the
    [data_completeness] the worker stores on a row are whole numbers from
    0 to 100. *)
Theorem stored_scores_are_whole_percentages (e : Engine) (row : Listing) :
  let r := scoreRow e row in
  (exists z, (0 <= z <= 100)%Z /\ quality_score r = Some (JSNum.of_Z z))
  /\ (exists z, (0 <= z <= 100)%Z /\ data_completeness r = Some (JSNum.of_Z z)).
Proof.
  cbv zeta. rewrite ScraperProps.scoreRow_assignments.
  match goal with |- context [set_value_score ?v (set_anomaly_flags ?a
      (set_data_completeness ?d (set_price_score ?p (set_quality_score ?q row))))] =>
    destruct (scored_fields v a d p q row) as [-> ->] end.
  split.
  - destruct (calculateQualityScore_percent row) as (z & Hz & ->). now exists z.
  - destruct (data_completeness_percent row) as (z & Hz & ->). now exists z.
Qed.

End ScraperExtra.
